(** * process-otu-data: pruning, normalisation and taxonomic resolution

    A shallow embedding of [process-otu-data.py].

    Conventions of the embedding.
    - Python [int] is [Z].  True division [a / b] of two ints is the exact
      rational quotient in [Q], raising [ZeroDivisionError] when [b] is zero;
      the rounding of the binary64 result is outside the model.
    - A Python exception is a constructor of [exn]; code that can raise
      returns a [result].
    - Code that talks to the Open Tree of Life service, sleeps or writes
      diagnostics runs in the monad [M] over a [world]; the service itself is
      a parameter.  The [while contact_otl] loops have no bound in the source,
      so they take a retry budget and a run that exhausts it has no final
      state ([None]).
    - A [dict] with string keys is a [gmap string _]. *)

From Stdlib Require Import ZArith QArith Lqa Lia String Ascii List.
From Stdlib Require DecimalString.
From stdpp Require Import base list strings gmap sorting.

Open Scope Z_scope.

(** ** Exceptions and results *)

Inductive exn : Type :=
| IndexError
| KeyError
| ZeroDivisionError
| AttributeError
| ValueError
| TypeError
| StopIteration
| SSLError
| ConnectionError
| SystemExit (code : Z).

Inductive result (A : Type) : Type :=
| Ok (a : A)
| Raise (e : exn).
Arguments Ok {A} a.
Arguments Raise {A} e.

#[global] Instance result_ret : MRet result := λ A a, Ok a.
#[global] Instance result_bind : MBind result := λ A B f r,
  match r with
  | Ok a => f a
  | Raise e => Raise e
  end.

(** [l[i]] for [0 <= i]. *)
Definition py_index {A} (l : list A) (i : nat) : result A :=
  match l !! i with
  | Some x => Ok x
  | None => Raise IndexError
  end.

(** [range(n)] *)
Definition range (n : nat) : list nat := seq 0 n.

(** [a / b] on two ints. *)
Definition py_truediv (a b : Z) : result Q :=
  if b =? 0 then Raise ZeroDivisionError else Ok (inject_Z a / inject_Z b)%Q.

(** [sum(l)] on a list of ints. *)
Definition py_sum (l : list Z) : Z := foldr Z.add 0 l.

(** [zip] applied to the unpacked rows: the columns, cut at the shortest
    row. *)
Fixpoint zip_star {A} (rows : list (list A)) : list (list A) :=
  match rows with
  | [] => []
  | [r] => (λ x, [x]) <$> r
  | r :: rs => zip_with cons r (zip_star rs)
  end.

(** ** The numeric stage of [process_data] *)

Definition PRUNING_VALUE_default : Q := 3 # 2.

Section numeric.
(** [PRUNING_VALUE], the adjustable module constant. *)
Variable PRUNING_VALUE : Q.

(** The body of the inner loop of "prune counts below cutoff":
    [controls[i] and data[i][j] / controls[i] <= PRUNING_VALUE]. *)
Definition prune_cell (controls : list Z) (i : nat) (d : Z) : result Z :=
  c ← py_index controls i;
  if c =? 0 then Ok d
  else q ← py_truediv d c;
       Ok (if Qle_bool q PRUNING_VALUE then 0 else d).

(** "prune counts below cutoff" *)
Definition prune (controls : list Z) (data : list (list Z)) : result (list (list Z)) :=
  mapM (λ i, row ← py_index data i; mapM (prune_cell controls i) row)
       (range (length data)).

(** "get sums of pruned counts" *)
Definition column_sums (data_processed : list (list Z)) : list Z :=
  py_sum <$> zip_star data_processed.

(** "get proportions" *)
Definition proportions (data_processed : list (list Z)) : result (list (list Q)) :=
  let sums := column_sums data_processed in
  mapM (λ i, row ← py_index data_processed i;
             mapM (λ j, x ← py_index row j;
                        s ← py_index sums j;
                        py_truediv x s)
                  (range (length row)))
       (range (length data_processed)).

Definition prune_and_normalize (controls : list Z) (data : list (list Z))
  : result (list (list Q)) :=
  data_processed ← prune controls data;
  proportions data_processed.

End numeric.

(** What the pruning loop leaves in a cell with raw count [d] whose row has
    control count [c]; used to state the outcome of [prune]. *)
Definition pruned_value (thr : Q) (c d : Z) : Z :=
  if c =? 0 then d
  else if Qle_bool (inject_Z d / inject_Z c) thr then 0 else d.

(** The sum of a list of rationals and the [j]-th column of a matrix, used to
    state what the proportions add up to. *)
Definition Qsum (l : list Q) : Q := foldr Qplus 0%Q l.

Definition column {A} (j : nat) (m : list (list A)) : option (list A) :=
  mapM (λ row : list A, row !! j) m.

(** ** Strings *)

(** [c in s] for a one-character [c]. *)
Fixpoint contains (c : ascii) (s : string) : bool :=
  match s with
  | EmptyString => false
  | String a s' => Ascii.eqb a c || contains c s'
  end.

(** [s.split(sep)] for a one-character separator. *)
Fixpoint split (sep : ascii) (s : string) : list string :=
  match s with
  | EmptyString => [EmptyString]
  | String a s' =>
      if Ascii.eqb a sep then EmptyString :: split sep s'
      else match split sep s' with
           | t :: ts => String a t :: ts
           | [] => [String a EmptyString]
           end
  end.

(** The text before and after the last occurrence of [sep], if there is
    one. *)
Fixpoint rpartition (sep : ascii) (s : string) : option (string * string) :=
  match s with
  | EmptyString => None
  | String a s' =>
      match rpartition sep s' with
      | Some (p, q) => Some (String a p, q)
      | None => if Ascii.eqb a sep then Some (EmptyString, s') else None
      end
  end.

(** [s.rsplit(sep, 1)] *)
Definition rsplit1 (sep : ascii) (s : string) : list string :=
  match rpartition sep s with
  | Some (p, q) => [p; q]
  | None => [s]
  end.

(** The characters [str.isspace] accepts below code point 128. *)
Definition is_space (c : ascii) : bool :=
  let n := nat_of_ascii c in
  ((9 <=? n) && (n <=? 13) || (28 <=? n) && (n <=? 32))%nat.

(** [s.split()]: the maximal runs of characters that are not white space. *)
Fixpoint split_whitespace (s : string) : list string :=
  match s with
  | EmptyString => []
  | String a s' =>
      if is_space a then split_whitespace s'
      else match s' with
           | EmptyString => [String a EmptyString]
           | String b _ =>
               if is_space b then String a EmptyString :: split_whitespace s'
               else match split_whitespace s' with
                    | t :: ts => String a t :: ts
                    | [] => [String a EmptyString]
                    end
           end
  end.

(** [s.lower()] on the letters A to Z. *)
Definition lower_char (c : ascii) : ascii :=
  let n := nat_of_ascii c in
  if ((65 <=? n) && (n <=? 90))%nat then ascii_of_nat (n + 32) else c.

Fixpoint lower (s : string) : string :=
  match s with
  | EmptyString => EmptyString
  | String a s' => String (lower_char a) (lower s')
  end.

(** The line feed. *)
Definition newline : string := String (ascii_of_nat 10) EmptyString.

(** [sep.join(l)] *)
Definition join (sep : string) (l : list string) : string := String.concat sep l.

(** [str(n)] on an int. *)
Definition str (n : Z) : string :=
  DecimalString.NilZero.string_of_int (Z.to_int n).

(** ** Python values and dictionaries *)

(** The values met in the dictionaries and in the rows written: str, int,
    float and the float [nan]. *)
Inductive pyval : Type :=
| VStr (s : string)
| VInt (n : Z)
| VFloat (q : Q)
| VNan.

(** [d[k]] *)
Definition py_getitem {V} (d : gmap string V) (k : string) : result V :=
  match d !! k with
  | Some v => Ok v
  | None => Raise KeyError
  end.

(** [try: ... except E: pass], where [handles] tells the exceptions [E]
    covers and [fallback] is the state the handler leaves. *)
Definition except_pass {A} (handles : exn → bool) (body : result A) (fallback : A)
  : result A :=
  match body with
  | Ok a => Ok a
  | Raise e => if handles e then Ok fallback else Raise e
  end.

Definition is_KeyError (e : exn) : bool :=
  match e with KeyError => true | _ => false end.

Definition is_connection_error (e : exn) : bool :=
  match e with SSLError | ConnectionError => true | _ => false end.

(** [v in l] for a list of str literals. *)
Definition in_strs (v : pyval) (l : list string) : bool :=
  match v with
  | VStr s => bool_decide (s ∈ l)
  | _ => false
  end.

(** "convert Open Tree of Life taxonomy results into dictionary" *)
Definition list2dict (taxlist : list string) : result (gmap string string) :=
  foldl (λ acc x, d ← acc;
                  k ← py_index (split ":" x) 0;
                  v ← py_index (split ":" x) 1;
                  Ok (<[k := v]> d))
        (Ok ∅) taxlist.

(** ** The Open Tree of Life service *)

(** A taxon as the service describes it, in a name match or in a lineage. *)
Record taxon : Type := {
  taxon_rank : string;
  taxon_name : string;
  taxon_unique_name : string;
  taxon_ott_id : Z;
  taxon_tax_sources : list string
}.

(** One entry of ['results']: its ['matches'], each given by its ['taxon']. *)
Record tnrs_result : Type := { matches : list taxon }.

Inductive json : Type :=
| match_names_json (results : list tnrs_result)
| taxon_info_json (t : taxon) (lineage : list taxon)
| message_json (message : string).

Record response : Type := { status_code : Z; body : json }.

Inductive request : Type :=
| match_names (names : list string) (do_approximate_matching : bool)
| taxon_info_by_source (source_id : string) (include_lineage : bool)
| taxon_info_by_ott_id (ott_id : Z) (include_lineage : bool).

(** [res.json()['results']], [res.json()['message']] and the fields of a
    taxon description. *)
Definition json_results (j : json) : result (list tnrs_result) :=
  match j with match_names_json r => Ok r | _ => Raise KeyError end.

Definition json_message (j : json) : result string :=
  match j with message_json m => Ok m | _ => Raise KeyError end.

Definition json_taxon (j : json) : result (taxon * list taxon) :=
  match j with taxon_info_json t l => Ok (t, l) | _ => Raise KeyError end.

(** ** The world and the monad of effects *)

Record world : Type := {
  sent : list request;      (* the requests posted so far, oldest first *)
  clock : Z;                (* the seconds spent in [time.sleep] *)
  stderr : list string;     (* what was written to [sys.stderr] *)
  stdout : list string;     (* what was printed *)
  warned : list string      (* the messages of [warnings.warn] *)
}.

(** [None]: the retry budget ran out, the run is still looping. *)
Definition M (A : Type) : Type := world → option (result A * world).

#[global] Instance M_ret : MRet M := λ A a w, Some (Ok a, w).
#[global] Instance M_bind : MBind M := λ A B f m w,
  match m w with
  | Some (Ok a, w') => f a w'
  | Some (Raise e, w') => Some (Raise e, w')
  | None => None
  end.

Definition lift {A} (r : result A) : M A := λ w, Some (r, w).
Definition raise {A} (e : exn) : M A := lift (Raise e).
Definition still_looping {A} : M A := λ _, None.

(** [try: m except E: ...]: [None] when [m] raised an exception of [E]. *)
Definition try_except {A} (m : M A) (handles : exn → bool) : M (option A) := λ w,
  match m w with
  | Some (Ok a, w') => Some (Ok (Some a), w')
  | Some (Raise e, w') => if handles e then Some (Ok None, w') else Some (Raise e, w')
  | None => None
  end.

Definition time_sleep (secs : Z) : M unit := λ w,
  Some (Ok (), {| sent := sent w; clock := clock w + secs; stderr := stderr w;
                  stdout := stdout w; warned := warned w |}).

Definition stderr_write (s : string) : M unit := λ w,
  Some (Ok (), {| sent := sent w; clock := clock w; stderr := stderr w ++ [s];
                  stdout := stdout w; warned := warned w |}).

Definition print (s : string) : M unit := λ w,
  Some (Ok (), {| sent := sent w; clock := clock w; stderr := stderr w;
                  stdout := stdout w ++ [s]; warned := warned w |}).

Definition warnings_warn (s : string) : M unit := λ w,
  Some (Ok (), {| sent := sent w; clock := clock w; stderr := stderr w;
                  stdout := stdout w; warned := warned w ++ [s] |}).

(** What [otl_checkname] hands back: [None], the empty dict, or the dict of
    a name found ([name_id] is its key ['id'], [ncbi_id] is absent when the
    sources name no NCBI id). *)
Record outdict : Type := {
  current_name : string;
  name_id : Z;
  name_source : string;
  higher_taxonomy : gmap string pyval;
  level : string;
  ncbi_id : option string
}.

Inductive checked : Type :=
| PyNone
| EmptyDict
| NameDict (d : outdict).

(** [bool(taxa)] *)
Definition truthy (taxa : checked) : bool :=
  match taxa with
  | NameDict _ => true
  | _ => false
  end.

Definition lineage_keys : list string :=
  ["tax_domain"; "tax_kingdom"; "tax_phylum"; "tax_class"; "tax_order"; "tax_family"].

Section pipeline.
(** The answer of the service to the [n]-th request ([requests.post] raises
    what a [Raise] holds), the text of [time.ctime()] after so many seconds
    of sleep, the records [csv.reader] finds in a file ([None] when the file
    is missing), the built-in [int] on a str, and [PRUNING_VALUE]. *)
Variable service : nat → request → result response.
Variable ctime : Z → string.
Variable files : string → option (list (list string)).
Variable py_int : string → result Z.
Variable PRUNING_VALUE : Q.

Definition requests_post (r : request) : M response := λ w,
  Some (service (length (sent w)) r,
        {| sent := sent w ++ [r]; clock := clock w; stderr := stderr w;
           stdout := stdout w; warned := warned w |}).

Definition time_ctime : M string := λ w, Some (Ok (ctime (clock w)), w).

(** "query Open Tree of Life's taxonomic resolution services" *)
Fixpoint otl_tnrs (retries : nat) (query : string) (do_approximate : bool)
    (wait_time : Z) : M response :=
  match retries with
  | O => still_looping
  | S retries' =>
      attempt ← try_except
        (requests_post (match_names [query; query] do_approximate))
        is_connection_error;
      match attempt with
      | None =>
          now ← time_ctime;
          stderr_write (now +:+ ": error connecting to Open Tree of Life, retrying in "
                        +:+ str wait_time +:+ " seconds");;
          time_sleep wait_time;;
          otl_tnrs retries' query do_approximate wait_time
      | Some res =>
          if status_code res =? 200 then mret res
          else
            now ← time_ctime;
            stderr_write (now +:+ ": error with Open Tree of Life response, retrying in "
                          +:+ str wait_time +:+ " seconds");;
            time_sleep wait_time;;
            otl_tnrs retries' query do_approximate wait_time
      end
  end.

(** "query Open Tree of Life's taxonomy" *)
Fixpoint otl_taxon (retries : nat) (query : Z) (wait_time : Z) (ncbi : bool)
    : M (option response) :=
  match retries with
  | O => still_looping
  | S retries' =>
      attempt ← try_except
        (requests_post (if ncbi
                        then taxon_info_by_source ("ncbi:" +:+ str query) true
                        else taxon_info_by_ott_id query true))
        is_connection_error;
      match attempt with
      | None =>
          now ← time_ctime;
          stderr_write (now +:+ ": error connecting to Open Tree of Life, retrying in "
                        +:+ str wait_time +:+ " seconds");;
          time_sleep wait_time;;
          otl_taxon retries' query wait_time ncbi
      | Some res =>
          if status_code res =? 200 then mret (Some res)
          else if status_code res =? 400 then
            message ← lift (json_message (body res));
            stderr_write message;;
            stderr_write "skipping";;
            mret None
          else
            now ← time_ctime;
            stderr_write (now +:+ ": error contacting Open Tree of Life, retrying in "
                          +:+ str wait_time +:+ " seconds");;
            time_sleep wait_time;;
            otl_taxon retries' query wait_time ncbi
      end
  end.

(** [res.json()] on what [otl_taxon] returned. *)
Definition response_json (res : option response) : result json :=
  match res with
  | Some r => Ok (body r)
  | None => Raise AttributeError
  end.

(** [list2dict(sources)['ncbi']] *)
Definition ncbi_source (sources : list string) : result string :=
  d ← list2dict sources; py_getitem d "ncbi".

(** [{('tax_' + higher['rank']) : higher['name'] for higher in lineage}] *)
Definition rank_dict (lineage : list taxon) : gmap string pyval :=
  foldl (λ d higher, <["tax_" +:+ taxon_rank higher := VStr (taxon_name higher)]> d)
        ∅ lineage.

(** The blocks of [taxonomy_OTT], named after their comments.  "taxonomy
    dictionary", "remove unnecessary ranks", "add OTT id and accepted
    name": *)
Definition taxonomy_dictionary (ott_id : Z) (t : taxon) (lineage : list taxon)
  : gmap string pyval :=
  let out_dict := rank_dict lineage in
  let out_dict := <["tax_higher_source" := VStr "OTT"]> out_dict in
  let out_dict := <["rank" := VStr (taxon_rank t)]> out_dict in
  let out_dict := delete "tax_no rank" out_dict in
  let out_dict := <["tax_ott_id" := VInt ott_id]> out_dict in
  <["tax_ott_accepted_name" := VStr (taxon_name t)]> out_dict.

(** "add NCBI id" *)
Definition add_ncbi_id (t : taxon) (out_dict : gmap string pyval)
  : result (gmap string pyval) :=
  except_pass is_KeyError
    (ncbi ← ncbi_source (taxon_tax_sources t);
     Ok (<["tax_ncbi_id" := VStr ncbi]> out_dict))
    out_dict.

(** "add genus information for species or subspecies queries"; the list
    of the genus-rank ancestors is empty exactly when taking its first
    element raises [IndexError]. *)
Definition add_genus_information (t : taxon) (lineage : list taxon)
    (out_dict : gmap string pyval) : result (gmap string pyval) :=
  if bool_decide (taxon_rank t ∈ ["species"; "subspecies"]) then
    match filter (λ tax, taxon_rank tax = "genus") lineage with
    | [] =>
        let out_dict := <["tax_cg_ott_id" := VNan]> out_dict in
        rank ← py_getitem out_dict "rank";
        if in_strs rank ["species"; "subspecies"] then
          cg ← py_index (split_whitespace (taxon_unique_name t)) 0;
          Ok (<["cg" := VStr cg]> out_dict)
        else Ok out_dict
    | genus_tax :: _ =>
        let out_dict := <["tax_cg_ott_id" := VInt (taxon_ott_id genus_tax)]> out_dict in
        genus ← py_getitem out_dict "tax_genus";
        let out_dict := <["cg" := genus]> out_dict in
        let out_dict := delete "tax_genus" out_dict in
        except_pass is_KeyError
          (ncbi ← ncbi_source (taxon_tax_sources genus_tax);
           Ok (<["tax_cg_ncbi_id" := VStr ncbi]> out_dict))
          out_dict
    end
  else Ok out_dict.

(** "update species ids for subspecies queries" and the rest of the
    function. *)
Definition update_species_ids (lineage : list taxon) (out_dict : gmap string pyval)
  : result (gmap string pyval) :=
  let out_dict :=
    match filter (λ tax, taxon_rank tax = "species") lineage with
    | species_tax :: _ => <["tax_cs_ott_id" := VInt (taxon_ott_id species_tax)]> out_dict
    | [] => out_dict
    end in
  let out_dict := delete "tax_species" out_dict in
  rank ← py_getitem out_dict "rank";
  if negb (in_strs rank ["species"; "subspecies"; "genus"; "subgenus"])
  then Ok (<["cg" := VStr ""]> out_dict)
  else Ok out_dict.

(** The body of [taxonomy_OTT] after the call of [otl_taxon]. *)
Definition taxonomy_of (ott_id : Z) (res : option response)
  : result (gmap string pyval) :=
  j ← response_json res;
  '(t, lineage) ← json_taxon j;
  out_dict ← add_ncbi_id t (taxonomy_dictionary ott_id t lineage);
  out_dict ← add_genus_information t lineage out_dict;
  update_species_ids lineage out_dict.

(** "get taxonomy up to order from a genus name" *)
Definition taxonomy_OTT (retries : nat) (ott_id : Z) : M (gmap string pyval) :=
  res ← otl_taxon retries ott_id 3600 false;
  lift (taxonomy_of ott_id res).

(** "get taxonomy information from a query" *)
Definition otl_checkname (retries : nat) (query : string) : M checked :=
  res ← otl_tnrs retries query false 600;
  results ← lift (json_results (body res));
  match results with
  | [] => mret PyNone
  | first :: _ =>
      match matches first with
      | [] => mret EmptyDict
      | result :: _ =>
          higher ← taxonomy_OTT retries (taxon_ott_id result);
          if bool_decide (taxon_rank result = "species") then
            mret (NameDict {|
              current_name := taxon_name result;
              name_id := taxon_ott_id result;
              name_source := "OTT";
              higher_taxonomy := higher;
              level := "species";
              ncbi_id := match ncbi_source (taxon_tax_sources result) with
                         | Ok v => Some v
                         | Raise _ => None
                         end |})
          else if bool_decide (taxon_rank result = "genus") then
            mret (NameDict {|
              current_name := taxon_name result;
              name_id := taxon_ott_id result;
              name_source := "OTT";
              higher_taxonomy := higher;
              level := "genus";
              ncbi_id := None |})
          else
            warnings_warn (query +:+ ": found in ott, but not as genus or species");;
            mret PyNone
      end
  end.

(** The loop [while not taxa and ' ' in name[0]] of [process_data]; [fuel]
    bounds its iterations. *)
Fixpoint shorten (retries fuel : nat) (taxa : checked) (name : list string)
    : M (checked * list string) :=
  name0 ← lift (py_index name 0);
  if negb (truthy taxa) && contains " " name0 then
    match fuel with
    | O => still_looping
    | S fuel' =>
        let name := rsplit1 " " name0 ++ drop 1 name in
        name0 ← lift (py_index name 0);
        taxa ← otl_checkname retries name0;
        shorten retries fuel' taxa name
    end
  else mret (taxa, name).

(** The body of the loop [for sp in species] of [process_data]: the row it
    appends to [species_processed]. *)
Definition resolve (retries fuel : nat) (sp : string) : M (list pyval) :=
  taxa ← otl_checkname retries sp;
  '(taxa, name) ← shorten retries fuel taxa [sp];
  match taxa with
  | NameDict d =>
      let row := (λ key, default (VStr "-") (higher_taxonomy d !! key)) <$> lineage_keys in
      let last := current_name d in
      let last := if bool_decide (1 < length name)%nat
                  then last +:+ " " +:+ join " " (drop 1 name)
                  else last in
      mret (row ++ [VStr last])
  | _ => mret (VStr <$> ["-"; "-"; "-"; "-"; "-"; "-"; sp])
  end.

(** "process data" *)
Definition process_data (retries fuel : nat) (species : list string)
    (controls : list Z) (data : list (list Z))
    : M (list (list pyval) * list (list Q)) :=
  data_processed ← lift (prune_and_normalize PRUNING_VALUE controls data);
  species_processed ← mapM (resolve retries fuel) species;
  mret (species_processed, data_processed).

(** "read data from csv file" *)
Definition read_data (file : string)
    : M (list string * list string * list Z * list (list Z)) :=
  match files file with
  | None =>
      stderr_write ("file '" +:+ file +:+ "' not found" +:+ newline);;
      raise (SystemExit 1)
  | Some [] => raise StopIteration
  | Some (header :: csvrows) =>
      let header_lower := lower <$> header in
      let csvcols := zip_star csvrows in
      (* first column should be 'OTU' *)
      first ← lift (py_index header_lower 0);
      if negb (String.eqb first "otu") then
        stderr_write ("no OTU column found" +:+ newline);;
        raise (SystemExit 1)
      else
        otus ← lift (py_index csvcols 0);
        let species := lower <$> otus in
        (* find 'control' column *)
        match list_find (λ item, item = "control") header_lower with
        | None =>
            stderr_write ("no control column found" +:+ newline);;
            raise (SystemExit 1)
        | Some (control_col, _) =>
            control ← lift (py_index csvcols control_col);
            controls ← lift (mapM py_int control);
            (* find all experimental columns *)
            data ← lift (mapM (λ row : list string,
                           mapM (λ i, item ← py_index row i; py_int item)
                                (filter (λ i, i ≠ control_col)
                                        (seq 1 (length row - 1))))
                         csvrows);
            mret (header, species, controls, data)
        end
  end.

(** The order [list.sort] uses on the rows.  A str and a number are never
    compared in the rows [process_data] builds (seven str cells, then
    floats); Python raises [TypeError] on such a pair, here neither is below
    the other. *)
Definition pyval_num (v : pyval) : option Q :=
  match v with
  | VInt n => Some (inject_Z n)
  | VFloat q => Some q
  | _ => None
  end.

Definition pyval_eqb (a b : pyval) : bool :=
  match a, b with
  | VStr s, VStr t => String.eqb s t
  | _, _ =>
      match pyval_num a, pyval_num b with
      | Some p, Some q => Qeq_bool p q
      | _, _ => false
      end
  end.

Definition pyval_ltb (a b : pyval) : bool :=
  match a, b with
  | VStr s, VStr t => String.ltb s t
  | _, _ =>
      match pyval_num a, pyval_num b with
      | Some p, Some q => negb (Qle_bool q p)
      | _, _ => false
      end
  end.

Fixpoint row_ltb (r1 r2 : list pyval) : bool :=
  match r1, r2 with
  | [], [] => false
  | [], _ :: _ => true
  | _ :: _, [] => false
  | a :: r1', b :: r2' => if pyval_eqb a b then row_ltb r1' r2' else pyval_ltb a b
  end.

Definition row_le (r1 r2 : list pyval) : Prop := row_ltb r2 r1 = false.

#[global] Instance row_le_dec (r1 r2 : list pyval) : Decision (row_le r1 r2) :=
  bool_eq_dec (row_ltb r2 r1) false.

Definition list_sort (rows : list (list pyval)) : list (list pyval) :=
  merge_sort row_le rows.

(** "write processed data to csv file": the records written, header
    first. *)
Definition write_data (header : list string) (species : list (list pyval))
    (data : list (list Q)) : result (list (list pyval)) :=
  let head := (VStr <$> ["domain"; "kingdom"; "phylum"; "class"; "order"; "family";
                        "genus, species"])
              ++ (VStr <$> drop 1 (take (length header - 1) header)) in
  combined ← mapM (λ i, s ← py_index species i;
                        d ← py_index data i;
                        Ok (s ++ (VFloat <$> d)))
                  (range (length species));
  Ok (head :: list_sort combined).

(** The script run with [sys.argv = argv]: the records written to the
    output file. *)
Definition main (retries fuel : nat) (argv : list string) : M (list (list pyval)) :=
  if bool_decide (length argv = 1%nat) then
    stderr_write ("no input file given" +:+ newline);; raise (SystemExit 1)
  else if bool_decide (length argv = 2%nat) then
    stderr_write ("no output file give" +:+ newline);; raise (SystemExit 1)
  else
    input ← lift (py_index argv 1);
    '(header, species, controls, data) ← read_data input;
    print "processing...";;
    '(species_processed, data_processed) ←
      process_data retries fuel species controls data;
    _ ← lift (py_index argv 2);
    written ← lift (write_data header species_processed data_processed);
    print "done.";;
    mret written.

End pipeline.

(** ** Vocabulary of the statements *)

(** [s.count(c)] *)
Fixpoint count_char (c : ascii) (s : string) : nat :=
  match s with
  | EmptyString => 0%nat
  | String a s' => ((if Ascii.eqb a c then 1 else 0) + count_char c s')%nat
  end.

(** The row of an OTU that was not resolved. *)
Definition placeholder (sp : string) : list pyval :=
  VStr <$> ["-"; "-"; "-"; "-"; "-"; "-"; sp].

(** The six lineage cells of a resolved OTU. *)
Definition lineage_cells (d : outdict) : list pyval :=
  (λ key, default (VStr "-") (higher_taxonomy d !! key)) <$> lineage_keys.

(** The labels looked up, in turn, while the tokens [stripped] are taken off
    the end of [prefix t1 ... tn]: the whole label first, [prefix t1]
    last. *)
Fixpoint attempts_rev (prefix : string) (rev_stripped : list string) : list string :=
  match rev_stripped with
  | [] => []
  | t :: ts => join " " (prefix :: reverse (t :: ts)) :: attempts_rev prefix ts
  end.

Definition attempts (prefix : string) (stripped : list string) : list string :=
  attempts_rev prefix (reverse stripped).

(** The lookups of [queries], made one after the other from [w], all return
    [None] or the empty dict; the world after the last one. *)
Fixpoint lookups_fail (service : nat → request → result response)
    (ctime : Z → string) (retries : nat) (queries : list string) (w : world)
    : option world :=
  match queries with
  | [] => Some w
  | q :: queries' =>
      match otl_checkname service ctime retries q w with
      | Some (Ok taxa, w') =>
          if truthy taxa then None
          else lookups_fail service ctime retries queries' w'
      | _ => None
      end
  end.

(** A taxon description with another unique name. *)
Definition with_unique_name (u : string) (t : taxon) : taxon :=
  {| taxon_rank := taxon_rank t; taxon_name := taxon_name t;
     taxon_unique_name := u; taxon_ott_id := taxon_ott_id t;
     taxon_tax_sources := taxon_tax_sources t |}.

(** The sample columns of a table: every column but the first and the
    control column, in the order of the header. *)
Definition sample_columns (header : list string) (control_col : nat) : list nat :=
  filter (λ i, i ≠ control_col) (seq 1 (length header - 1)).

(** ** A scripted service for the examples *)

Definition initial_world : world :=
  {| sent := []; clock := 0; stderr := []; stdout := []; warned := [] |}.

Definition example_ctime (t : Z) : string := "t+" +:+ str t.

Definition example_taxon (rank name : string) (ott : Z) : taxon :=
  {| taxon_rank := rank; taxon_name := name; taxon_unique_name := name;
     taxon_ott_id := ott; taxon_tax_sources := ["ncbi:" +:+ str ott; "gbif:7"] |}.

Definition example_lineage : list taxon :=
  [example_taxon "family" "Generidae" 41; example_taxon "order" "Generales" 40;
   example_taxon "class" "Generia" 39; example_taxon "phylum" "Generozoa" 38;
   example_taxon "kingdom" "Metazoa" 37; example_taxon "domain" "Eukaryota" 36;
   example_taxon "no rank" "cellular organisms" 35].

Definition ok200 (j : json) : result response :=
  Ok {| status_code := 200; body := j |}.

Definition one_match (t : taxon) : json :=
  match_names_json [{| matches := [t] |}].

(** [genus] is a genus, [generidae] and [genus incertae] name a family and
    [orphan] is a genus whose id the taxonomy does not know; no other name
    is matched.  The taxon 43 is a species without a genus among its
    ancestors. *)
Definition example_service (n : nat) (r : request) : result response :=
  match r with
  | match_names (q :: _) _ =>
      if String.eqb q "genus" then ok200 (one_match (example_taxon "genus" "Genus" 42))
      else if String.eqb q "generidae" || String.eqb q "genus incertae"
      then ok200 (one_match (example_taxon "family" "Generidae" 41))
      else if String.eqb q "orphan"
      then ok200 (one_match (example_taxon "genus" "Orphan" 7))
      else ok200 (match_names_json [{| matches := [] |}])
  | taxon_info_by_ott_id 42 _ =>
      ok200 (taxon_info_json (example_taxon "genus" "Genus" 42) example_lineage)
  | taxon_info_by_ott_id 41 _ =>
      ok200 (taxon_info_json (example_taxon "family" "Generidae" 41)
                             (drop 1 example_lineage))
  | taxon_info_by_ott_id 43 _ =>
      ok200 (taxon_info_json (example_taxon "species" "Alba longa" 43)
                             example_lineage)
  | _ => Ok {| status_code := 400; body := message_json "unknown taxon" |}
  end.

Definition example_files (file : string) : option (list (list string)) :=
  if String.eqb file "in.csv"
  then Some [["OTU"; "siteA"; "Control"; "siteB"];
             ["Genus species StrainX"; "20"; "10"; "4"];
             ["Sp2"; "5"; "10"; "40"]]
  else None.

(** [int] on decimal literals. *)
Definition example_int (s : string) : result Z :=
  match DecimalString.NilZero.int_of_string s with
  | Some i => Ok (Z.of_int i)
  | None => Raise ValueError
  end.

(** ** Vocabulary of the retry loops *)

(** The world after a request was posted, and after a failed attempt: the
    request posted, one line on [stderr], [wait_time] seconds of sleep. *)
Definition posted (req : request) (w : world) : world :=
  {| sent := sent w ++ [req]; clock := clock w; stderr := stderr w;
     stdout := stdout w; warned := warned w |}.

Definition retried (req : request) (line : string) (wait_time : Z) (w : world)
  : world :=
  {| sent := sent w ++ [req]; clock := clock w + wait_time;
     stderr := stderr w ++ [line]; stdout := stdout w; warned := warned w |}.

(** The answers after which [otl_tnrs] tries again: a connection error or a
    status other than 200. *)
Definition tnrs_tries_again (answer : result response) : bool :=
  match answer with
  | Ok res => negb (status_code res =? 200)
  | Raise e => is_connection_error e
  end.

(** The answers after which [otl_taxon] tries again: a connection error or a
    status other than 200 and 400. *)
Definition taxon_tries_again (answer : result response) : bool :=
  match answer with
  | Ok res => negb (status_code res =? 200) && negb (status_code res =? 400)
  | Raise e => is_connection_error e
  end.

(** The request of [otl_taxon]. *)
Definition taxon_request (query : Z) (ncbi : bool) : request :=
  if ncbi then taxon_info_by_source ("ncbi:" +:+ str query) true
  else taxon_info_by_ott_id query true.

(** The world after a line was written to [stderr]. *)
Definition complained (line : string) (w : world) : world :=
  {| sent := sent w; clock := clock w; stderr := stderr w ++ [line];
     stdout := stdout w; warned := warned w |}.

(** ** Further scripted services and files for the examples *)

(** A service that is out of reach for the first request, overloaded for the
    second, and answers as [example_service] from the third on; and one that
    is never reached. *)
Definition flaky_service (n : nat) (r : request) : result response :=
  match n with
  | 0%nat => Raise ConnectionError
  | 1%nat => Ok {| status_code := 503; body := message_json "overloaded" |}
  | _ => example_service n r
  end.

Definition down_service (n : nat) (r : request) : result response :=
  Raise SSLError.

(** Files that are not tables of OTUs. *)
Definition faulty_files (file : string) : option (list (list string)) :=
  if String.eqb file "names.csv" then Some [["name"; "control"]; ["a"; "1"]]
  else if String.eqb file "samples.csv" then Some [["OTU"; "siteA"]; ["a"; "1"]]
  else if String.eqb file "empty.csv" then Some []
  else if String.eqb file "blank.csv" then Some [[]; ["a"; "1"]]
  else if String.eqb file "header.csv" then Some [["OTU"; "control"]]
  else None.

(** * Properties *)

(** *** Generic facts on [result] and [mapM] *)

Lemma mapM_Ok {A B} (f : A → result B) (l : list A) (k : list B) :
  mapM f l = Ok k ↔ Forall2 (λ x y, f x = Ok y) l k.
Proof.
  split.
  - revert k. induction l as [|x l IH]; intros k; simpl.
    + intros [= <-]. constructor.
    + destruct (f x) as [y|] eqn:Hy; [|discriminate]. simpl.
      destruct (mapM f l) as [k'|] eqn:Hk; [|discriminate].
      intros [= <-]. constructor; auto.
  - induction 1 as [|x y l k Hxy _ IH]; simpl; [reflexivity|].
    rewrite Hxy. simpl. rewrite IH. reflexivity.
Qed.

Lemma mapM_Ok_length {A B} (f : A → result B) l k :
  mapM f l = Ok k → length k = length l.
Proof. intros H%mapM_Ok. symmetry. eapply Forall2_length, H. Qed.

Lemma mapM_range_Ok {B} (f : nat → result B) (n : nat) (k : list B) :
  mapM f (range n) = Ok k ↔
  length k = n ∧ ∀ i y, k !! i = Some y → f i = Ok y.
Proof.
  rewrite mapM_Ok. unfold range. split.
  - intros H. split.
    + apply Forall2_length in H. rewrite length_seq in H. lia.
    + intros i y Hy.
      destruct (Forall2_lookup_r _ _ _ _ _ H Hy) as (x & Hx & Hf).
      apply lookup_seq in Hx as [-> _]. exact Hf.
  - intros [Hlen Hf]. apply Forall2_same_length_lookup_2.
    + rewrite length_seq. lia.
    + intros i x y [-> _]%lookup_seq Hy. simpl. auto.
Qed.

Lemma mapM_range_Ok_fmap {B} (f : nat → result B) (g : nat → B) (n : nat) :
  (∀ i, (i < n)%nat → f i = Ok (g i)) →
  mapM f (range n) = Ok (g <$> range n).
Proof.
  intros H. apply mapM_range_Ok. split.
  - unfold range. rewrite length_fmap, length_seq. reflexivity.
  - intros i y. unfold range. rewrite list_lookup_fmap.
    destruct (seq 0 n !! i) as [x|] eqn:Hx; [|discriminate].
    apply lookup_seq in Hx as [-> Hlt]. simpl. intros [= <-]. auto.
Qed.

(** The first exception met from the left is the one [mapM] raises. *)
Lemma mapM_Raise_prefix {A B} (f : A → result B) (e : exn) (l l2 : list A) :
  Forall (λ x, (∃ v, f x = Ok v) ∨ f x = Raise e) l →
  Exists (λ x, f x = Raise e) l →
  mapM f (l ++ l2) = Raise e.
Proof.
  induction l as [|x l IH]; intros Hall Hex.
  - inversion Hex.
  - apply Forall_cons in Hall as [Hx Hall]. simpl.
    destruct Hx as [[v Hv]|Hx]; [|rewrite Hx; reflexivity].
    rewrite Hv. simpl. rewrite IH; [reflexivity|assumption|].
    apply Exists_cons in Hex as [Hex|Hex]; [congruence|assumption].
Qed.

Lemma py_index_Ok {A} (l : list A) (i : nat) (x : A) :
  py_index l i = Ok x ↔ l !! i = Some x.
Proof. unfold py_index. destruct (l !! i); split; congruence. Qed.

(** *** Columns *)

Lemma zip_star_lookup {A} (rows : list (list A)) (j : nat) :
  rows ≠ [] → zip_star rows !! j = column j rows.
Proof.
  induction rows as [|r rs IH]; [congruence|]. intros _.
  destruct rs as [|r' rs].
  - simpl. rewrite list_lookup_fmap. unfold column. simpl.
    destruct (r !! j); reflexivity.
  - change (zip_star (r :: r' :: rs)) with (zip_with cons r (zip_star (r' :: rs))).
    rewrite lookup_zip_with, IH by congruence.
    unfold column. simpl. destruct (r !! j); [|reflexivity]. simpl.
    destruct (r' !! j); reflexivity.
Qed.

Lemma column_sums_lookup (m : list (list Z)) (j : nat) (s : Z) :
  column_sums m !! j = Some s →
  m ≠ [] ∧ ∃ col, column j m = Some col ∧ py_sum col = s.
Proof.
  unfold column_sums. rewrite list_lookup_fmap.
  destruct (zip_star m !! j) as [col|] eqn:Hcol; [|discriminate].
  intros [= <-].
  assert (m ≠ []) as Hne by (intros ->; discriminate).
  split; [assumption|]. exists col. rewrite <- zip_star_lookup by assumption.
  auto.
Qed.

Lemma column_Some {A} (j : nat) (m : list (list A)) (col : list A) :
  column j m = Some col ↔ Forall2 (λ row x, row !! j = Some x) m col.
Proof. apply mapM_Some. Qed.

(** *** Pruning *)

Lemma mapM_Ok_fmap {A B} (f : A → result B) (g : A → B) (l : list A) :
  (∀ x, f x = Ok (g x)) → mapM f l = Ok (g <$> l).
Proof.
  intros H. apply mapM_Ok. induction l; constructor; auto.
Qed.

Lemma prune_cell_Ok thr controls i c d :
  controls !! i = Some c →
  prune_cell thr controls i d = Ok (pruned_value thr c d).
Proof.
  intros Hc. unfold prune_cell, pruned_value, py_index, py_truediv.
  rewrite Hc. simpl. destruct (c =? 0); reflexivity.
Qed.

Lemma pruned_value_cases thr c d :
  (c = 0 → pruned_value thr c d = d) ∧
  (c ≠ 0 → (inject_Z d / inject_Z c <= thr)%Q → pruned_value thr c d = 0) ∧
  (c ≠ 0 → (thr < inject_Z d / inject_Z c)%Q → pruned_value thr c d = d).
Proof.
  unfold pruned_value. repeat split.
  - intros ->. reflexivity.
  - intros Hc Hle. apply Z.eqb_neq in Hc. rewrite Hc.
    apply Qle_bool_iff in Hle. rewrite Hle. reflexivity.
  - intros Hc Hlt. apply Z.eqb_neq in Hc. rewrite Hc.
    destruct (Qle_bool _ thr) eqn:Hle; [|reflexivity].
    apply Qle_bool_iff in Hle. exfalso. eapply Qlt_not_le; eassumption.
Qed.

Lemma prune_Ok_rows thr controls data pruned :
  prune thr controls data = Ok pruned →
  length pruned = length data ∧
  ∀ i prow, pruned !! i = Some prow →
    ∃ row, data !! i = Some row ∧
           mapM (prune_cell thr controls i) row = Ok prow.
Proof.
  unfold prune. intros [Hlen H]%mapM_range_Ok. split; [assumption|].
  intros i prow Hi. specialize (H i prow Hi).
  destruct (py_index data i) as [row|] eqn:Hrow; [|discriminate].
  apply py_index_Ok in Hrow. eauto.
Qed.

(** Every pruned cell is the raw count or zero. *)
Lemma prune_Ok_cells thr controls data pruned i prow j p :
  prune thr controls data = Ok pruned →
  pruned !! i = Some prow → prow !! j = Some p →
  ∃ row d, data !! i = Some row ∧ row !! j = Some d ∧ (p = 0 ∨ p = d).
Proof.
  intros Hp Hi Hj. apply prune_Ok_rows in Hp as [_ Hp].
  destruct (Hp i prow Hi) as (row & Hrow & Hm).
  apply mapM_Ok in Hm.
  destruct (Forall2_lookup_r _ _ _ _ _ Hm Hj) as (d & Hd & Hcell).
  exists row, d. repeat split; try assumption.
  destruct (py_index controls i) as [c|] eqn:Hc.
  - apply py_index_Ok in Hc. rewrite (prune_cell_Ok _ _ _ _ d Hc) in Hcell.
    injection Hcell as <-. unfold pruned_value.
    destruct (c =? 0); [right; reflexivity|].
    destruct (Qle_bool _ thr); [left|right]; reflexivity.
  - unfold prune_cell in Hcell. rewrite Hc in Hcell. discriminate.
Qed.

(** C1. In the pruning stage, for every OTU row [i] and sample column [j]: a
    row whose control count is zero is kept as it is; otherwise a count
    whose ratio to the control is at most the threshold becomes exactly [0],
    and a count whose ratio is above the threshold is retained. *)
Theorem prune_by_control_ratio thr (controls : list Z) (data : list (list Z)) :
  (length data ≤ length controls)%nat →
  ∃ pruned,
    prune thr controls data = Ok pruned ∧
    length pruned = length data ∧
    ∀ i row c, data !! i = Some row → controls !! i = Some c →
      ∃ prow, pruned !! i = Some prow ∧
        length prow = length row ∧
        (c = 0 → prow = row) ∧
        ∀ j d, row !! j = Some d →
          ∃ p, prow !! j = Some p ∧
            (c = 0 → p = d) ∧
            (c ≠ 0 → (inject_Z d / inject_Z c <= thr)%Q → p = 0) ∧
            (c ≠ 0 → (thr < inject_Z d / inject_Z c)%Q → p = d).
Proof.
  intros Hlen.
  set (g := λ i : nat,
         pruned_value thr (default 0 (controls !! i)) <$> default [] (data !! i)).
  exists (g <$> range (length data)).
  assert (Hrange : ∀ i row, data !! i = Some row →
            (g <$> range (length data)) !! i = Some (g i)).
  { intros i row Hrow. unfold range. rewrite list_lookup_fmap.
    rewrite (lookup_seq_lt 0 (length data) i); [reflexivity|].
    eapply lookup_lt_Some, Hrow. }
  split; [|split].
  - unfold prune. apply mapM_range_Ok_fmap. intros i Hi.
    destruct (lookup_lt_is_Some_2 data i Hi) as [row Hrow].
    destruct (lookup_lt_is_Some_2 controls i ltac:(lia)) as [c Hc].
    unfold py_index at 1. rewrite Hrow. simpl.
    unfold g. rewrite Hrow, Hc. simpl.
    apply mapM_Ok_fmap. intros d. apply prune_cell_Ok, Hc.
  - unfold range. rewrite length_fmap, length_seq. reflexivity.
  - intros i row c Hrow Hc. exists (g i).
    split; [eapply Hrange, Hrow|].
    unfold g. rewrite Hrow, Hc. simpl.
    split; [apply length_fmap|]. split.
    + intros ->. rewrite <- (list_fmap_id row) at 2.
      apply list_fmap_ext. intros _ d _. reflexivity.
    + intros j d Hd. exists (pruned_value thr c d). split.
      * rewrite list_lookup_fmap, Hd. reflexivity.
      * apply pruned_value_cases.
Qed.

(** *** Proportions *)

Lemma proportions_Ok_rows pruned out :
  proportions pruned = Ok out →
  length out = length pruned ∧
  ∀ i orow, out !! i = Some orow →
    ∃ row, pruned !! i = Some row ∧ length orow = length row ∧
      ∀ j q, orow !! j = Some q →
        ∃ x s, row !! j = Some x ∧ column_sums pruned !! j = Some s ∧
               s ≠ 0 ∧ q = (inject_Z x / inject_Z s)%Q.
Proof.
  unfold proportions. intros [Hlen H]%mapM_range_Ok. split; [assumption|].
  intros i orow Hi. specialize (H i orow Hi).
  destruct (py_index pruned i) as [row|] eqn:Hrow; [|discriminate].
  apply py_index_Ok in Hrow. simpl in H.
  apply mapM_range_Ok in H as [Hl H].
  exists row. repeat split; try assumption.
  intros j q Hq. specialize (H j q Hq).
  destruct (py_index row j) as [x|] eqn:Hx; [|discriminate].
  destruct (py_index (column_sums pruned) j) as [s|] eqn:Hs; [|discriminate].
  apply py_index_Ok in Hx, Hs. simpl in H. unfold py_truediv in H.
  destruct (s =? 0) eqn:Hs0; [discriminate|]. apply Z.eqb_neq in Hs0.
  exists x, s. repeat split; try assumption. congruence.
Qed.

Lemma py_sum_nonneg (l : list Z) :
  Forall (Z.le 0) l → 0 ≤ py_sum l ∧ Forall (λ x, x ≤ py_sum l) l.
Proof.
  induction 1 as [|x l Hx _ [IH1 IH2]]; simpl.
  - split; [lia|constructor].
  - split; [lia|]. constructor; [lia|].
    eapply Forall_impl; [exact IH2|]. simpl. intros; lia.
Qed.

Lemma Qsum_scaled (s : Z) (l : list Z) :
  s ≠ 0 →
  (Qsum ((λ x, inject_Z x / inject_Z s) <$> l) == inject_Z (py_sum l) / inject_Z s)%Q.
Proof.
  intros Hs.
  assert (¬ (inject_Z s == 0)%Q) as Hs'.
  { intros H. apply Hs. unfold Qeq in H. simpl in H. lia. }
  induction l as [|x l IH]; simpl.
  - field. exact Hs'.
  - rewrite IH, inject_Z_plus. field. exact Hs'.
Qed.

Lemma proportion_in_unit (x s : Z) :
  0 ≤ x → x ≤ s → s ≠ 0 → (0 <= inject_Z x / inject_Z s <= 1)%Q.
Proof.
  intros Hx Hxs Hs.
  assert (0 < inject_Z s)%Q as Hpos.
  { change 0%Q with (inject_Z 0). rewrite <- Zlt_Qlt. lia. }
  split.
  - apply Qle_shift_div_l; [exact Hpos|]. rewrite Qmult_0_l.
    change 0%Q with (inject_Z 0). rewrite <- Zle_Qle. exact Hx.
  - apply Qle_shift_div_r; [exact Hpos|]. rewrite Qmult_1_l.
    rewrite <- Zle_Qle. exact Hxs.
Qed.

(** In a table the normalisation returns, a column holds values in [[0,1]]
    that add up to exactly 1 (counts are read counts, hence not negative). *)
Lemma column_sums_to_one thr controls data pruned out j s :
  Forall (Forall (Z.le 0)) data →
  prune thr controls data = Ok pruned →
  proportions pruned = Ok out →
  column_sums pruned !! j = Some s → s ≠ 0 →
  ∃ col, column j out = Some col ∧
         length col = length data ∧
         Forall (λ q, (0 <= q <= 1)%Q) col ∧
         (Qsum col == 1)%Q.
Proof.
  intros Hnonneg Hprune Hprop Hs Hs0.
  destruct (column_sums_lookup _ _ _ Hs) as (Hne & col & Hcol & Hsum).
  pose proof (proj1 (column_Some _ _ _) Hcol) as Hcol2.
  destruct (proportions_Ok_rows _ _ Hprop) as [Hlen Hrows].
  destruct (prune_Ok_rows _ _ _ _ Hprune) as [Hlenp _].
  exists ((λ x, inject_Z x / inject_Z s)%Q <$> col).
  assert (Forall (Z.le 0) col) as Hcol_nonneg.
  { apply Forall_lookup. intros i x Hx.
    destruct (Forall2_lookup_r _ _ _ _ _ Hcol2 Hx) as (prow & Hprow & Hj).
    destruct (prune_Ok_cells _ _ _ _ _ _ _ _ Hprune Hprow Hj)
      as (row & d & Hrow & Hd & [->| ->]); [lia|].
    eapply Forall_lookup_1 in Hnonneg; [|exact Hrow].
    eapply Forall_lookup_1 in Hnonneg; [|exact Hd]. exact Hnonneg. }
  split; [|split; [|split]].
  - apply column_Some. apply Forall2_same_length_lookup_2.
    + rewrite length_fmap, Hlen. eapply Forall2_length, Hcol2.
    + intros i orow q Horow. rewrite list_lookup_fmap.
      destruct (col !! i) as [x|] eqn:Hx; [|discriminate]. intros [= <-].
      destruct (Hrows i orow Horow) as (row & Hrow & Hl & Hcells).
      destruct (Forall2_lookup_r _ _ _ _ _ Hcol2 Hx) as (row' & Hrow' & Hj).
      assert (row' = row) as -> by congruence.
      destruct (lookup_lt_is_Some_2 orow j) as [q Hq].
      { rewrite Hl. eapply lookup_lt_Some, Hj. }
      destruct (Hcells j q Hq) as (x' & s' & Hx' & Hs' & _ & ->).
      rewrite Hq. congruence.
  - rewrite length_fmap. rewrite <- Hlenp. symmetry.
    eapply Forall2_length, Hcol2.
  - apply Forall_fmap. destruct (py_sum_nonneg col Hcol_nonneg) as [_ Hle].
    rewrite Hsum in Hle.
    apply Forall_lookup. intros i x Hx. simpl.
    apply proportion_in_unit; [|  |exact Hs0].
    + eapply Forall_lookup_1 in Hcol_nonneg; [|exact Hx]. exact Hcol_nonneg.
    + eapply Forall_lookup_1 in Hle; [|exact Hx]. exact Hle.
  - rewrite Qsum_scaled by exact Hs0. rewrite Hsum.
    field. intros H. apply Hs0. unfold Qeq in H. simpl in H. lia.
Qed.

(** The numeric stage returns on a rectangular table whose columns all
    keep a non-zero sum. *)
Lemma numeric_stage_completes thr controls data pruned :
  prune thr controls data = Ok pruned →
  (∀ row, row ∈ data → length row = length (column_sums pruned)) →
  Forall (λ s, s ≠ 0) (column_sums pruned) →
  ∃ out, prune_and_normalize thr controls data = Ok out.
Proof.
  intros Hprune Hrect Hnz. unfold prune_and_normalize. rewrite Hprune. simpl.
  destruct (prune_Ok_rows _ _ _ _ Hprune) as [Hlen Hrows].
  set (g := λ i : nat, let row := default [] (pruned !! i) in
         (λ j, (inject_Z (default 0%Z (row !! j)) /
                inject_Z (default 0%Z (column_sums pruned !! j)))%Q)
         <$> range (length row)).
  exists (g <$> range (length pruned)).
  unfold proportions. apply mapM_range_Ok_fmap. intros i Hi.
  destruct (lookup_lt_is_Some_2 pruned i Hi) as [prow Hprow].
  rewrite (proj2 (py_index_Ok _ _ _) Hprow). simpl.
  unfold g. rewrite Hprow. simpl.
  apply mapM_range_Ok_fmap. intros j Hj.
  destruct (lookup_lt_is_Some_2 prow j Hj) as [x Hx].
  destruct (Hrows i prow Hprow) as (row & Hrow & Hm).
  apply mapM_Ok_length in Hm.
  destruct (lookup_lt_is_Some_2 (column_sums pruned) j) as [s Hs].
  { rewrite <- (Hrect row); [lia|]. eapply list_elem_of_lookup_2, Hrow. }
  rewrite (proj2 (py_index_Ok _ _ _) Hx), (proj2 (py_index_Ok _ _ _) Hs).
  rewrite Hx, Hs. simpl. unfold py_truediv.
  eapply Forall_lookup_1 in Hnz; [|exact Hs]. simpl in Hnz.
  apply Z.eqb_neq in Hnz. rewrite Hnz. reflexivity.
Qed.

(** *** A column that sums to zero *)

Lemma column_sums_row (m : list (list Z)) (i j : nat) (row : list Z) :
  m !! i = Some row → (j < length (column_sums m))%nat → is_Some (row !! j).
Proof.
  intros Hrow Hj.
  destruct (lookup_lt_is_Some_2 _ _ Hj) as [s Hs].
  destruct (column_sums_lookup _ _ _ Hs) as (_ & col & Hcol & _).
  apply column_Some in Hcol.
  destruct (Forall2_lookup_l _ _ _ _ _ Hcol Hrow) as (x & _ & Hx). eauto.
Qed.

Lemma proportions_zero_column pruned j :
  column_sums pruned !! j = Some 0 →
  proportions pruned = Raise ZeroDivisionError.
Proof.
  intros Hj.
  destruct (column_sums_lookup _ _ _ Hj) as (Hne & _).
  destruct pruned as [|row0 rest]; [congruence|].
  unfold proportions.
  change (range (length (row0 :: rest))) with (0%nat :: seq 1 (length rest)).
  cbn [mapM]. change (py_index (row0 :: rest) 0) with (Ok row0). simpl mbind at 1.
  set (sums := column_sums (row0 :: rest)) in *.
  set (g := λ j : nat, x ← py_index row0 j; s ← py_index sums j; py_truediv x s).
  assert (length sums ≤ length row0)%nat as Hle.
  { destruct (decide (length sums ≤ length row0)%nat) as [|Hgt]; [assumption|].
    destruct (column_sums_row (row0 :: rest) 0 (length row0) row0) as [x Hx];
      [reflexivity|fold sums; lia|].
    apply lookup_lt_Some in Hx. lia. }
  assert (mapM g (range (length row0)) = Raise ZeroDivisionError) as ->;
    [|reflexivity].
  unfold range.
  replace (length row0) with (length sums + (length row0 - length sums))%nat by lia.
  rewrite seq_app. apply mapM_Raise_prefix.
  - apply Forall_forall. intros j' [_ Hj']%elem_of_seq. simpl in Hj'.
    destruct (column_sums_row (row0 :: rest) 0 j' row0) as [x Hx];
      [reflexivity|fold sums; lia|].
    destruct (lookup_lt_is_Some_2 sums j' Hj') as [s Hs].
    unfold g. rewrite (proj2 (py_index_Ok _ _ _) Hx), (proj2 (py_index_Ok _ _ _) Hs).
    simpl. unfold py_truediv. destruct (s =? 0); eauto.
  - apply Exists_exists. exists j. split.
    + apply elem_of_seq. apply lookup_lt_Some in Hj. lia.
    + destruct (column_sums_row (row0 :: rest) 0 j row0) as [x Hx];
        [reflexivity|eapply lookup_lt_Some, Hj|].
      unfold g. rewrite (proj2 (py_index_Ok _ _ _) Hx), (proj2 (py_index_Ok _ _ _) Hj).
      reflexivity.
Qed.


(** *** The columns of the table returned *)

Lemma zip_star_length {A} (n : nat) (rows : list (list A)) :
  rows ≠ [] → Forall (λ row, length row = n) rows → length (zip_star rows) = n.
Proof.
  induction rows as [|r rs IH]; [congruence|]. intros _ Hall.
  apply Forall_cons in Hall as [Hr Hrs].
  destruct rs as [|r' rs].
  - simpl. rewrite length_fmap. exact Hr.
  - change (zip_star (r :: r' :: rs)) with (zip_with cons r (zip_star (r' :: rs))).
    rewrite length_zip_with, IH by (congruence || assumption). lia.
Qed.

Lemma prune_keeps_lengths thr controls data pruned (n : nat) :
  prune thr controls data = Ok pruned →
  Forall (λ row, length row = n) data →
  Forall (λ row, length row = n) pruned.
Proof.
  intros Hp Hrect. destruct (prune_Ok_rows _ _ _ _ Hp) as [_ Hrows].
  apply Forall_lookup. intros i prow Hprow.
  destruct (Hrows i prow Hprow) as (row & Hrow & Hm).
  apply mapM_Ok_length in Hm. rewrite Hm.
  eapply Forall_lookup_1 in Hrect; [|exact Hrow]. exact Hrect.
Qed.

(** C2, as the code has it.  On a table of [n] sample columns of read counts,
    whatever the threshold: when no column sums to zero after pruning, the
    numeric stage returns a table, and every one of its [n] columns holds
    values in [[0,1]] that add up to exactly 1; when some column sums to zero
    after pruning, the stage raises [ZeroDivisionError] and no column gets
    values, the columns with a non-zero sum included. *)
Theorem proportions_sum_to_one thr controls data pruned (n : nat) :
  Forall (Forall (Z.le 0)) data →
  data ≠ [] → Forall (λ row, length row = n) data →
  prune thr controls data = Ok pruned →
  (Forall (λ s, s ≠ 0) (column_sums pruned) →
   ∃ out, prune_and_normalize thr controls data = Ok out ∧
     ∀ j, (j < n)%nat →
       ∃ col, column j out = Some col ∧
              length col = length data ∧
              Forall (λ q, (0 <= q <= 1)%Q) col ∧
              (Qsum col == 1)%Q) ∧
  (∀ j, column_sums pruned !! j = Some 0 →
        prune_and_normalize thr controls data = Raise ZeroDivisionError).
Proof.
  intros Hnonneg Hne Hrect Hprune.
  destruct (prune_Ok_rows _ _ _ _ Hprune) as [Hlen _].
  assert (length (column_sums pruned) = n) as Hsums.
  { unfold column_sums. rewrite length_fmap. apply zip_star_length.
    - intros ->. destruct data; [congruence|discriminate].
    - eapply prune_keeps_lengths; eassumption. }
  split.
  - intros Hnz.
    destruct (numeric_stage_completes thr controls data pruned Hprune) as [out Hout].
    { intros row Hrow. rewrite Hsums.
      apply list_elem_of_lookup in Hrow as [i Hrow].
      eapply Forall_lookup_1 in Hrect; [|exact Hrow]. exact Hrect. }
    { exact Hnz. }
    exists out. split; [exact Hout|]. intros j Hj.
    unfold prune_and_normalize in Hout. rewrite Hprune in Hout. simpl in Hout.
    destruct (lookup_lt_is_Some_2 (column_sums pruned) j) as [s Hs]; [lia|].
    eapply column_sums_to_one; try eassumption.
    eapply Forall_lookup_1 in Hnz; [|exact Hs]. exact Hnz.
  - intros j Hj. unfold prune_and_normalize. rewrite Hprune. simpl.
    eapply proportions_zero_column, Hj.
Qed.

(** *** Strings *)

Lemma rpartition_None c s : rpartition c s = None ↔ contains c s = false.
Proof.
  induction s as [|a s IH]; simpl; [tauto|].
  destruct (rpartition c s) as [[p q]|].
  - split; [discriminate|]. intros [_ H]%orb_false_iff.
    apply IH in H. discriminate.
  - destruct (Ascii.eqb a c); simpl; [split; discriminate|].
    split; intros _; [apply IH|]; reflexivity.
Qed.

Lemma rpartition_Some c s p q :
  rpartition c s = Some (p, q) →
  s = p +:+ String c q ∧ contains c q = false ∧
  count_char c s = S (count_char c p).
Proof.
  revert p. induction s as [|a s IH]; intros p; simpl; [discriminate|].
  destruct (rpartition c s) as [[p' q']|] eqn:Hr.
  - intros [= <- <-]. destruct (IH p' eq_refl) as (-> & Hq & Hc).
    repeat split; [assumption|]. simpl. rewrite Hc. lia.
  - destruct (Ascii.eqb a c) eqn:Hac; [|discriminate].
    intros [= <- <-]. apply Ascii.eqb_eq in Hac as ->.
    apply rpartition_None in Hr. repeat split; [assumption|].
    simpl. f_equal. clear IH.
    induction s as [|b s IH]; [reflexivity|].
    simpl in Hr |- *. apply orb_false_iff in Hr as [-> Hr]. auto.
Qed.

Lemma append_cons (x : ascii) (a b : string) :
  String x a +:+ b = String x (a +:+ b).
Proof. reflexivity. Qed.

Lemma append_nil (b : string) : EmptyString +:+ b = b.
Proof. reflexivity. Qed.

Lemma rpartition_app c a t :
  contains c t = false → rpartition c (a +:+ String c t) = Some (a, t).
Proof.
  intros Ht. induction a as [|x a IH].
  - rewrite append_nil. simpl.
    apply rpartition_None in Ht. rewrite Ht, Ascii.eqb_refl. reflexivity.
  - rewrite append_cons. simpl. rewrite IH. reflexivity.
Qed.

Lemma contains_count c s : contains c s = true ↔ (0 < count_char c s)%nat.
Proof.
  induction s as [|a s IH]; simpl; [split; [discriminate|lia]|].
  destruct (Ascii.eqb a c); simpl; [split; [lia|reflexivity]|exact IH].
Qed.

Lemma split_length c s : length (split c s) = S (count_char c s).
Proof.
  induction s as [|a s IH]; simpl; [reflexivity|].
  destruct (Ascii.eqb a c); simpl; [rewrite IH; reflexivity|].
  destruct (split c s); simpl in *; lia.
Qed.

Lemma append_assoc (a b c : string) : (a +:+ b) +:+ c = a +:+ (b +:+ c).
Proof.
  induction a as [|x a IH]; [reflexivity|].
  rewrite !append_cons. f_equal. exact IH.
Qed.

Lemma join_snoc sep (x : string) (l : list string) (t : string) :
  join sep (x :: l ++ [t]) = join sep (x :: l) +:+ sep +:+ t.
Proof.
  revert x. induction l as [|y l IH]; intros x; [reflexivity|].
  change (join sep (x :: (y :: l) ++ [t]))
    with (x +:+ sep +:+ join sep (y :: l ++ [t])).
  rewrite IH.
  change (join sep (x :: y :: l)) with (x +:+ sep +:+ join sep (y :: l)).
  rewrite !append_assoc. reflexivity.
Qed.

(** *** The monad of effects *)

Lemma M_bind_unfold {A B} (f : A → M B) (m : M A) (w : world) :
  (m ≫= f) w = match m w with
               | Some (Ok a, w') => f a w'
               | Some (Raise e, w') => Some (Raise e, w')
               | None => None
               end.
Proof. reflexivity. Qed.

Lemma M_bind_Ok {A B} (f : A → M B) (m : M A) (w w' : world) (a : A) :
  m w = Some (Ok a, w') → (m ≫= f) w = f a w'.
Proof. intros H. rewrite M_bind_unfold, H. reflexivity. Qed.

Lemma M_bind_Raise {A B} (f : A → M B) (m : M A) (w w' : world) (e : exn) :
  m w = Some (Raise e, w') → (m ≫= f) w = Some (Raise e, w').
Proof. intros H. rewrite M_bind_unfold, H. reflexivity. Qed.

Lemma M_bind_lift_Ok {A B} (f : A → M B) (a : A) (w : world) :
  (lift (Ok a) ≫= f) w = f a w.
Proof. reflexivity. Qed.

Section resolution.
Context (service : nat → request → result response) (ctime : Z → string).

(** One round of the shortening loop. *)
Lemma shorten_eq retries fuel taxa name :
  shorten service ctime retries fuel taxa name =
  (name0 ← lift (py_index name 0);
   if negb (truthy taxa) && contains " " name0 then
     match fuel with
     | O => still_looping
     | S fuel' =>
         let name := rsplit1 " " name0 ++ drop 1 name in
         name0 ← lift (py_index name 0);
         taxa ← otl_checkname service ctime retries name0;
         shorten service ctime retries fuel' taxa name
     end
   else mret (taxa, name)).
Proof. destruct fuel; reflexivity. Qed.

Lemma shorten_skip retries fuel taxa n0 rest w :
  negb (truthy taxa) && contains " " n0 = false →
  shorten service ctime retries fuel taxa (n0 :: rest) w
  = Some (Ok (taxa, n0 :: rest), w).
Proof.
  intros H. rewrite shorten_eq.
  change (py_index (n0 :: rest) 0) with (Ok n0).
  rewrite M_bind_lift_Ok, H. reflexivity.
Qed.

Lemma shorten_step retries fuel taxa n0 rest p q w :
  truthy taxa = false → rpartition " " n0 = Some (p, q) →
  shorten service ctime retries (S fuel) taxa (n0 :: rest) w =
  (otl_checkname service ctime retries p ≫=
   λ taxa', shorten service ctime retries fuel taxa' (p :: q :: rest)) w.
Proof.
  intros Ht Hr. rewrite shorten_eq.
  change (py_index (n0 :: rest) 0) with (Ok n0).
  rewrite M_bind_lift_Ok, Ht.
  assert (contains " " n0 = true) as ->.
  { destruct (contains " " n0) eqn:Hc; [reflexivity|].
    apply rpartition_None in Hc. congruence. }
  unfold rsplit1. rewrite Hr. reflexivity.
Qed.

Lemma shorten_returns retries :
  (∀ q w, is_Some (otl_checkname service ctime retries q w)) →
  ∀ fuel taxa n0 rest w,
    (count_char " " n0 ≤ fuel)%nat →
    ∃ r w', shorten service ctime retries fuel taxa (n0 :: rest) w = Some (r, w') ∧
      ∀ taxa' name', r = Ok (taxa', name') →
        (length name' ≤ length (n0 :: rest) + count_char " " n0)%nat.
Proof.
  intros Hret. induction fuel as [|fuel IH]; intros taxa n0 rest w Hfuel.
  - exists (Ok (taxa, n0 :: rest)), w. split.
    + apply shorten_skip. apply andb_false_iff. right.
      destruct (contains " " n0) eqn:Hc; [|reflexivity].
      apply contains_count in Hc. lia.
    + intros ? ? [= <- <-]. lia.
  - destruct (negb (truthy taxa) && contains " " n0) eqn:Hcond.
    + apply andb_true_iff in Hcond as [Ht Hc]. apply negb_true_iff in Ht.
      destruct (rpartition " " n0) as [[p q]|] eqn:Hr.
      2:{ apply rpartition_None in Hr. congruence. }
      destruct (rpartition_Some _ _ _ _ Hr) as (_ & _ & Hcount).
      rewrite (shorten_step _ _ _ _ _ _ _ _ Ht Hr), M_bind_unfold.
      destruct (Hret p w) as [[[taxa'|e] w1] ->].
      * destruct (IH taxa' p (q :: rest) w1 ltac:(lia)) as (r & w' & -> & Hb).
        exists r, w'. split; [reflexivity|].
        intros t n Hrn. specialize (Hb t n Hrn). simpl in *. lia.
      * exists (Raise e), w1. split; [reflexivity|]. discriminate.
    + exists (Ok (taxa, n0 :: rest)), w. split.
      * apply shorten_skip, Hcond.
      * intros ? ? [= <- <-]. lia.
Qed.

(** C10, as the code has it.  The shortening loop ends: if every lookup
    returns, the loop over a label returns without using more iterations
    than the label has space characters, that is one less than the number of
    pieces between single spaces, empty pieces counted; each round takes the
    text after the last space off, and the list [name] it leaves holds one
    string more per round. *)
Theorem shortening_terminates retries fuel sp :
  (∀ q w, is_Some (otl_checkname service ctime retries q w)) →
  (length (split " " sp) ≤ S fuel)%nat →
  (∀ taxa w, ∃ r w',
     shorten service ctime retries fuel taxa [sp] w = Some (r, w') ∧
     ∀ taxa' name', r = Ok (taxa', name') →
       (length name' - 1 < length (split " " sp))%nat) ∧
  (∀ w, is_Some (resolve service ctime retries fuel sp w)).
Proof.
  intros Hret Hfuel. rewrite split_length in Hfuel.
  assert (Hloop : ∀ taxa w, ∃ r w',
     shorten service ctime retries fuel taxa [sp] w = Some (r, w') ∧
     ∀ taxa' name', r = Ok (taxa', name') →
       (length name' - 1 < length (split " " sp))%nat).
  { intros taxa w.
    destruct (shorten_returns retries Hret fuel taxa sp [] w ltac:(lia))
      as (r & w' & Hr & Hb).
    exists r, w'. split; [exact Hr|]. intros t n Hrn.
    specialize (Hb t n Hrn). rewrite split_length. simpl in Hb. lia. }
  split; [exact Hloop|].
  intros w. unfold resolve. rewrite M_bind_unfold.
  destruct (Hret sp w) as [[[taxa|e] w1] ->]; [|eauto].
  rewrite M_bind_unfold.
  destruct (Hloop taxa w1) as (r & w' & -> & _).
  destruct r as [[taxa' name']|e]; [|eauto].
  destruct taxa'; eauto.
Qed.


End resolution.

Section stripping.
Context (service : nat → request → result response) (ctime : Z → string).

Lemma attempts_snoc prefix init t :
  attempts prefix (init ++ [t])
  = join " " (prefix :: init ++ [t]) :: attempts prefix init.
Proof.
  unfold attempts. rewrite reverse_app. simpl.
  rewrite reverse_cons, reverse_involutive. reflexivity.
Qed.

Lemma join_space_snoc (x : string) (l : list string) (t : string) :
  join " " (x :: l ++ [t]) = join " " (x :: l) +:+ String " " t.
Proof. rewrite join_snoc. reflexivity. Qed.

Lemma lookups_fail_cons retries q queries w w' :
  lookups_fail service ctime retries (q :: queries) w = Some w' →
  ∃ taxa w1, otl_checkname service ctime retries q w = Some (Ok taxa, w1) ∧
             truthy taxa = false ∧
             lookups_fail service ctime retries queries w1 = Some w'.
Proof.
  simpl. destruct (otl_checkname service ctime retries q w)
    as [[[taxa|e] w1]|]; try discriminate.
  destruct (truthy taxa) eqn:Ht; [discriminate|]. eauto.
Qed.

(** The loop, entered on a label that ends in the token [t], strips tokens
    until the lookup of [prefix] succeeds. *)
Lemma shorten_strips retries prefix d w1 w2 :
  otl_checkname service ctime retries prefix w1 = Some (Ok (NameDict d), w2) →
  ∀ init t rest taxa w fuel,
    truthy taxa = false →
    Forall (λ t, contains " " t = false) (init ++ [t]) →
    lookups_fail service ctime retries (attempts prefix init) w = Some w1 →
    (length init < fuel)%nat →
    shorten service ctime retries fuel taxa
      (join " " (prefix :: init ++ [t]) :: rest) w
    = Some (Ok (NameDict d, prefix :: init ++ t :: rest), w2).
Proof.
  intros Hprefix. induction init as [|t' init IH] using rev_ind;
    intros t rest taxa w fuel Htaxa Hnosp Hfail Hfuel.
  - destruct fuel as [|fuel]; [lia|]. simpl in Hfail. injection Hfail as ->.
    apply Forall_inv in Hnosp.
    rewrite (shorten_step _ _ _ _ _ _ _ prefix t _ Htaxa).
    + rewrite (M_bind_Ok _ _ _ _ _ Hprefix). apply shorten_skip. reflexivity.
    + change (join " " (prefix :: [] ++ [t])) with (prefix +:+ String " " t).
      apply rpartition_app, Hnosp.
  - destruct fuel as [|fuel]; [lia|]. rewrite length_app in Hfuel. simpl in Hfuel.
    apply Forall_app in Hnosp as [Hinit Ht]. apply Forall_inv in Ht.
    rewrite attempts_snoc in Hfail.
    destruct (lookups_fail_cons _ _ _ _ _ Hfail) as (taxa' & w' & Hq & Ht' & Hrest).
    rewrite (shorten_step _ _ _ _ _ _ _ (join " " (prefix :: init ++ [t'])) t _ Htaxa).
    + rewrite (M_bind_Ok _ _ _ _ _ Hq).
      rewrite (IH t' (t :: rest) taxa' w' fuel Ht' Hinit Hrest ltac:(lia)).
      rewrite <- app_assoc. reflexivity.
    + rewrite join_space_snoc. apply rpartition_app, Ht.
Qed.

(** C7. When the lookups of the label and of its shortened forms fail until
    the tokens [stripped] are gone and [prefix] is matched, the name in the
    row is the accepted name of the match followed by the stripped tokens, in
    their order, separated by single spaces. *)
Theorem stripped_tokens_appended retries fuel prefix stripped d w w1 w2 :
  stripped ≠ [] →
  Forall (λ t, contains " " t = false) stripped →
  lookups_fail service ctime retries (attempts prefix stripped) w = Some w1 →
  otl_checkname service ctime retries prefix w1 = Some (Ok (NameDict d), w2) →
  (length stripped ≤ fuel)%nat →
  resolve service ctime retries fuel (join " " (prefix :: stripped)) w
  = Some (Ok (lineage_cells d
              ++ [VStr (current_name d +:+ " " +:+ join " " stripped)]), w2).
Proof.
  intros Hne Hnosp Hfail Hprefix Hfuel.
  destruct stripped as [|t init _] using rev_ind; [congruence|].
  rewrite attempts_snoc in Hfail.
  destruct (lookups_fail_cons _ _ _ _ _ Hfail) as (taxa & w' & Hq & Ht & Hrest).
  rewrite length_app in Hfuel. simpl in Hfuel.
  unfold resolve. rewrite (M_bind_Ok _ _ _ _ _ Hq).
  rewrite (M_bind_Ok _ _ _ w2 (NameDict d, prefix :: init ++ [t])).
  - rewrite bool_decide_eq_true_2; [reflexivity|].
    simpl. rewrite length_app. simpl. lia.
  - apply (shorten_strips retries prefix d w1 w2 Hprefix init t [] taxa w' fuel);
      [assumption|assumption|assumption|lia].
Qed.

(** When every lookup fails down to the first token, the row is the
    placeholder. *)
Lemma shorten_all_fail retries prefix :
  contains " " prefix = false →
  ∀ init t rest taxa w w' fuel,
    truthy taxa = false →
    Forall (λ t, contains " " t = false) (init ++ [t]) →
    lookups_fail service ctime retries (attempts prefix init ++ [prefix]) w = Some w' →
    (length init < fuel)%nat →
    ∃ taxa' name',
      shorten service ctime retries fuel taxa
        (join " " (prefix :: init ++ [t]) :: rest) w
      = Some (Ok (taxa', name'), w') ∧ truthy taxa' = false.
Proof.
  intros Hprefix. induction init as [|t' init IH] using rev_ind;
    intros t rest taxa w w' fuel Htaxa Hnosp Hfail Hfuel.
  - destruct fuel as [|fuel]; [lia|].
    destruct (lookups_fail_cons _ _ _ _ _ Hfail) as (taxa' & w1 & Hq & Ht' & Hrest).
    simpl in Hrest. injection Hrest as ->.
    apply Forall_inv in Hnosp.
    rewrite (shorten_step _ _ _ _ _ _ _ prefix t _ Htaxa).
    + rewrite (M_bind_Ok _ _ _ _ _ Hq). exists taxa', (prefix :: t :: rest).
      split; [|assumption]. apply shorten_skip. rewrite Hprefix.
      apply andb_false_r.
    + change (join " " (prefix :: [] ++ [t])) with (prefix +:+ String " " t).
      apply rpartition_app, Hnosp.
  - destruct fuel as [|fuel]; [lia|]. rewrite length_app in Hfuel. simpl in Hfuel.
    apply Forall_app in Hnosp as [Hinit Ht]. apply Forall_inv in Ht.
    rewrite attempts_snoc in Hfail. simpl in Hfail.
    destruct (lookups_fail_cons _ _ _ _ _ Hfail) as (taxa' & w1 & Hq & Ht' & Hrest).
    rewrite (shorten_step _ _ _ _ _ _ _ (join " " (prefix :: init ++ [t'])) t _ Htaxa).
    + rewrite (M_bind_Ok _ _ _ _ _ Hq).
      apply (IH t' (t :: rest) taxa' w1 w' fuel Ht' Hinit Hrest). lia.
    + rewrite join_space_snoc. apply rpartition_app, Ht.
Qed.

Lemma resolve_all_fail retries fuel prefix stripped w w' :
  contains " " prefix = false →
  Forall (λ t, contains " " t = false) stripped →
  lookups_fail service ctime retries (attempts prefix stripped ++ [prefix]) w = Some w' →
  (length stripped ≤ fuel)%nat →
  resolve service ctime retries fuel (join " " (prefix :: stripped)) w
  = Some (Ok (placeholder (join " " (prefix :: stripped))), w').
Proof.
  intros Hprefix Hnosp Hfail Hfuel.
  destruct stripped as [|t init _] using rev_ind.
  - destruct (lookups_fail_cons _ _ _ _ _ Hfail) as (taxa & w1 & Hq & Ht & Hrest).
    simpl in Hrest. injection Hrest as ->.
    unfold resolve. rewrite (M_bind_Ok _ _ _ _ _ Hq).
    rewrite (M_bind_Ok _ _ _ w' (taxa, [prefix])).
    + destruct taxa; [reflexivity|reflexivity|discriminate].
    + apply shorten_skip. rewrite Hprefix. apply andb_false_r.
  - rewrite attempts_snoc in Hfail. simpl in Hfail.
    destruct (lookups_fail_cons _ _ _ _ _ Hfail) as (taxa & w1 & Hq & Ht & Hrest).
    rewrite length_app in Hfuel. simpl in Hfuel.
    destruct (shorten_all_fail retries prefix
                Hprefix init t [] taxa w1 w' fuel Ht Hnosp Hrest ltac:(lia))
      as (taxa' & name' & Hloop & Ht').
    unfold resolve. rewrite (M_bind_Ok _ _ _ _ _ Hq).
    rewrite (M_bind_Ok _ _ _ _ _ Hloop).
    destruct taxa'; [reflexivity|reflexivity|discriminate].
Qed.

End stripping.

Section lookups.
Context (service : nat → request → result response) (ctime : Z → string).

(** *** A bad request on the detail lookup *)

(** The request [otl_taxon] posts. *)
Lemma otl_taxon_bad_request retries (query wait_time : Z) (ncbi : bool) w res message :
  let req := if ncbi then taxon_info_by_source ("ncbi:" +:+ str query) true
             else taxon_info_by_ott_id query true in
  service (length (sent w)) req = Ok res →
  status_code res = 400 →
  body res = message_json message →
  otl_taxon service ctime (S retries) query wait_time ncbi w
  = Some (Ok (@None response),
          {| sent := sent w ++ [req]; clock := clock w;
             stderr := (stderr w ++ [message]) ++ ["skipping"];
             stdout := stdout w; warned := warned w |}).
Proof.
  intros req Hsvc Hstatus Hbody. simpl.
  rewrite M_bind_unfold. unfold try_except, requests_post. fold req.
  rewrite Hsvc, Hstatus. simpl. rewrite M_bind_unfold, Hbody. reflexivity.
Qed.

Lemma taxonomy_OTT_bad_request retries ott_id w res message :
  service (length (sent w)) (taxon_info_by_ott_id ott_id true) = Ok res →
  status_code res = 400 →
  body res = message_json message →
  taxonomy_OTT service ctime (S retries) ott_id w
  = Some (Raise AttributeError,
          {| sent := sent w ++ [taxon_info_by_ott_id ott_id true]; clock := clock w;
             stderr := (stderr w ++ [message]) ++ ["skipping"];
             stdout := stdout w; warned := warned w |}).
Proof.
  intros Hsvc Hstatus Hbody. unfold taxonomy_OTT.
  rewrite (M_bind_Ok _ _ _ _ _
             (otl_taxon_bad_request retries ott_id 3600 false w res message
                Hsvc Hstatus Hbody)).
  reflexivity.
Qed.

(** C4.  A detail lookup answered with status 400 is not retried, whatever
    budget is left: [otl_taxon] posts once, writes the message and
    ["skipping"] to [stderr] and returns [None].  The OTU does not become an
    unresolved row, though: [taxonomy_OTT] calls [json] on that [None], and
    the [AttributeError] leaves [otl_checkname] and ends [process_data]; no
    row is built for this OTU or for those after it. *)
Theorem bad_request_ends_the_run (PRUNING_VALUE : Q) retries fuel sp species
    controls data numeric res first others result more bad message w w1 :
  let lookup := taxon_info_by_ott_id (taxon_ott_id result) true in
  let skipped :=
    {| sent := sent w1 ++ [lookup]; clock := clock w1;
       stderr := (stderr w1 ++ [message]) ++ ["skipping"];
       stdout := stdout w1; warned := warned w1 |} in
  prune_and_normalize PRUNING_VALUE controls data = Ok numeric →
  otl_tnrs service ctime (S retries) sp false 600 w = Some (Ok res, w1) →
  json_results (body res) = Ok (first :: others) →
  matches first = result :: more →
  service (length (sent w1)) lookup = Ok bad →
  status_code bad = 400 →
  body bad = message_json message →
  otl_taxon service ctime (S retries) (taxon_ott_id result) 3600 false w1
  = Some (Ok None, skipped) ∧
  process_data service ctime PRUNING_VALUE (S retries) fuel (sp :: species)
    controls data w
  = Some (Raise AttributeError, skipped).
Proof.
  intros lookup skipped Hnum Htnrs Hres Hm Hsvc Hstatus Hbody. split.
  - exact (otl_taxon_bad_request retries (taxon_ott_id result) 3600 false w1 bad
             message Hsvc Hstatus Hbody).
  - assert (otl_checkname service ctime (S retries) sp w
            = Some (Raise AttributeError, skipped)) as Hlook.
    { unfold otl_checkname.
      rewrite (M_bind_Ok _ _ _ _ _ Htnrs), Hres, M_bind_lift_Ok, Hm.
      apply M_bind_Raise.
      exact (taxonomy_OTT_bad_request retries (taxon_ott_id result) w1 bad
               message Hsvc Hstatus Hbody). }
    unfold process_data. rewrite Hnum, M_bind_lift_Ok.
    apply M_bind_Raise. cbn [mapM]. apply M_bind_Raise.
    unfold resolve. apply M_bind_Raise. exact Hlook.
Qed.

(** *** A match of another rank *)

Lemma otl_checkname_other_rank retries query w res w1 first others result more
    higher w2 :
  otl_tnrs service ctime retries query false 600 w = Some (Ok res, w1) →
  json_results (body res) = Ok (first :: others) →
  matches first = result :: more →
  taxon_rank result ≠ "species" → taxon_rank result ≠ "genus" →
  taxonomy_OTT service ctime retries (taxon_ott_id result) w1 = Some (Ok higher, w2) →
  otl_checkname service ctime retries query w
  = Some (Ok PyNone,
          {| sent := sent w2; clock := clock w2; stderr := stderr w2;
             stdout := stdout w2;
             warned := warned w2
                       ++ [query +:+ ": found in ott, but not as genus or species"] |}).
Proof.
  intros Htnrs Hres Hm Hsp Hge Htax. unfold otl_checkname.
  rewrite (M_bind_Ok _ _ _ _ _ Htnrs), Hres, M_bind_lift_Ok, Hm.
  rewrite (M_bind_Ok _ _ _ _ _ Htax).
  rewrite (bool_decide_eq_false_2 _ Hsp), (bool_decide_eq_false_2 _ Hge).
  reflexivity.
Qed.

(** C5, as the code has it.  A match whose rank is neither genus nor
    species makes [otl_checkname] warn and return [None], which is not the
    empty dict of a name without matches, and nothing is raised when the
    detail lookup returns.  The shortening loop treats [None] like the empty
    dict: the OTU gets the placeholder row when the shortened forms of its
    label fail as well, in particular when the label holds no space. *)
Theorem other_rank_is_a_failed_lookup retries fuel prefix stripped w res w1
    first others result more higher w2 w3 :
  let label := join " " (prefix :: stripped) in
  let warning := label +:+ ": found in ott, but not as genus or species" in
  let warned_world :=
    {| sent := sent w2; clock := clock w2; stderr := stderr w2;
       stdout := stdout w2; warned := warned w2 ++ [warning] |} in
  otl_tnrs service ctime retries label false 600 w = Some (Ok res, w1) →
  json_results (body res) = Ok (first :: others) →
  matches first = result :: more →
  taxon_rank result ≠ "species" → taxon_rank result ≠ "genus" →
  taxonomy_OTT service ctime retries (taxon_ott_id result) w1 = Some (Ok higher, w2) →
  contains " " prefix = false →
  Forall (λ t, contains " " t = false) stripped →
  (length stripped ≤ fuel)%nat →
  lookups_fail service ctime retries
    (drop 1 (attempts prefix stripped ++ [prefix])) warned_world = Some w3 →
  otl_checkname service ctime retries label w = Some (Ok PyNone, warned_world) ∧
  PyNone ≠ EmptyDict ∧
  resolve service ctime retries fuel label w = Some (Ok (placeholder label), w3).
Proof.
  intros label warning warned_world Htnrs Hres Hm Hsp Hge Htax Hprefix Hnosp
    Hfuel Hlater.
  pose proof (otl_checkname_other_rank retries label w res w1 first others
                result more higher w2 Htnrs Hres Hm Hsp Hge Htax) as Hlook.
  split; [exact Hlook|]. split; [discriminate|].
  apply resolve_all_fail; try assumption.
  assert (∃ later, attempts prefix stripped ++ [prefix] = label :: later)
    as [later Heq].
  { destruct stripped as [|t init _] using rev_ind.
    - exists []. reflexivity.
    - rewrite attempts_snoc. eexists. reflexivity. }
  rewrite Heq in Hlater |- *. simpl in Hlater |- *.
  rewrite Hlook. exact Hlater.
Qed.

End lookups.

(** *** The lineage record *)

Ltac dict_lookup :=
  repeat first
    [ rewrite lookup_insert_eq
    | rewrite lookup_insert_ne by discriminate
    | rewrite lookup_delete_ne by discriminate ].

Lemma rank_dict_snoc l x :
  rank_dict (l ++ [x])
  = <["tax_" +:+ taxon_rank x := VStr (taxon_name x)]> (rank_dict l).
Proof. unfold rank_dict. rewrite foldl_app. reflexivity. Qed.

Lemma rank_dict_nil : rank_dict [] = ∅.
Proof. reflexivity. Qed.

Lemma rank_dict_other key l :
  (∀ r, "tax_" +:+ r ≠ key) → rank_dict l !! key = None.
Proof.
  intros Hkey. induction l as [|x l IH] using rev_ind.
  - rewrite rank_dict_nil. apply lookup_empty.
  - rewrite rank_dict_snoc, lookup_insert_ne; [exact IH|apply Hkey].
Qed.

Lemma rank_dict_str key l v : rank_dict l !! key = Some v → ∃ s, v = VStr s.
Proof.
  induction l as [|x l IH] using rev_ind.
  - rewrite rank_dict_nil, lookup_empty. discriminate.
  - rewrite rank_dict_snoc, lookup_insert. case_decide; [|exact IH].
    intros [= <-]. eauto.
Qed.

Lemma rank_dict_genus l :
  filter (λ tax, taxon_rank tax = "genus") l ≠ [] →
  ∃ g, g ∈ l ∧ taxon_rank g = "genus" ∧
       rank_dict l !! "tax_genus" = Some (VStr (taxon_name g)).
Proof.
  induction l as [|x l IH] using rev_ind; [intros []; reflexivity|].
  rewrite filter_app, rank_dict_snoc. intros Hne.
  destruct (decide (taxon_rank x = "genus")) as [Hx|Hx].
  - exists x. split; [apply elem_of_app; right; constructor|]. split; [exact Hx|].
    rewrite Hx. apply lookup_insert_eq.
  - rewrite filter_cons_False, filter_nil, app_nil_r in Hne by exact Hx.
    destruct (IH Hne) as (g & Hg & Hrank & Hlook).
    exists g. split; [apply elem_of_app; left; exact Hg|]. split; [exact Hrank|].
    rewrite lookup_insert_ne; [exact Hlook|].
    intros H. apply Hx. apply (inj (String.append "tax_")). exact H.
Qed.

Lemma taxonomy_dictionary_rank ott_id t l :
  taxonomy_dictionary ott_id t l !! "rank" = Some (VStr (taxon_rank t)).
Proof. unfold taxonomy_dictionary. dict_lookup. reflexivity. Qed.

Lemma taxonomy_dictionary_cg ott_id t l :
  taxonomy_dictionary ott_id t l !! "cg" = None.
Proof.
  unfold taxonomy_dictionary. dict_lookup.
  apply rank_dict_other. discriminate.
Qed.

Lemma taxonomy_dictionary_genus ott_id t l :
  taxonomy_dictionary ott_id t l !! "tax_genus" = rank_dict l !! "tax_genus".
Proof. unfold taxonomy_dictionary. dict_lookup. reflexivity. Qed.

Lemma taxonomy_dictionary_cg_ott_id ott_id t l :
  taxonomy_dictionary ott_id t l !! "tax_cg_ott_id"
  = rank_dict l !! "tax_cg_ott_id".
Proof. unfold taxonomy_dictionary. dict_lookup. reflexivity. Qed.

Lemma add_ncbi_id_lookup t d d' key :
  add_ncbi_id t d = Ok d' → key ≠ "tax_ncbi_id" → d' !! key = d !! key.
Proof.
  unfold add_ncbi_id. intros H Hkey.
  destruct (ncbi_source (taxon_tax_sources t)) as [v|e]; simpl in H.
  - injection H as <-. rewrite lookup_insert_ne by congruence. reflexivity.
  - destruct (is_KeyError e); [|discriminate]. congruence.
Qed.

Lemma add_ncbi_id_returns t d sources :
  list2dict (taxon_tax_sources t) = Ok sources → ∃ d', add_ncbi_id t d = Ok d'.
Proof.
  intros Hs. unfold add_ncbi_id, ncbi_source, py_getitem. rewrite Hs. simpl.
  destruct (sources !! "ncbi"); simpl; eauto.
Qed.

Lemma update_species_ids_lookup l d r :
  d !! "rank" = Some (VStr r) →
  ∃ d', update_species_ids l d = Ok d' ∧
        d' !! "cg" = (if bool_decide (r ∈ ["species"; "subspecies"; "genus"; "subgenus"])
                      then d !! "cg" else Some (VStr "")) ∧
        d' !! "tax_cg_ott_id" = d !! "tax_cg_ott_id".
Proof.
  intros Hrank. unfold update_species_ids, py_getitem.
  destruct (filter (λ tax, taxon_rank tax = "species") l) as [|species_tax ?];
    dict_lookup; rewrite Hrank; simpl;
    destruct (bool_decide (r ∈ ["species"; "subspecies"; "genus"; "subgenus"]));
    simpl; eexists; (split; [reflexivity|]); dict_lookup; split; reflexivity.
Qed.

(** What the genus block leaves, case by case. *)
Lemma add_genus_information_fallback t l d token tokens :
  taxon_rank t ∈ ["species"; "subspecies"] →
  filter (λ tax, taxon_rank tax = "genus") l = [] →
  d !! "rank" = Some (VStr (taxon_rank t)) →
  split_whitespace (taxon_unique_name t) = token :: tokens →
  add_genus_information t l d
  = Ok (<["cg" := VStr token]> (<["tax_cg_ott_id" := VNan]> d)).
Proof.
  intros Hlow Hng Hrank Htok. unfold add_genus_information, py_getitem.
  rewrite (bool_decide_eq_true_2 _ Hlow), Hng. dict_lookup. rewrite Hrank. simpl.
  rewrite (bool_decide_eq_true_2 _ Hlow), Htok. reflexivity.
Qed.

Lemma add_genus_information_found t l d d' :
  taxon_rank t ∈ ["species"; "subspecies"] →
  filter (λ tax, taxon_rank tax = "genus") l ≠ [] →
  add_genus_information t l d = Ok d' →
  d' !! "cg" = d !! "tax_genus" ∧ is_Some (d !! "tax_genus").
Proof.
  intros Hlow Hg. unfold add_genus_information, py_getitem.
  rewrite (bool_decide_eq_true_2 _ Hlow).
  destruct (filter (λ tax, taxon_rank tax = "genus") l) as [|genus_tax ?];
    [congruence|].
  dict_lookup. destruct (d !! "tax_genus") as [genus|]; simpl; [|discriminate].
  destruct (ncbi_source (taxon_tax_sources genus_tax)) as [v|e]; simpl.
  - intros [= <-]. dict_lookup. eauto.
  - destruct (is_KeyError e); [|discriminate]. intros [= <-]. dict_lookup. eauto.
Qed.

Lemma add_genus_information_no_genus t l d d' :
  filter (λ tax, taxon_rank tax = "genus") l = [] →
  add_genus_information t l d = Ok d' →
  d' !! "rank" = d !! "rank" ∧
  (d' !! "tax_cg_ott_id" = Some VNan ∨ d' !! "tax_cg_ott_id" = d !! "tax_cg_ott_id").
Proof.
  intros Hng. unfold add_genus_information. rewrite Hng.
  destruct (bool_decide (taxon_rank t ∈ ["species"; "subspecies"]));
    [|intros [= <-]; auto].
  destruct (py_getitem _ "rank") as [rank|]; simpl; [|discriminate].
  destruct (in_strs rank _).
  - destruct (py_index _ 0) as [cg|]; simpl; [|discriminate].
    intros [= <-]. dict_lookup. auto.
  - intros [= <-]. dict_lookup. auto.
Qed.

Lemma add_genus_information_other_rank t l d :
  taxon_rank t ∉ ["species"; "subspecies"] →
  add_genus_information t l d = Ok d.
Proof.
  intros Hlow. unfold add_genus_information.
  rewrite (bool_decide_eq_false_2 _ Hlow). reflexivity.
Qed.

(** C9. The core genus taken from the unique name.  With no genus-rank
    ancestor in the lineage and a resolved rank of species or subspecies, the
    record gets the first token of the unique name as core genus and NaN as
    core genus id.  When either condition fails the unique name is not read
    at all: the core genus is the name of a genus-rank ancestor (species or
    subspecies with such an ancestor), unset (genus, subgenus) or empty (any
    other rank).  Without a genus-rank ancestor no id is ever stored as core
    genus id. *)
Theorem core_genus_fallback (ott_id status : Z) (t : taxon) (lineage : list taxon) :
  let described t' := Some {| status_code := status;
                              body := taxon_info_json t' lineage |} in
  let no_genus := filter (λ tax, taxon_rank tax = "genus") lineage = [] in
  let low := taxon_rank t ∈ ["species"; "subspecies"] in
  (no_genus → low → ∀ sources token tokens,
     list2dict (taxon_tax_sources t) = Ok sources →
     split_whitespace (taxon_unique_name t) = token :: tokens →
     ∃ d, taxonomy_of ott_id (described t) = Ok d ∧
          d !! "cg" = Some (VStr token) ∧
          d !! "tax_cg_ott_id" = Some VNan) ∧
  (¬ (no_genus ∧ low) → ∀ u,
     taxonomy_of ott_id (described (with_unique_name u t))
     = taxonomy_of ott_id (described t)) ∧
  (∀ d, taxonomy_of ott_id (described t) = Ok d →
     (¬ no_genus → low →
        ∃ g, g ∈ lineage ∧ taxon_rank g = "genus" ∧
             d !! "cg" = Some (VStr (taxon_name g))) ∧
     (¬ low →
        d !! "cg" = if bool_decide (taxon_rank t ∈ ["genus"; "subgenus"])
                    then None else Some (VStr "")) ∧
     (no_genus → ∀ n, d !! "tax_cg_ott_id" ≠ Some (VInt n))).
Proof.
  intros described no_genus low. subst described no_genus low. cbv beta.
  split; [|split].
  - intros Hng Hlow sources token tokens Hsrc Htok.
    unfold taxonomy_of. simpl.
    destruct (add_ncbi_id_returns t (taxonomy_dictionary ott_id t lineage)
                sources Hsrc) as [d1 Hd1].
    rewrite Hd1. simpl.
    assert (d1 !! "rank" = Some (VStr (taxon_rank t))) as Hrank.
    { rewrite (add_ncbi_id_lookup _ _ _ "rank" Hd1) by discriminate.
      apply taxonomy_dictionary_rank. }
    rewrite (add_genus_information_fallback _ lineage d1 token tokens
               Hlow Hng Hrank Htok). simpl.
    destruct (update_species_ids_lookup lineage
                (<["cg" := VStr token]> (<["tax_cg_ott_id" := VNan]> d1))
                (taxon_rank t)) as (d & Hd & Hcg & Hid).
    { dict_lookup. exact Hrank. }
    exists d. split; [exact Hd|].
    rewrite Hcg, Hid. dict_lookup.
    rewrite bool_decide_eq_true_2; [auto|].
    apply list_elem_of_In. apply list_elem_of_In in Hlow. simpl in *. tauto.
  - intros Hnot u. unfold taxonomy_of. simpl.
    unfold add_ncbi_id, add_genus_information. simpl.
    destruct (bool_decide (taxon_rank t ∈ ["species"; "subspecies"])) eqn:Hlow;
      [|reflexivity].
    apply bool_decide_eq_true_1 in Hlow.
    destruct (filter (λ tax, taxon_rank tax = "genus") lineage) eqn:Hg;
      [|reflexivity].
    exfalso. apply Hnot. auto.
  - intros d. unfold taxonomy_of. simpl.
    destruct (add_ncbi_id _ _) as [d1|] eqn:Hd1; simpl; [|discriminate].
    destruct (add_genus_information _ lineage d1) as [d2|] eqn:Hd2; simpl;
      [|discriminate].
    intros Hd.
    assert (d1 !! "rank" = Some (VStr (taxon_rank t))) as Hrank1.
    { rewrite (add_ncbi_id_lookup _ _ _ "rank" Hd1) by discriminate.
      apply taxonomy_dictionary_rank. }
    split; [|split].
    + intros Hg Hlow.
      destruct (add_genus_information_found _ _ _ _ Hlow Hg Hd2) as [Hcg _].
      assert (d2 !! "rank" = Some (VStr (taxon_rank t))) as Hrank2.
      { revert Hd2. unfold add_genus_information, py_getitem. simpl.
        rewrite (bool_decide_eq_true_2 _ Hlow).
        destruct (filter (λ tax, taxon_rank tax = "genus") lineage)
          as [|genus_tax ?]; [congruence|].
        dict_lookup. destruct (d1 !! "tax_genus"); simpl; [|discriminate].
        destruct (ncbi_source _) as [v|e]; simpl.
        - intros [= <-]. dict_lookup. exact Hrank1.
        - destruct (is_KeyError e); [|discriminate].
          intros [= <-]. dict_lookup. exact Hrank1. }
      destruct (update_species_ids_lookup lineage d2 _ Hrank2)
        as (d' & Hd' & Hcg' & _).
      rewrite Hd in Hd'. injection Hd' as <-.
      rewrite bool_decide_eq_true_2 in Hcg'.
      2:{ apply list_elem_of_In. apply list_elem_of_In in Hlow. simpl in *. tauto. }
      destruct (rank_dict_genus lineage Hg) as (g & Hin & Hgr & Hlook).
      exists g. split; [exact Hin|]. split; [exact Hgr|].
      rewrite Hcg', Hcg.
      rewrite (add_ncbi_id_lookup _ _ _ "tax_genus" Hd1) by discriminate.
      rewrite taxonomy_dictionary_genus. exact Hlook.
    + intros Hlow.
      rewrite (add_genus_information_other_rank _ _ _ Hlow) in Hd2.
      injection Hd2 as <-.
      destruct (update_species_ids_lookup lineage d1 _ Hrank1)
        as (d' & Hd' & Hcg' & _).
      rewrite Hd in Hd'. injection Hd' as <-.
      rewrite Hcg'. simpl.
      rewrite (add_ncbi_id_lookup _ _ _ "cg" Hd1) by discriminate.
      rewrite taxonomy_dictionary_cg.
      destruct (decide (taxon_rank t ∈ ["genus"; "subgenus"])) as [Hin|Hin].
      * rewrite (bool_decide_eq_true_2 _ Hin).
        rewrite bool_decide_eq_true_2; [reflexivity|].
        apply list_elem_of_In. apply list_elem_of_In in Hin. simpl in *. tauto.
      * rewrite (bool_decide_eq_false_2 _ Hin).
        rewrite bool_decide_eq_false_2; [reflexivity|].
        intros H. apply list_elem_of_In in H.
        rewrite !list_elem_of_In in Hlow, Hin. simpl in *. tauto.
    + intros Hng n.
      destruct (add_genus_information_no_genus _ _ _ _ Hng Hd2) as [Hrank2 Hid].
      rewrite Hrank1 in Hrank2.
      destruct (update_species_ids_lookup lineage d2 _ Hrank2)
        as (d' & Hd' & _ & Hid').
      rewrite Hd in Hd'. injection Hd' as <-. rewrite Hid'.
      destruct Hid as [-> | ->]; [discriminate|].
      rewrite (add_ncbi_id_lookup _ _ _ "tax_cg_ott_id" Hd1) by discriminate.
      rewrite taxonomy_dictionary_cg_ott_id. intros Hv.
      apply rank_dict_str in Hv as [s Hs]. discriminate.
Qed.

(** *** The table read and the rows written *)

Lemma M_bind_Ok_inv {A B} (f : A → M B) (m : M A) (w w' : world) (b : B) :
  (m ≫= f) w = Some (Ok b, w') →
  ∃ a w1, m w = Some (Ok a, w1) ∧ f a w1 = Some (Ok b, w').
Proof.
  rewrite M_bind_unfold. destruct (m w) as [[[a|e] w1]|]; try discriminate.
  eauto.
Qed.

Lemma lift_Ok_inv {A} (r : result A) (a : A) (w w' : world) :
  lift r w = Some (Ok a, w') → r = Ok a ∧ w' = w.
Proof. unfold lift. intros [= -> ->]. auto. Qed.

Lemma result_bind_Ok_inv {A B} (f : A → result B) (r : result A) (b : B) :
  r ≫= f = Ok b → ∃ a, r = Ok a ∧ f a = Ok b.
Proof. destruct r as [a|e]; simpl; [eauto|discriminate]. Qed.

Lemma mapM_M_Ok {A B} (f : A → M B) (l : list A) (k : list B) (w w' : world) :
  mapM f l w = Some (Ok k, w') →
  Forall2 (λ x y, ∃ w1 w2, f x w1 = Some (Ok y, w2)) l k.
Proof.
  revert k w w'. induction l as [|x l IH]; intros k w w'; simpl.
  - intros [= <- _]. constructor.
  - intros (y & w1 & Hy & H)%M_bind_Ok_inv.
    apply M_bind_Ok_inv in H as (k' & w2 & Hk & H).
    injection H as <- _. constructor; eauto.
Qed.

Lemma prune_and_normalize_shape thr controls data out :
  prune_and_normalize thr controls data = Ok out →
  Forall2 (λ row orow, length orow = length row) data out.
Proof.
  unfold prune_and_normalize. intros (pruned & Hp & Ho)%result_bind_Ok_inv.
  destruct (prune_Ok_rows _ _ _ _ Hp) as [Hlp Hprows].
  destruct (proportions_Ok_rows _ _ Ho) as [Hlo Horows].
  apply Forall2_same_length_lookup_2; [congruence|].
  intros i row orow Hrow Horow.
  destruct (Horows i orow Horow) as (prow & Hprow & Hlen & _).
  destruct (Hprows i prow Hprow) as (row' & Hrow' & Hm).
  apply mapM_Ok_length in Hm. congruence.
Qed.

Lemma write_data_rows header species data written :
  length species = length data →
  write_data header species data = Ok written →
  drop 1 written ≡ₚ zip_with (λ s d, s ++ (VFloat <$> d)) species data.
Proof.
  intros Hlen. unfold write_data.
  intros (combined & Hc & [= <-])%result_bind_Ok_inv. simpl.
  unfold list_sort. rewrite merge_sort_Permutation.
  apply mapM_range_Ok in Hc as [Hlc Hc].
  replace combined with (zip_with (λ s d, s ++ (VFloat <$> d)) species data);
    [reflexivity|].
  apply list_eq. intros i. rewrite lookup_zip_with.
  destruct (combined !! i) as [c|] eqn:Hi.
  - specialize (Hc i c Hi).
    apply result_bind_Ok_inv in Hc as (s & Hs%py_index_Ok & Hc).
    apply result_bind_Ok_inv in Hc as (d & Hd%py_index_Ok & [= <-]).
    rewrite Hs, Hd. reflexivity.
  - apply lookup_ge_None in Hi.
    rewrite (proj2 (lookup_ge_None species i)) by lia. reflexivity.
Qed.

Section table.
Context (service : nat → request → result response) (ctime : Z → string)
  (files : string → option (list (list string))) (py_int : string → result Z)
  (PRUNING_VALUE : Q).

Lemma resolve_length retries fuel sp w row w' :
  resolve service ctime retries fuel sp w = Some (Ok row, w') →
  length row = 7%nat.
Proof.
  unfold resolve. intros (taxa & w1 & _ & H)%M_bind_Ok_inv.
  apply M_bind_Ok_inv in H as ([taxa' name] & w2 & _ & H).
  destruct taxa'; injection H as <- _; reflexivity.
Qed.

Lemma process_data_Ok retries fuel species controls data sp dp w w' :
  process_data service ctime PRUNING_VALUE retries fuel species controls data w
  = Some (Ok (sp, dp), w') →
  prune_and_normalize PRUNING_VALUE controls data = Ok dp ∧
  Forall2 (λ label row, ∃ w1 w2,
             resolve service ctime retries fuel label w1 = Some (Ok row, w2))
          species sp.
Proof.
  unfold process_data. intros (dp' & w1 & Hd & H)%M_bind_Ok_inv.
  apply lift_Ok_inv in Hd as [Hd ->].
  apply M_bind_Ok_inv in H as (sp' & w2 & Hs & H).
  injection H as <- <- _. split; [exact Hd|].
  eapply mapM_M_Ok, Hs.
Qed.

(** What [read_data] returns on a file that holds a table. *)
Lemma read_data_Ok file header csvrows species controls data header' w w' :
  files file = Some (header :: csvrows) →
  Forall (λ row, length row = length header) csvrows →
  read_data files py_int file w = Some (Ok (header', species, controls, data), w') →
  header' = header ∧
  ∃ control_col,
    list_find (λ item, item = "control") (lower <$> header)
    = Some (control_col, "control") ∧
    Forall2 (λ row label, ∃ item, row !! 0%nat = Some item ∧ label = lower item)
            csvrows species ∧
    Forall2 (λ row c, ∃ item, row !! control_col = Some item ∧ py_int item = Ok c)
            csvrows controls ∧
    Forall2 (λ row counts,
               Forall2 (λ col x, ∃ item, row !! col = Some item ∧ py_int item = Ok x)
                       (sample_columns header control_col) counts)
            csvrows data.
Proof.
  intros Hfile Hrect. unfold read_data. rewrite Hfile.
  intros (first & w1 & [_ ->]%lift_Ok_inv & H)%M_bind_Ok_inv.
  destruct (negb (first =? "otu")%string).
  { apply M_bind_Ok_inv in H as (? & ? & _ & H). discriminate. }
  apply M_bind_Ok_inv in H as (otus & w1 & [Hotus ->]%lift_Ok_inv & H).
  destruct (list_find _ (lower <$> header)) as [[control_col item]|] eqn:Hfind.
  2:{ apply M_bind_Ok_inv in H as (? & ? & _ & H). discriminate. }
  apply M_bind_Ok_inv in H as (control & w1 & [Hcontrol ->]%lift_Ok_inv & H).
  apply M_bind_Ok_inv in H as (controls' & w1 & [Hcontrols ->]%lift_Ok_inv & H).
  apply M_bind_Ok_inv in H as (data' & w1 & [Hdata ->]%lift_Ok_inv & H).
  injection H as <- <- <- <- _. split; [reflexivity|].
  assert (csvrows ≠ []) as Hne.
  { intros ->. discriminate. }
  exists control_col. split; [|split; [|split]].
  - pose proof Hfind as (_ & -> & _)%list_find_Some. reflexivity.
  - apply py_index_Ok in Hotus. rewrite zip_star_lookup in Hotus by exact Hne.
    apply column_Some in Hotus. apply Forall2_fmap_r.
    eapply Forall2_impl; [exact Hotus|]. simpl. eauto.
  - apply py_index_Ok in Hcontrol.
    rewrite zip_star_lookup in Hcontrol by exact Hne.
    apply column_Some in Hcontrol. apply mapM_Ok in Hcontrols.
    apply Forall2_same_length_lookup_2.
    + rewrite (Forall2_length _ _ _ Hcontrol). exact (Forall2_length _ _ _ Hcontrols).
    + intros i row c Hrow Hc.
      destruct (Forall2_lookup_l _ _ _ _ _ Hcontrol Hrow) as (cell & Hcell & Hlook).
      destruct (Forall2_lookup_l _ _ _ _ _ Hcontrols Hcell) as (c' & Hc' & Hint).
      exists cell. split; [exact Hlook|]. congruence.
  - apply mapM_Ok in Hdata.
    apply Forall2_same_length_lookup_2; [eapply Forall2_length, Hdata|].
    intros i row counts Hrow Hcounts.
    destruct (Forall2_lookup_l _ _ _ _ _ Hdata Hrow) as (counts' & Hc' & Hm).
    assert (counts' = counts) as -> by congruence.
    eapply Forall_lookup_1 in Hrect; [|exact Hrow]. simpl in Hrect.
    rewrite Hrect in Hm. apply mapM_Ok in Hm. unfold sample_columns.
    eapply Forall2_impl; [exact Hm|]. simpl. intros col x Hx.
    apply result_bind_Ok_inv in Hx as (cell & Hcell%py_index_Ok & Hint). eauto.
Qed.

(** C6. On a rectangular table, whatever the position of the control column,
    every data row written is, for one OTU, the seven cells its resolution
    gives (six lineage fields and the name) followed by the proportions of
    the counts read in the sample columns, which are all the columns but the
    first and the control column, in the order of the header. *)
Theorem rows_follow_sample_columns retries fuel prog input output header csvrows
    w written w' :
  files input = Some (header :: csvrows) →
  Forall (λ row, length row = length header) csvrows →
  main service ctime files py_int PRUNING_VALUE retries fuel [prog; input; output] w
  = Some (Ok written, w') →
  ∃ control_col species_processed controls counts proportions,
    list_find (λ item, item = "control") (lower <$> header)
    = Some (control_col, "control") ∧
    Forall2 (λ row cells, ∃ item w1 w2,
               row !! 0%nat = Some item ∧
               resolve service ctime retries fuel (lower item) w1 = Some (Ok cells, w2) ∧
               length cells = 7%nat)
            csvrows species_processed ∧
    Forall2 (λ row c, ∃ item, row !! control_col = Some item ∧ py_int item = Ok c)
            csvrows controls ∧
    Forall2 (λ row row_counts,
               Forall2 (λ col x, ∃ item, row !! col = Some item ∧ py_int item = Ok x)
                       (sample_columns header control_col) row_counts)
            csvrows counts ∧
    prune_and_normalize PRUNING_VALUE controls counts = Ok proportions ∧
    Forall (λ p, length p = length (sample_columns header control_col)) proportions ∧
    drop 1 written
    ≡ₚ zip_with (λ cells p, cells ++ (VFloat <$> p)) species_processed proportions.
Proof.
  intros Hfile Hrect. unfold main. simpl.
  intros (input' & w1 & [Hinput ->]%lift_Ok_inv & H)%M_bind_Ok_inv.
  change (py_index [prog; input; output] 1) with (Ok input) in Hinput.
  injection Hinput as <-.
  cbv beta in H; apply M_bind_Ok_inv in H as (table & w1 & Hread & H).
  destruct table as [[[header' species] controls] data].
  destruct (read_data_Ok _ _ _ _ _ _ _ _ _ Hfile Hrect Hread)
    as (-> & control_col & Hfind & Hspecies & Hcontrols & Hdata).
  cbv beta in H; apply M_bind_Ok_inv in H as ([] & w2 & _ & H).
  cbv beta in H; apply M_bind_Ok_inv in H as ([sp dp] & w3 & Hproc & H).
  cbv beta in H; apply M_bind_Ok_inv in H as (? & w4 & _ & H).
  cbv beta in H; apply M_bind_Ok_inv in H as (written' & w5 & [Hwrite ->]%lift_Ok_inv & H).
  cbv beta in H; apply M_bind_Ok_inv in H as ([] & w6 & _ & H). injection H as <- _.
  destruct (process_data_Ok _ _ _ _ _ _ _ _ _ Hproc) as [Hnum Hres].
  pose proof (prune_and_normalize_shape _ _ _ _ Hnum) as Hshape.
  exists control_col, sp, controls, data, dp.
  split; [exact Hfind|]. split; [|split; [exact Hcontrols|split; [exact Hdata|]]].
  - apply Forall2_same_length_lookup_2.
    + rewrite (Forall2_length _ _ _ Hspecies). exact (Forall2_length _ _ _ Hres).
    + intros i row cells Hrow Hcells.
      destruct (Forall2_lookup_l _ _ _ _ _ Hspecies Hrow)
        as (label & Hlabel & item & Hitem & ->).
      destruct (Forall2_lookup_l _ _ _ _ _ Hres Hlabel)
        as (cells' & Hcells' & w7 & w8 & Hresolve).
      assert (cells' = cells) as -> by congruence.
      exists item, w7, w8. split; [exact Hitem|]. split; [exact Hresolve|].
      eapply resolve_length, Hresolve.
  - split; [exact Hnum|]. split.
    + apply Forall_lookup. intros i p Hp.
      destruct (Forall2_lookup_r _ _ _ _ _ Hshape Hp) as (row_counts & Hrc & ->).
      destruct (Forall2_lookup_r _ _ _ _ _ Hdata Hrc) as (row & _ & Hcols).
      symmetry. eapply Forall2_length, Hcols.
    + apply (write_data_rows header); [|exact Hwrite].
      apply Forall2_length in Hres, Hspecies, Hdata, Hshape. congruence.
Qed.

End table.

(** C3, as the code has it.  When a column sums to zero after pruning the run
    does not complete: the division for the first row raises
    [ZeroDivisionError] before any name is looked up, no table is returned,
    and the zero sum is not special-cased. *)
Theorem zero_column_raises (service : nat → request → result response)
    (ctime : Z → string) (PRUNING_VALUE : Q) (retries fuel : nat)
    (species : list string) (controls : list Z) (data pruned : list (list Z))
    (j : nat) (w : world) :
  prune PRUNING_VALUE controls data = Ok pruned →
  column_sums pruned !! j = Some 0 →
  prune_and_normalize PRUNING_VALUE controls data = Raise ZeroDivisionError ∧
  process_data service ctime PRUNING_VALUE retries fuel species controls data w
  = Some (Raise ZeroDivisionError, w).
Proof.
  intros Hprune Hzero.
  assert (prune_and_normalize PRUNING_VALUE controls data
          = Raise ZeroDivisionError) as Hnum.
  { unfold prune_and_normalize. rewrite Hprune. simpl.
    eapply proportions_zero_column, Hzero. }
  split; [exact Hnum|]. unfold process_data. rewrite Hnum. reflexivity.
Qed.

(** * Further properties of the code *)

(** ** The retry loops of the requests *)

Section retry.
Context (service : nat → request → result response) (ctime : Z → string).

Lemma otl_tnrs_round retries query approx wait_time w :
  let req := match_names [query; query] approx in
  otl_tnrs service ctime (S retries) query approx wait_time w =
  match service (length (sent w)) req with
  | Ok res =>
      if status_code res =? 200 then Some (Ok res, posted req w)
      else otl_tnrs service ctime retries query approx wait_time
             (retried req (ctime (clock w)
                           +:+ ": error with Open Tree of Life response, retrying in "
                           +:+ str wait_time +:+ " seconds") wait_time w)
  | Raise e =>
      if is_connection_error e
      then otl_tnrs service ctime retries query approx wait_time
             (retried req (ctime (clock w)
                           +:+ ": error connecting to Open Tree of Life, retrying in "
                           +:+ str wait_time +:+ " seconds") wait_time w)
      else Some (Raise e, posted req w)
  end.
Proof.
  intros req. simpl. rewrite M_bind_unfold. unfold try_except, requests_post.
  fold req. destruct (service (length (sent w)) req) as [res|e].
  - destruct (status_code res =? 200); reflexivity.
  - destruct (is_connection_error e); reflexivity.
Qed.

Lemma otl_taxon_round retries query wait_time ncbi w :
  let req := taxon_request query ncbi in
  otl_taxon service ctime (S retries) query wait_time ncbi w =
  match service (length (sent w)) req with
  | Ok res =>
      if status_code res =? 200 then Some (Ok (Some res), posted req w)
      else if status_code res =? 400 then
        match json_message (body res) with
        | Ok message =>
            Some (Ok None,
                  {| sent := sent w ++ [req]; clock := clock w;
                     stderr := (stderr w ++ [message]) ++ ["skipping"];
                     stdout := stdout w; warned := warned w |})
        | Raise e => Some (Raise e, posted req w)
        end
      else otl_taxon service ctime retries query wait_time ncbi
             (retried req (ctime (clock w)
                           +:+ ": error contacting Open Tree of Life, retrying in "
                           +:+ str wait_time +:+ " seconds") wait_time w)
  | Raise e =>
      if is_connection_error e
      then otl_taxon service ctime retries query wait_time ncbi
             (retried req (ctime (clock w)
                           +:+ ": error connecting to Open Tree of Life, retrying in "
                           +:+ str wait_time +:+ " seconds") wait_time w)
      else Some (Raise e, posted req w)
  end.
Proof.
  intros req. simpl. rewrite M_bind_unfold. unfold try_except, requests_post.
  fold (taxon_request query ncbi). fold req.
  destruct (service (length (sent w)) req) as [res|e].
  - destruct (status_code res =? 200); [reflexivity|].
    destruct (status_code res =? 400); [|reflexivity].
    simpl. rewrite M_bind_unfold. unfold lift.
    destruct (json_message (body res)); reflexivity.
  - destruct (is_connection_error e); reflexivity.
Qed.

Lemma retried_sent req line wait_time w :
  length (sent (retried req line wait_time w)) = S (length (sent w)).
Proof. simpl. rewrite length_app. simpl. lia. Qed.

(** X1. [otl_tnrs] posts the same request again after every connection
    error and after every status other than 200: when the first [k] answers
    are of that kind and the next one has status 200, that response is
    returned after [k + 1] posts of the request, [k] sleeps of [wait_time]
    seconds and [k] lines on stderr; nothing is printed or warned. *)
Theorem otl_tnrs_retries_until_answered (k retries : nat) query approx wait_time w res :
  let req := match_names [query; query] approx in
  (∀ i, (i < k)%nat →
        tnrs_tries_again (service (length (sent w) + i) req) = true) →
  service (length (sent w) + k) req = Ok res →
  status_code res = 200 →
  (k < retries)%nat →
  ∃ w', otl_tnrs service ctime retries query approx wait_time w = Some (Ok res, w') ∧
        sent w' = sent w ++ replicate (S k) req ∧
        clock w' = clock w + Z.of_nat k * wait_time ∧
        length (stderr w') = (length (stderr w) + k)%nat ∧
        stdout w' = stdout w ∧ warned w' = warned w.
Proof.
  intros req. revert retries w.
  induction k as [|k IH]; intros retries w Hfail Hans Hstatus Hbudget;
    (destruct retries as [|retries]; [lia|]); rewrite otl_tnrs_round; fold req.
  - rewrite Nat.add_0_r in Hans. rewrite Hans, Hstatus. simpl.
    eexists. split; [reflexivity|]. simpl. repeat split; lia.
  - pose proof (Hfail 0%nat ltac:(lia)) as H0. rewrite Nat.add_0_r in H0.
    set (line1 := ctime (clock w) +:+ ": error with Open Tree of Life response, retrying in "
                  +:+ str wait_time +:+ " seconds").
    set (line2 := ctime (clock w) +:+ ": error connecting to Open Tree of Life, retrying in "
                  +:+ str wait_time +:+ " seconds").
    assert (Hnext : ∀ line, ∃ w',
      otl_tnrs service ctime retries query approx wait_time
        (retried req line wait_time w) = Some (Ok res, w') ∧
      sent w' = sent w ++ replicate (S (S k)) req ∧
      clock w' = clock w + Z.of_nat (S k) * wait_time ∧
      length (stderr w') = (length (stderr w) + S k)%nat ∧
      stdout w' = stdout w ∧ warned w' = warned w).
    { intros line.
      destruct (IH retries (retried req line wait_time w)) as (w' & Hrun & Hs & Hc & He & Ho & Hw).
      - intros i Hi. rewrite retried_sent.
        replace (S (length (sent w)) + i)%nat with (length (sent w) + S i)%nat by lia.
        apply Hfail. lia.
      - rewrite retried_sent.
        replace (S (length (sent w)) + k)%nat with (length (sent w) + S k)%nat by lia.
        exact Hans.
      - exact Hstatus.
      - lia.
      - exists w'. split; [exact Hrun|]. simpl in Hs, Hc, He, Ho, Hw.
        rewrite Hs, Hc, He, Ho, Hw, <- app_assoc, length_app. simpl.
        repeat split; lia. }
    destruct (service (length (sent w)) req) as [bad|e]; simpl in H0.
    + apply negb_true_iff in H0. rewrite H0. apply Hnext.
    + rewrite H0. apply Hnext.
Qed.

(** X3. [otl_tnrs] puts no limit on its retries: while the service
    keeps answering with connection errors or statuses other than 200 the
    loop goes on, however many rounds it is given. *)
Theorem otl_tnrs_never_gives_up query approx wait_time :
  let req := match_names [query; query] approx in
  ∀ retries w,
    (∀ i, tnrs_tries_again (service (length (sent w) + i) req) = true) →
    otl_tnrs service ctime retries query approx wait_time w = None.
Proof.
  intros req. induction retries as [|retries IH]; intros w Hfail; [reflexivity|].
  rewrite otl_tnrs_round. fold req.
  pose proof (Hfail 0%nat) as H0. rewrite Nat.add_0_r in H0.
  assert (Hnext : ∀ line,
    otl_tnrs service ctime retries query approx wait_time
      (retried req line wait_time w) = None).
  { intros line. apply IH. intros i. rewrite retried_sent.
    replace (S (length (sent w)) + i)%nat with (length (sent w) + S i)%nat by lia.
    apply Hfail. }
  destruct (service (length (sent w)) req) as [bad|e]; simpl in H0.
  - apply negb_true_iff in H0. rewrite H0. apply Hnext.
  - rewrite H0. apply Hnext.
Qed.

(** X2. Whatever [otl_tnrs] returns or raises is the answer of the
    service to its last post: a response is returned only with status 200,
    an exception leaves only when it is not a connection error, and every
    earlier answer was one that is retried, each retry costing one post, one
    sleep of [wait_time] seconds and one line on stderr. *)
Theorem otl_tnrs_outcome retries query approx wait_time w r w' :
  let req := match_names [query; query] approx in
  otl_tnrs service ctime retries query approx wait_time w = Some (r, w') →
  ∃ k, (k < retries)%nat ∧
    (∀ i, (i < k)%nat →
          tnrs_tries_again (service (length (sent w) + i) req) = true) ∧
    service (length (sent w) + k) req = r ∧
    match r with
    | Ok res => status_code res = 200
    | Raise e => is_connection_error e = false
    end ∧
    sent w' = sent w ++ replicate (S k) req ∧
    clock w' = clock w + Z.of_nat k * wait_time ∧
    length (stderr w') = (length (stderr w) + k)%nat.
Proof.
  intros req. revert w.
  induction retries as [|retries IH]; intros w; [discriminate|].
  rewrite otl_tnrs_round. fold req.
  assert (Hnext : ∀ line,
    tnrs_tries_again (service (length (sent w)) req) = true →
    otl_tnrs service ctime retries query approx wait_time
      (retried req line wait_time w) = Some (r, w') →
    ∃ k, (k < S retries)%nat ∧
      (∀ i, (i < k)%nat →
            tnrs_tries_again (service (length (sent w) + i) req) = true) ∧
      service (length (sent w) + k) req = r ∧
      match r with
      | Ok res => status_code res = 200
      | Raise e => is_connection_error e = false
      end ∧
      sent w' = sent w ++ replicate (S k) req ∧
      clock w' = clock w + Z.of_nat k * wait_time ∧
      length (stderr w') = (length (stderr w) + k)%nat).
  { intros line H0 Hrun.
    destruct (IH _ Hrun) as (k & Hk & Hfail & Hans & Hr & Hs & Hc & He).
    rewrite retried_sent in Hfail, Hans. simpl in Hs, Hc, He.
    exists (S k). split; [lia|]. split; [|split; [|split; [exact Hr|]]].
    - intros [|i] Hi; [rewrite Nat.add_0_r; exact H0|].
      replace (length (sent w) + S i)%nat with (S (length (sent w)) + i)%nat by lia.
      apply Hfail. lia.
    - replace (length (sent w) + S k)%nat with (S (length (sent w)) + k)%nat by lia.
      exact Hans.
    - rewrite Hs, Hc, He, <- app_assoc, length_app. simpl. repeat split; lia. }
  destruct (service (length (sent w)) req) as [res|e] eqn:Hsvc.
  - destruct (status_code res =? 200) eqn:Hst.
    + intros [= <- <-]. exists 0%nat. rewrite Nat.add_0_r.
      split; [lia|]. split; [intros; lia|]. split; [exact Hsvc|].
      split; [apply Z.eqb_eq, Hst|]. simpl. repeat split; lia.
    + apply Hnext. simpl. rewrite Hst. reflexivity.
  - destruct (is_connection_error e) eqn:He.
    + apply Hnext. exact He.
    + intros [= <- <-]. exists 0%nat. rewrite Nat.add_0_r.
      split; [lia|]. split; [intros; lia|]. split; [exact Hsvc|].
      split; [exact He|]. simpl. repeat split; lia.
Qed.

(** X4. The outcomes of [otl_taxon].  After [k] retried answers
    (connection errors, statuses other than 200 and 400), each costing one
    post, one sleep and one line on stderr, it returns the response of
    status 200; or returns [None] on a status 400, after writing the message
    of the response and the word skipping to stderr; or raises, either the
    exception of the service when that is not a connection error, or the
    [KeyError] of a status 400 body without a message. *)
Theorem otl_taxon_outcome retries query wait_time ncbi w r w' :
  let req := taxon_request query ncbi in
  otl_taxon service ctime retries query wait_time ncbi w = Some (r, w') →
  ∃ k lines, (k < retries)%nat ∧ length lines = k ∧
    (∀ i, (i < k)%nat →
          taxon_tries_again (service (length (sent w) + i) req) = true) ∧
    sent w' = sent w ++ replicate (S k) req ∧
    clock w' = clock w + Z.of_nat k * wait_time ∧
    match r with
    | Ok (Some res) =>
        service (length (sent w) + k) req = Ok res ∧ status_code res = 200 ∧
        stderr w' = stderr w ++ lines
    | Ok None =>
        ∃ bad message,
          service (length (sent w) + k) req = Ok bad ∧ status_code bad = 400 ∧
          json_message (body bad) = Ok message ∧
          stderr w' = stderr w ++ lines ++ [message; "skipping"]
    | Raise e =>
        stderr w' = stderr w ++ lines ∧
        ((service (length (sent w) + k) req = Raise e ∧
          is_connection_error e = false) ∨
         (∃ bad, service (length (sent w) + k) req = Ok bad ∧
                 status_code bad = 400 ∧ json_message (body bad) = Raise e))
    end.
Proof.
  intros req. revert w.
  induction retries as [|retries IH]; intros w; [discriminate|].
  rewrite otl_taxon_round. fold req.
  assert (Hnext : ∀ line,
    taxon_tries_again (service (length (sent w)) req) = true →
    otl_taxon service ctime retries query wait_time ncbi
      (retried req line wait_time w) = Some (r, w') →
    ∃ k lines, (k < S retries)%nat ∧ length lines = k ∧
      (∀ i, (i < k)%nat →
            taxon_tries_again (service (length (sent w) + i) req) = true) ∧
      sent w' = sent w ++ replicate (S k) req ∧
      clock w' = clock w + Z.of_nat k * wait_time ∧
      match r with
      | Ok (Some res) =>
          service (length (sent w) + k) req = Ok res ∧ status_code res = 200 ∧
          stderr w' = stderr w ++ lines
      | Ok None =>
          ∃ bad message,
            service (length (sent w) + k) req = Ok bad ∧ status_code bad = 400 ∧
            json_message (body bad) = Ok message ∧
            stderr w' = stderr w ++ lines ++ [message; "skipping"]
      | Raise e =>
          stderr w' = stderr w ++ lines ∧
          ((service (length (sent w) + k) req = Raise e ∧
            is_connection_error e = false) ∨
           (∃ bad, service (length (sent w) + k) req = Ok bad ∧
                   status_code bad = 400 ∧ json_message (body bad) = Raise e))
      end).
  { intros line H0 Hrun.
    destruct (IH _ Hrun) as (k & lines & Hk & Hl & Hfail & Hs & Hc & Hr).
    rewrite retried_sent in Hfail, Hr. simpl in Hs, Hc, Hr.
    replace (S (length (sent w)) + k)%nat with (length (sent w) + S k)%nat in Hr by lia.
    exists (S k), (line :: lines). split; [lia|]. split; [simpl; lia|].
    split; [|split; [|split]].
    - intros [|i] Hi; [rewrite Nat.add_0_r; exact H0|].
      replace (length (sent w) + S i)%nat with (S (length (sent w)) + i)%nat by lia.
      apply Hfail. lia.
    - rewrite Hs, <- app_assoc. reflexivity.
    - rewrite Hc. lia.
    - rewrite Nat.add_succ_r. destruct r as [[res|]|e].
      + destruct Hr as (Ha & Hb & Hc'). rewrite Hc', <- app_assoc.
        split; [exact Ha|]. split; [exact Hb|reflexivity].
      + destruct Hr as (bad & message & Ha & Hb & Hm & Hc').
        exists bad, message. rewrite Hc', <- app_assoc.
        split; [exact Ha|]. split; [exact Hb|]. split; [exact Hm|reflexivity].
      + destruct Hr as [Hc' Hr]. rewrite Hc', <- app_assoc.
        split; [reflexivity|exact Hr]. }
  destruct (service (length (sent w)) req) as [res|e] eqn:Hsvc.
  - destruct (status_code res =? 200) eqn:Hst.
    { intros [= <- <-]. exists 0%nat, []. rewrite Nat.add_0_r, app_nil_r.
      split; [lia|]. split; [reflexivity|]. split; [intros; lia|].
      split; [reflexivity|]. split; [simpl; lia|].
      split; [exact Hsvc|]. split; [apply Z.eqb_eq, Hst|reflexivity]. }
    destruct (status_code res =? 400) eqn:Hst4.
    + destruct (json_message (body res)) as [message|e] eqn:Hmsg.
      * intros [= <- <-]. exists 0%nat, []. rewrite Nat.add_0_r.
        split; [lia|]. split; [reflexivity|]. split; [intros; lia|].
        split; [reflexivity|]. split; [simpl; lia|].
        exists res, message. split; [exact Hsvc|]. split; [apply Z.eqb_eq, Hst4|].
        split; [exact Hmsg|]. simpl. rewrite <- app_assoc. reflexivity.
      * intros [= <- <-]. exists 0%nat, []. rewrite Nat.add_0_r, app_nil_r.
        split; [lia|]. split; [reflexivity|]. split; [intros; lia|].
        split; [reflexivity|]. split; [simpl; lia|].
        split; [reflexivity|]. right. exists res.
        split; [exact Hsvc|]. split; [apply Z.eqb_eq, Hst4|exact Hmsg].
    + apply Hnext. simpl. rewrite Hst, Hst4. reflexivity.
  - destruct (is_connection_error e) eqn:He.
    + apply Hnext. exact He.
    + intros [= <- <-]. exists 0%nat, []. rewrite Nat.add_0_r, app_nil_r.
      split; [lia|]. split; [reflexivity|]. split; [intros; lia|].
      split; [reflexivity|]. split; [simpl; lia|].
      split; [reflexivity|]. left. auto.
Qed.

(** X5. [otl_taxon] retries like [otl_tnrs], a status 400 apart:
    when the first [k] answers are connection errors or statuses other than
    200 and 400 and the next one has status 200, that response is returned
    after [k + 1] posts, [k] sleeps and [k] lines on stderr. *)
Theorem otl_taxon_retries_until_answered (k retries : nat) query wait_time ncbi w res :
  let req := taxon_request query ncbi in
  (∀ i, (i < k)%nat →
        taxon_tries_again (service (length (sent w) + i) req) = true) →
  service (length (sent w) + k) req = Ok res →
  status_code res = 200 →
  (k < retries)%nat →
  ∃ w', otl_taxon service ctime retries query wait_time ncbi w
        = Some (Ok (Some res), w') ∧
        sent w' = sent w ++ replicate (S k) req ∧
        clock w' = clock w + Z.of_nat k * wait_time ∧
        length (stderr w') = (length (stderr w) + k)%nat.
Proof.
  intros req. revert retries w.
  induction k as [|k IH]; intros retries w Hfail Hans Hstatus Hbudget;
    (destruct retries as [|retries]; [lia|]); rewrite otl_taxon_round; fold req.
  - rewrite Nat.add_0_r in Hans. rewrite Hans, Hstatus. simpl.
    eexists. split; [reflexivity|]. simpl. repeat split; lia.
  - pose proof (Hfail 0%nat ltac:(lia)) as H0. rewrite Nat.add_0_r in H0.
    assert (Hnext : ∀ line, ∃ w',
      otl_taxon service ctime retries query wait_time ncbi
        (retried req line wait_time w) = Some (Ok (Some res), w') ∧
      sent w' = sent w ++ replicate (S (S k)) req ∧
      clock w' = clock w + Z.of_nat (S k) * wait_time ∧
      length (stderr w') = (length (stderr w) + S k)%nat).
    { intros line.
      destruct (IH retries (retried req line wait_time w)) as (w' & Hrun & Hs & Hc & He).
      - intros i Hi. rewrite retried_sent.
        replace (S (length (sent w)) + i)%nat with (length (sent w) + S i)%nat by lia.
        apply Hfail. lia.
      - rewrite retried_sent.
        replace (S (length (sent w)) + k)%nat with (length (sent w) + S k)%nat by lia.
        exact Hans.
      - exact Hstatus.
      - lia.
      - exists w'. split; [exact Hrun|]. simpl in Hs, Hc, He.
        rewrite Hs, Hc, He, <- app_assoc, length_app. simpl.
        repeat split; lia. }
    destruct (service (length (sent w)) req) as [bad|e]; simpl in H0.
    + apply andb_true_iff in H0 as [H2 H4].
      apply negb_true_iff in H2, H4. rewrite H2, H4. apply Hnext.
    + rewrite H0. apply Hnext.
Qed.
End retry.

(** ** The taxonomy record *)

(** *** [list2dict] *)

Lemma split_without c s : contains c s = false → split c s = [s].
Proof.
  induction s as [|a s IH]; simpl; [reflexivity|].
  intros [Ha Hs]%orb_false_iff. rewrite Ha, (IH Hs). reflexivity.
Qed.

Lemma split_with c s :
  contains c s = true → ∃ k v rest, split c s = k :: v :: rest.
Proof.
  intros Hc. apply contains_count in Hc.
  pose proof (split_length c s) as Hl.
  destruct (split c s) as [|k [|v rest]]; simpl in Hl; try lia. eauto.
Qed.

Lemma list2dict_snoc l x :
  list2dict (l ++ [x])
  = (d ← list2dict l;
     k ← py_index (split ":" x) 0;
     v ← py_index (split ":" x) 1;
     Ok (<[k := v]> d)).
Proof. unfold list2dict. rewrite foldl_app. reflexivity. Qed.

Lemma list2dict_nil : list2dict [] = Ok ∅.
Proof. reflexivity. Qed.

Lemma list2dict_entry (d : gmap string string) (x : string) :
  (k ← py_index (split ":" x) 0;
   v ← py_index (split ":" x) 1;
   Ok (<[k := v]> d) : result (gmap string string))
  = match split ":" x with
    | k :: v :: _ => Ok (<[k := v]> d)
    | _ => Raise IndexError
    end.
Proof.
  pose proof (split_length ":" x) as Hl.
  destruct (split ":" x) as [|k [|v rest]]; simpl in Hl; try lia; reflexivity.
Qed.

Lemma list2dict_raises l e : list2dict l = Raise e → e = IndexError.
Proof.
  induction l as [|x l IH] using rev_ind; [discriminate|].
  rewrite list2dict_snoc. destruct (list2dict l) as [d|e']; simpl.
  - rewrite list2dict_entry.
    destruct (split ":" x) as [|k [|v rest]]; congruence.
  - intros [= <-]. apply IH. reflexivity.
Qed.

Lemma list2dict_no_colon (taxlist : list string) :
  Exists (λ x, contains ":" x = false) taxlist →
  list2dict taxlist = Raise IndexError.
Proof.
  induction taxlist as [|x l IH] using rev_ind; [intros H; inversion H|].
  rewrite list2dict_snoc.
  intros [Hl|Hx%Exists_cons]%Exists_app.
  - rewrite (IH Hl). reflexivity.
  - destruct Hx as [Hx|Hx]; [|inversion Hx].
    destruct (list2dict l) as [d|e] eqn:Hd; simpl.
    + rewrite list2dict_entry, (split_without _ _ Hx). reflexivity.
    + rewrite (list2dict_raises _ _ Hd). reflexivity.
Qed.

(** X6. [list2dict] returns a dict when every entry holds a colon, and
    the only exception it raises is [IndexError], which happens only when
    some entry has no colon. *)
Theorem list2dict_needs_colons (taxlist : list string) :
  (Forall (λ x, contains ":" x = true) taxlist → ∃ d, list2dict taxlist = Ok d) ∧
  (∀ e, list2dict taxlist = Raise e →
        e = IndexError ∧ Exists (λ x, contains ":" x = false) taxlist).
Proof.
  induction taxlist as [|x l [IHok IHbad]] using rev_ind.
  - split; [intros _; eexists; reflexivity|]. discriminate.
  - rewrite list2dict_snoc. split.
    + intros [Hl Hx%Forall_inv]%Forall_app.
      destruct (IHok Hl) as [d ->]. simpl. rewrite list2dict_entry.
      destruct (split_with _ _ Hx) as (k & v & rest & ->). eauto.
    + intros e. destruct (list2dict l) as [d|e'] eqn:Hd; simpl.
      * rewrite list2dict_entry.
        destruct (contains ":" x) eqn:Hx.
        -- destruct (split_with _ _ Hx) as (k & v & rest & ->). discriminate.
        -- rewrite (split_without _ _ Hx). intros [= <-].
           split; [reflexivity|]. apply Exists_app. right. constructor. exact Hx.
      * intros [= <-]. destruct (IHbad e' eq_refl) as [-> Hex].
        split; [reflexivity|]. apply Exists_app. left. exact Hex.
Qed.

(** X7. In the dict [list2dict] builds, a key is bound to the text
    between the first and the second colon of the last entry whose text
    before the first colon is that key. *)
Theorem list2dict_last_entry_wins (before after : list string) x k v rest d :
  list2dict (before ++ x :: after) = Ok d →
  split ":" x = k :: v :: rest →
  Forall (λ y, head (split ":" y) ≠ Some k) after →
  d !! k = Some v.
Proof.
  revert d. induction after as [|y after IH] using rev_ind; intros d Hd Hx Hafter.
  - change (before ++ [x]) with (before ++ [x]) in Hd.
    rewrite list2dict_snoc in Hd.
    apply result_bind_Ok_inv in Hd as (d0 & _ & Hd).
    rewrite list2dict_entry, Hx in Hd. injection Hd as <-.
    apply lookup_insert_eq.
  - apply Forall_app in Hafter as [Hafter Hy%Forall_inv].
    replace (before ++ x :: after ++ [y]) with ((before ++ x :: after) ++ [y]) in Hd
      by (rewrite <- app_assoc; reflexivity).
    rewrite list2dict_snoc in Hd.
    apply result_bind_Ok_inv in Hd as (d0 & Hd0 & Hd).
    rewrite list2dict_entry in Hd.
    destruct (split ":" y) as [|k' [|v' rest']]; try discriminate.
    injection Hd as <-. rewrite lookup_insert_ne.
    + apply (IH d0 Hd0 Hx Hafter).
    + intros ->. apply Hy. reflexivity.
Qed.

(** *** More on the lineage record *)

Lemma rank_dict_last r l :
  rank_dict l !! ("tax_" +:+ r)
  = (λ g, VStr (taxon_name g)) <$> last (filter (λ g, taxon_rank g = r) l).
Proof.
  induction l as [|x l IH] using rev_ind.
  - rewrite rank_dict_nil, lookup_empty. reflexivity.
  - rewrite rank_dict_snoc, filter_app.
    destruct (decide (taxon_rank x = r)) as [Hx|Hx].
    + rewrite filter_cons_True by exact Hx.
      rewrite filter_nil, last_snoc, Hx. apply lookup_insert_eq.
    + rewrite filter_cons_False by exact Hx.
      rewrite filter_nil, app_nil_r, <- IH.
      apply lookup_insert_ne. intros H. apply Hx.
      apply (inj (String.append "tax_")). exact H.
Qed.

Lemma add_genus_information_lookup t l d d' key :
  add_genus_information t l d = Ok d' →
  key ∉ ["tax_cg_ott_id"; "cg"; "tax_genus"; "tax_cg_ncbi_id"] →
  d' !! key = d !! key.
Proof.
  intros H Hkey.
  assert (key ≠ "tax_cg_ott_id" ∧ key ≠ "cg" ∧ key ≠ "tax_genus"
          ∧ key ≠ "tax_cg_ncbi_id") as (H1 & H2 & H3 & H4).
  { repeat split; intros ->; apply Hkey; repeat constructor. }
  revert H. unfold add_genus_information.
  destruct (bool_decide _); [|congruence].
  destruct (filter _ l) as [|genus_tax ?].
  - destruct (py_getitem _ "rank") as [rank|]; simpl; [|discriminate].
    destruct (in_strs rank _).
    + destruct (py_index _ 0) as [cg|]; simpl; [|discriminate].
      intros [= <-]. rewrite !lookup_insert_ne by congruence. reflexivity.
    + intros [= <-]. rewrite !lookup_insert_ne by congruence. reflexivity.
  - destruct (py_getitem _ "tax_genus") as [genus|]; simpl; [|discriminate].
    destruct (ncbi_source _) as [v|e]; simpl.
    + intros [= <-].
      rewrite lookup_insert_ne, lookup_delete_ne, !lookup_insert_ne by congruence.
      reflexivity.
    + destruct (is_KeyError e); [|discriminate]. intros [= <-].
      rewrite lookup_delete_ne, !lookup_insert_ne by congruence. reflexivity.
Qed.

Lemma update_species_ids_other l d d' key :
  update_species_ids l d = Ok d' →
  key ∉ ["tax_cs_ott_id"; "tax_species"; "cg"] →
  d' !! key = d !! key.
Proof.
  intros H Hkey.
  assert (key ≠ "tax_cs_ott_id" ∧ key ≠ "tax_species" ∧ key ≠ "cg")
    as (H1 & H2 & H3).
  { repeat split; intros ->; apply Hkey; repeat constructor. }
  revert H. unfold update_species_ids.
  destruct (py_getitem _ "rank") as [rank|]; simpl; [|discriminate].
  destruct (negb _); intros [= <-];
    destruct (filter _ l);
    rewrite ?lookup_insert_ne, ?lookup_delete_ne, ?lookup_insert_ne by congruence;
    reflexivity.
Qed.

Lemma update_species_ids_species l d d' :
  update_species_ids l d = Ok d' →
  d' !! "tax_species" = None ∧
  ∀ s ss, filter (λ tax, taxon_rank tax = "species") l = s :: ss →
          d' !! "tax_cs_ott_id" = Some (VInt (taxon_ott_id s)).
Proof.
  unfold update_species_ids.
  destruct (py_getitem _ "rank") as [rank|]; simpl; [|discriminate].
  destruct (negb _); intros [= <-]; (split; [dict_lookup; apply lookup_delete_eq|]);
    intros s ss ->; dict_lookup; reflexivity.
Qed.

Lemma taxonomy_of_stages ott_id status t lineage d :
  taxonomy_of ott_id (Some {| status_code := status;
                              body := taxon_info_json t lineage |}) = Ok d →
  ∃ d1 d2, add_ncbi_id t (taxonomy_dictionary ott_id t lineage) = Ok d1 ∧
           add_genus_information t lineage d1 = Ok d2 ∧
           update_species_ids lineage d2 = Ok d.
Proof.
  unfold taxonomy_of. simpl.
  intros (d1 & H1 & H)%result_bind_Ok_inv.
  apply result_bind_Ok_inv in H as (d2 & H2 & H). eauto.
Qed.

(** X8. A taxon whose [tax_sources] hold an entry without a colon
    makes [taxonomy_OTT] raise [IndexError]: only the [KeyError] of a missing
    ncbi source is caught around [list2dict]. *)
Theorem taxonomy_of_malformed_source ott_id status t lineage :
  Exists (λ x, contains ":" x = false) (taxon_tax_sources t) →
  taxonomy_of ott_id (Some {| status_code := status;
                              body := taxon_info_json t lineage |})
  = Raise IndexError.
Proof.
  intros Hbad. unfold taxonomy_of. simpl. unfold add_ncbi_id, ncbi_source.
  rewrite (list2dict_no_colon _ Hbad). reflexivity.
Qed.

(** X9. Every record [taxonomy_OTT] returns holds the id it was asked
    for, the accepted name and the rank of the taxon and the source [OTT],
    and has no entry for the rank [no rank] nor for [tax_species], whatever
    the lineage holds. *)
Theorem taxonomy_of_provenance ott_id status t lineage d :
  taxonomy_of ott_id (Some {| status_code := status;
                              body := taxon_info_json t lineage |}) = Ok d →
  d !! "tax_ott_id" = Some (VInt ott_id) ∧
  d !! "tax_ott_accepted_name" = Some (VStr (taxon_name t)) ∧
  d !! "rank" = Some (VStr (taxon_rank t)) ∧
  d !! "tax_higher_source" = Some (VStr "OTT") ∧
  d !! "tax_no rank" = None ∧
  d !! "tax_species" = None.
Proof.
  intros (d1 & d2 & H1 & H2 & H3)%taxonomy_of_stages.
  assert (Hkeep : ∀ key,
    key ∉ ["tax_cs_ott_id"; "tax_species"; "cg"] →
    key ∉ ["tax_cg_ott_id"; "cg"; "tax_genus"; "tax_cg_ncbi_id"] →
    key ≠ "tax_ncbi_id" →
    d !! key = taxonomy_dictionary ott_id t lineage !! key).
  { intros key Ha Hb Hc.
    rewrite (update_species_ids_other _ _ _ key H3 Ha).
    rewrite (add_genus_information_lookup _ _ _ _ key H2 Hb).
    apply (add_ncbi_id_lookup _ _ _ key H1 Hc). }
  assert (Hnotin : ∀ (key : string) (keys : list string),
    Forall (λ k, k ≠ key) keys → key ∉ keys).
  { intros key keys Hall Hin. eapply Forall_forall in Hall; [|exact Hin].
    congruence. }
  repeat split.
  1-5: rewrite Hkeep;
       [|apply Hnotin; repeat constructor; discriminate
        |apply Hnotin; repeat constructor; discriminate
        |discriminate];
       unfold taxonomy_dictionary; dict_lookup.
  - reflexivity.
  - reflexivity.
  - reflexivity.
  - reflexivity.
  - apply lookup_delete_eq.
  - apply (update_species_ids_species _ _ _ H3).
Qed.

(** X10. For each of the six ranks written to the output, the record of
    [taxonomy_OTT] binds [tax_<rank>] to the name of the last ancestor of
    that rank in the lineage, and has no such entry when the lineage has no
    ancestor of that rank. *)
Theorem taxonomy_of_lineage_fields ott_id status t lineage d r :
  taxonomy_of ott_id (Some {| status_code := status;
                              body := taxon_info_json t lineage |}) = Ok d →
  r ∈ ["domain"; "kingdom"; "phylum"; "class"; "order"; "family"] →
  d !! ("tax_" +:+ r)
  = (λ g, VStr (taxon_name g)) <$> last (filter (λ g, taxon_rank g = r) lineage).
Proof.
  intros (d1 & d2 & H1 & H2 & H3)%taxonomy_of_stages Hr.
  assert (Hnotin : ∀ (key : string) (keys : list string),
    Forall (λ k, k ≠ key) keys → key ∉ keys).
  { intros key keys Hall Hin. eapply Forall_forall in Hall; [|exact Hin].
    congruence. }
  rewrite <- rank_dict_last.
  repeat (apply elem_of_cons in Hr as [->|Hr]); [..|inversion Hr].
  all: rewrite (update_species_ids_other _ _ _ _ H3)
         by (apply Hnotin; repeat constructor; discriminate).
  all: rewrite (add_genus_information_lookup _ _ _ _ _ H2)
         by (apply Hnotin; repeat constructor; discriminate).
  all: rewrite (add_ncbi_id_lookup _ _ _ _ H1) by discriminate.
  all: unfold taxonomy_dictionary; dict_lookup; reflexivity.
Qed.

(** X11. The ancestor ids in the record of [taxonomy_OTT]: whatever the
    rank of the taxon, [tax_cs_ott_id] is the id of the first ancestor of
    rank species when there is one; for a species or subspecies with a genus
    among its ancestors, [tax_cg_ott_id] is the id of the first such
    ancestor and the entry [tax_genus] is removed. *)
Theorem taxonomy_of_ancestor_ids ott_id status t lineage d :
  taxonomy_of ott_id (Some {| status_code := status;
                              body := taxon_info_json t lineage |}) = Ok d →
  (∀ s ss, filter (λ tax, taxon_rank tax = "species") lineage = s :: ss →
           d !! "tax_cs_ott_id" = Some (VInt (taxon_ott_id s))) ∧
  (taxon_rank t ∈ ["species"; "subspecies"] →
   ∀ g gs, filter (λ tax, taxon_rank tax = "genus") lineage = g :: gs →
           d !! "tax_cg_ott_id" = Some (VInt (taxon_ott_id g)) ∧
           d !! "tax_genus" = None).
Proof.
  intros (d1 & d2 & H1 & H2 & H3)%taxonomy_of_stages.
  split; [apply (update_species_ids_species _ _ _ H3)|].
  intros Hlow g gs Hg.
  assert (Hnotin : ∀ (key : string) (keys : list string),
    Forall (λ k, k ≠ key) keys → key ∉ keys).
  { intros key keys Hall Hin. eapply Forall_forall in Hall; [|exact Hin].
    congruence. }
  rewrite !(update_species_ids_other _ _ _ _ H3)
    by (apply Hnotin; repeat constructor; discriminate).
  revert H2. unfold add_genus_information.
  rewrite (bool_decide_eq_true_2 _ Hlow), Hg.
  destruct (py_getitem _ "tax_genus") as [genus|]; simpl; [|discriminate].
  destruct (ncbi_source _) as [v|e]; simpl.
  - intros [= <-]. dict_lookup. split; [reflexivity|apply lookup_delete_eq].
  - destruct (is_KeyError e); [|discriminate]. intros [= <-].
    split; [dict_lookup; reflexivity|apply lookup_delete_eq].
Qed.

(** ** Name lookups *)

Section names.
Context (service : nat → request → result response) (ctime : Z → string).

(** X12. [otl_checkname] without a match asks nothing more than the
    name match: it returns [None] when the response holds no results and the
    empty dict when the first result holds no matches, leaving the world as
    [otl_tnrs] left it. *)
Theorem otl_checkname_without_match retries query w res w1 :
  otl_tnrs service ctime retries query false 600 w = Some (Ok res, w1) →
  (json_results (body res) = Ok [] →
   otl_checkname service ctime retries query w = Some (Ok PyNone, w1)) ∧
  (∀ first others,
     json_results (body res) = Ok (first :: others) → matches first = [] →
     otl_checkname service ctime retries query w = Some (Ok EmptyDict, w1)).
Proof.
  intros Htnrs. split.
  - intros Hres. unfold otl_checkname.
    rewrite (M_bind_Ok _ _ _ _ _ Htnrs), Hres. reflexivity.
  - intros first others Hres Hm. unfold otl_checkname.
    rewrite (M_bind_Ok _ _ _ _ _ Htnrs), Hres, M_bind_lift_Ok, Hm. reflexivity.
Qed.

(** X13. When the first match is a genus or a species,
    [otl_checkname] returns a dict with the name and id of that match, the
    source [OTT], the record of [taxonomy_OTT] for its id and its rank as
    level; [ncbi_id] is set for a species only, and only when its sources
    give one, any failure there being swallowed. *)
Theorem otl_checkname_found retries query w res w1 first others result more
    higher w2 :
  otl_tnrs service ctime retries query false 600 w = Some (Ok res, w1) →
  json_results (body res) = Ok (first :: others) →
  matches first = result :: more →
  taxonomy_OTT service ctime retries (taxon_ott_id result) w1 = Some (Ok higher, w2) →
  taxon_rank result ∈ ["species"; "genus"] →
  ∃ d, otl_checkname service ctime retries query w = Some (Ok (NameDict d), w2) ∧
       current_name d = taxon_name result ∧
       name_id d = taxon_ott_id result ∧
       name_source d = "OTT" ∧
       higher_taxonomy d = higher ∧
       level d = taxon_rank result ∧
       ncbi_id d = (if bool_decide (taxon_rank result = "species")
                    then match ncbi_source (taxon_tax_sources result) with
                         | Ok v => Some v
                         | Raise _ => None
                         end
                    else None).
Proof.
  intros Htnrs Hres Hm Htax Hrank. unfold otl_checkname.
  rewrite (M_bind_Ok _ _ _ _ _ Htnrs), Hres, M_bind_lift_Ok, Hm.
  rewrite (M_bind_Ok _ _ _ _ _ Htax).
  destruct (bool_decide (taxon_rank result = "species")) eqn:Hs.
  - apply bool_decide_eq_true_1 in Hs.
    eexists. split; [reflexivity|]. simpl. rewrite Hs. auto 10.
  - apply bool_decide_eq_false_1 in Hs.
    assert (taxon_rank result = "genus") as Hg.
    { apply elem_of_cons in Hrank as [?|Hrank]; [congruence|].
      apply elem_of_cons in Hrank as [?|Hrank]; [assumption|inversion Hrank]. }
    rewrite (bool_decide_eq_true_2 _ Hg).
    eexists. split; [reflexivity|]. simpl. rewrite Hg. auto 10.
Qed.

(** X14. A label that is matched as it stands is not shortened and
    costs no further lookup: its row is the six lineage cells followed by
    the current name alone. *)
Theorem resolve_first_try retries fuel sp d w w' :
  otl_checkname service ctime retries sp w = Some (Ok (NameDict d), w') →
  resolve service ctime retries fuel sp w
  = Some (Ok (lineage_cells d ++ [VStr (current_name d)]), w').
Proof.
  intros Hlook. unfold resolve. rewrite (M_bind_Ok _ _ _ _ _ Hlook).
  rewrite (M_bind_Ok _ _ _ w' (NameDict d, [sp])); [reflexivity|].
  apply shorten_skip. reflexivity.
Qed.

(** What holds when the loop returns: the strings it leaves are the prefix
    looked up last and the tokens stripped, and the lookups made before the
    last one all failed. *)
Lemma shorten_trace retries fuel :
  ∀ taxa n0 rest w taxa' name' w',
    shorten service ctime retries fuel taxa (n0 :: rest) w
    = Some (Ok (taxa', name'), w') →
    ∃ prefix stripped,
      n0 = join " " (prefix :: stripped) ∧
      name' = prefix :: stripped ++ rest ∧
      Forall (λ t, contains " " t = false) stripped ∧
      (truthy taxa' = true ∨ contains " " prefix = false) ∧
      ∀ w0, otl_checkname service ctime retries n0 w0 = Some (Ok taxa, w) →
        ∃ w1, lookups_fail service ctime retries (attempts prefix stripped) w0
              = Some w1 ∧
              otl_checkname service ctime retries prefix w1 = Some (Ok taxa', w').
Proof.
  induction fuel as [|fuel IH]; intros taxa n0 rest w taxa' name' w';
    rewrite shorten_eq;
    change (py_index (n0 :: rest) 0) with (Ok n0); rewrite M_bind_lift_Ok;
    destruct (negb (truthy taxa) && contains " " n0) eqn:Hcond;
    try discriminate.
  1,3: intros [= <- <- <-]; exists n0, []; split; [reflexivity|];
       split; [reflexivity|]; split; [constructor|]; split;
       [apply andb_false_iff in Hcond as [Ht%negb_false_iff|Hc]; auto|];
       intros w0 Hw0; exists w0; split; [reflexivity|exact Hw0].
  apply andb_true_iff in Hcond as [Ht%negb_true_iff Hc].
  destruct (rpartition " " n0) as [[p q]|] eqn:Hr.
  2:{ apply rpartition_None in Hr. congruence. }
  cbv zeta. unfold rsplit1. rewrite Hr.
  change (py_index (([p; q]) ++ drop 1 (n0 :: rest)) 0) with (Ok p).
  rewrite M_bind_lift_Ok.
  intros (taxa1 & w1 & Hp & Hloop)%M_bind_Ok_inv.
  change ([p; q] ++ drop 1 (n0 :: rest)) with (p :: q :: rest) in Hloop.
  destruct (IH _ _ _ _ _ _ _ Hloop)
    as (prefix & stripped & Hjoin & Hname & Hnosp & Hexit & Hlookups).
  destruct (rpartition_Some _ _ _ _ Hr) as (Hn0 & Hq & _).
  exists prefix, (stripped ++ [q]). split; [|split; [|split; [|split]]].
  - rewrite join_space_snoc, <- Hjoin. exact Hn0.
  - rewrite Hname, <- app_assoc. reflexivity.
  - apply Forall_app. split; [exact Hnosp|]. constructor; [exact Hq|constructor].
  - exact Hexit.
  - intros w0 Hw0. rewrite attempts_snoc, join_space_snoc, <- Hjoin, <- Hn0.
    simpl. rewrite Hw0, Ht. apply Hlookups, Hp.
Qed.

(** X15. Every row the resolution of a label returns comes from the lookups
    the loop made: the label is a prefix followed by stripped tokens without
    a space, the lookups of the label and of its shortened forms down to the
    prefix with one token all failed, and the lookup of the prefix was the
    last one made.  When that one found a match, the row is the lineage
    cells of this match followed by its current name and the stripped
    tokens; otherwise the prefix has no space left and the row is the
    placeholder row. *)
Theorem resolve_outcome retries fuel sp w row w' :
  resolve service ctime retries fuel sp w = Some (Ok row, w') →
  ∃ prefix stripped taxa w1,
    sp = join " " (prefix :: stripped) ∧
    Forall (λ t, contains " " t = false) stripped ∧
    lookups_fail service ctime retries (attempts prefix stripped) w = Some w1 ∧
    otl_checkname service ctime retries prefix w1 = Some (Ok taxa, w') ∧
    match taxa with
    | NameDict d =>
        row = lineage_cells d ++ [VStr (join " " (current_name d :: stripped))]
    | _ => contains " " prefix = false ∧ row = placeholder sp
    end.
Proof.
  unfold resolve. intros (taxa & w1 & Hfirst & H)%M_bind_Ok_inv.
  apply M_bind_Ok_inv in H as ([taxa' name] & w2 & Hloop & H).
  destruct (shorten_trace _ _ _ _ _ _ _ _ _ Hloop)
    as (prefix & stripped & Hjoin & -> & Hnosp & Hexit & Hlookups).
  destruct (Hlookups w Hfirst) as (w3 & Hfail & Hlast).
  exists prefix, stripped, taxa', w3.
  assert (w' = w2) as ->.
  { destruct taxa'; injection H as _ <-; reflexivity. }
  split; [exact Hjoin|]. split; [exact Hnosp|]. split; [exact Hfail|].
  split; [exact Hlast|].
  destruct taxa' as [| |d]; injection H as <-.
  - destruct Hexit as [Hexit|Hexit]; [discriminate|]. auto.
  - destruct Hexit as [Hexit|Hexit]; [discriminate|]. auto.
  - unfold lineage_cells. f_equal. f_equal. f_equal.
    rewrite app_nil_r. destruct stripped as [|r stripped]; reflexivity.
Qed.
End names.

(** ** Writing and reading the tables *)

(** *** The order of the rows *)

Lemma pyval_eqb_sym a b : pyval_eqb a b = pyval_eqb b a.
Proof.
  assert (Hq : ∀ p q, Qeq_bool p q = Qeq_bool q p).
  { intros p q. unfold Qeq_bool. apply Z.eqb_sym. }
  destruct a, b; simpl; auto using String.eqb_sym.
Qed.

Lemma pyval_ltb_asym a b : pyval_ltb a b = true → pyval_ltb b a = false.
Proof.
  assert (Hq : ∀ p q, negb (Qle_bool q p) = true → negb (Qle_bool p q) = false).
  { intros p q Hlt. apply negb_true_iff in Hlt. apply negb_false_iff.
    apply Qle_bool_iff. apply Qlt_le_weak. apply Qnot_le_lt.
    intros Hle. apply Qle_bool_iff in Hle. congruence. }
  destruct a, b; simpl; auto; try discriminate.
  unfold String.ltb. rewrite (String.compare_antisym s s0).
  destruct (s0 ?= s)%string; simpl; congruence.
Qed.

Lemma row_ltb_asym r1 r2 : row_ltb r1 r2 = true → row_ltb r2 r1 = false.
Proof.
  revert r2. induction r1 as [|a r1 IH]; intros [|b r2]; simpl; auto.
  rewrite (pyval_eqb_sym b a). destruct (pyval_eqb a b); [apply IH|].
  apply pyval_ltb_asym.
Qed.

Lemma row_le_total : Total row_le.
Proof.
  intros r1 r2. unfold row_le.
  destruct (row_ltb r2 r1) eqn:H; [right; apply row_ltb_asym, H|left; reflexivity].
Qed.

Lemma write_data_Ok header species data written :
  write_data header species data = Ok written →
  ∃ combined,
    written = ((VStr <$> ["domain"; "kingdom"; "phylum"; "class"; "order"; "family";
                          "genus, species"])
               ++ (VStr <$> drop 1 (take (length header - 1) header)))
              :: list_sort combined ∧
    length combined = length species.
Proof.
  unfold write_data. intros (combined & Hc & [= <-])%result_bind_Ok_inv.
  exists combined. split; [reflexivity|]. eapply mapM_range_Ok, Hc.
Qed.

(** X21. [write_data] writes the header record and then one record per
    OTU, in ascending order of the records. *)
Theorem written_rows_are_sorted header species data written :
  write_data header species data = Ok written →
  Sorted row_le (drop 1 written) ∧
  length written = S (length species).
Proof.
  intros (combined & -> & Hlen)%write_data_Ok. simpl. split.
  - pose proof row_le_total as Htotal. apply (Sorted_merge_sort row_le).
  - unfold list_sort. rewrite merge_sort_Permutation, Hlen. reflexivity.
Qed.

(** X24. [write_data] returns when there is a row of numbers for every
    OTU row, ignoring surplus rows of numbers, and raises [IndexError] when
    there are fewer. *)
Theorem write_data_needs_a_row_per_otu header species (data : list (list Q)) :
  ((length species ≤ length data)%nat →
   ∃ written, write_data header species data = Ok written) ∧
  ((length data < length species)%nat →
   write_data header species data = Raise IndexError).
Proof.
  unfold write_data. split; intros Hlen.
  - rewrite (mapM_range_Ok_fmap _
      (λ i, default [] (species !! i) ++ (VFloat <$> default [] (data !! i)))).
    + eexists. reflexivity.
    + intros i Hi.
      destruct (lookup_lt_is_Some_2 species i Hi) as [s Hs].
      destruct (lookup_lt_is_Some_2 data i ltac:(lia)) as [d Hd].
      rewrite (proj2 (py_index_Ok _ _ _) Hs), (proj2 (py_index_Ok _ _ _) Hd).
      rewrite Hs, Hd. reflexivity.
  - rewrite <- (app_nil_r (range (length species))).
    rewrite (mapM_Raise_prefix _ IndexError); [reflexivity| |].
    + apply Forall_forall. intros i [_ Hi]%elem_of_seq. simpl in Hi.
      destruct (lookup_lt_is_Some_2 species i Hi) as [s Hs].
      rewrite (proj2 (py_index_Ok _ _ _) Hs). simpl.
      unfold py_index. destruct (data !! i); simpl; eauto.
    + apply Exists_exists. exists (length data). split.
      * apply elem_of_seq. lia.
      * destruct (lookup_lt_is_Some_2 species (length data) Hlen) as [s Hs].
        rewrite (proj2 (py_index_Ok _ _ _) Hs). simpl. unfold py_index.
        rewrite (proj2 (lookup_ge_None data (length data))) by lia. reflexivity.
Qed.

Lemma header_row_labels header species data written :
  write_data header species data = Ok written →
  ∃ row, written !! 0%nat = Some row ∧ length row = (7 + (length header - 2))%nat ∧
    ∀ col label, (1 ≤ col < length header - 1)%nat → header !! col = Some label →
                 row !! (6 + col)%nat = Some (VStr label).
Proof.
  intros (combined & -> & _)%write_data_Ok. eexists. split; [reflexivity|]. split.
  - rewrite length_app, !length_fmap, length_drop, length_take. simpl. lia.
  - intros col label Hcol Hlabel.
    rewrite lookup_app_r by (simpl; lia). simpl.
    rewrite list_lookup_fmap, lookup_drop, lookup_take_lt by lia.
    replace (1 + (col - 1))%nat with col by lia. rewrite Hlabel. reflexivity.
Qed.


Lemma filter_seq_below (m start len : nat) :
  (start + len ≤ m)%nat → filter (λ i, i ≠ m) (seq start len) = seq start len.
Proof.
  revert start. induction len as [|len IH]; intros start Hm; [reflexivity|].
  simpl. rewrite filter_cons_True by lia. rewrite IH by lia. reflexivity.
Qed.

Lemma sample_columns_control_last header :
  sample_columns header (length header - 1) = seq 1 (length header - 2).
Proof.
  unfold sample_columns. destruct (length header) as [|[|n]]; [reflexivity..|].
  replace (S (S n) - 1)%nat with (S n) by lia.
  replace (S (S n) - 2)%nat with n by lia.
  rewrite seq_S, filter_app. simpl.
  rewrite filter_cons_False, filter_nil, app_nil_r by (intros H; apply H; reflexivity).
  apply filter_seq_below. lia.
Qed.

(** X22. The header record written is the seven fixed labels
    followed by the labels of the sample columns of a table whose control
    column is the last one. *)
Theorem header_row_when_control_is_last header species data written :
  write_data header species data = Ok written →
  ∃ row, written !! 0%nat = Some row ∧
    take 7 row = VStr <$> ["domain"; "kingdom"; "phylum"; "class"; "order"; "family";
                           "genus, species"] ∧
    Forall2 (λ col cell, ∃ label, header !! col = Some label ∧ cell = VStr label)
            (sample_columns header (length header - 1)) (drop 7 row).
Proof.
  intros (combined & -> & _)%write_data_Ok. eexists. split; [reflexivity|].
  split; [reflexivity|]. rewrite sample_columns_control_last.
  change (drop 7 _) with (VStr <$> drop 1 (take (length header - 1) header)).
  apply Forall2_same_length_lookup_2.
  - rewrite length_seq, length_fmap, length_drop, length_take. lia.
  - intros i col cell [-> Hi]%lookup_seq.
    rewrite list_lookup_fmap, lookup_drop, lookup_take_lt by lia.
    destruct (header !! (1 + i)%nat) as [label|]; [|discriminate].
    intros [= <-]. eauto.
Qed.

(** X23. When the control column is not the last column, its label is
    written in the header record, above a column of sample proportions: the
    header record takes every label of the input but the first and the last,
    whatever the position of the control column. *)
Theorem header_row_when_control_is_not_last header species data written
    (control_col : nat) label :
  write_data header species data = Ok written →
  (1 ≤ control_col < length header - 1)%nat →
  header !! control_col = Some label →
  ∃ row, written !! 0%nat = Some row ∧
         length row = (7 + (length header - 2))%nat ∧
         row !! (6 + control_col)%nat = Some (VStr label).
Proof.
  intros Hw Hcol Hlabel.
  destruct (header_row_labels _ _ _ _ Hw) as (row & Hrow & Hlen & Hlabels).
  exists row. split; [exact Hrow|]. split; [exact Hlen|].
  eapply Hlabels; eassumption.
Qed.

Section files.
Context (service : nat → request → result response) (ctime : Z → string)
  (files : string → option (list (list string))) (py_int : string → result Z)
  (PRUNING_VALUE : Q).

(** X16. A missing input file is reported on stderr and ends the run
    with exit status 1, in [read_data] and hence in the script: nothing is
    printed and no request is sent. *)
Theorem missing_input_file retries fuel prog input output w :
  files input = None →
  let gone := complained ("file '" +:+ input +:+ "' not found" +:+ newline) w in
  read_data files py_int input w = Some (Raise (SystemExit 1), gone) ∧
  main service ctime files py_int PRUNING_VALUE retries fuel [prog; input; output] w
  = Some (Raise (SystemExit 1), gone).
Proof.
  intros Hfile gone.
  assert (read_data files py_int input w = Some (Raise (SystemExit 1), gone)) as Hread.
  { unfold read_data. rewrite Hfile. reflexivity. }
  split; [exact Hread|]. unfold main. simpl.
  change (py_index [prog; input; output] 1) with (Ok input).
  rewrite M_bind_lift_Ok. apply M_bind_Raise. exact Hread.
Qed.

(** X17. A table whose first header cell is not [otu], in any case of
    the letters, is refused: [read_data] writes a line to stderr and exits
    with status 1. *)
Theorem no_otu_column file first header csvrows w :
  files file = Some ((first :: header) :: csvrows) →
  lower first ≠ "otu" →
  read_data files py_int file w
  = Some (Raise (SystemExit 1), complained ("no OTU column found" +:+ newline) w).
Proof.
  intros Hfile Hfirst. unfold read_data. rewrite Hfile. cbv zeta.
  change (py_index (lower <$> first :: header) 0) with (Ok (lower first)).
  rewrite M_bind_lift_Ok.
  destruct (String.eqb_spec (lower first) "otu") as [?|_]; [congruence|].
  reflexivity.
Qed.

(** X18. A table with an OTU column but no column headed [control], in
    any case of the letters, is refused: [read_data] writes a line to stderr
    and exits with status 1. *)
Theorem no_control_column file header csvrows otus w :
  files file = Some (header :: csvrows) →
  head (lower <$> header) = Some "otu" →
  column 0 csvrows = Some otus → csvrows ≠ [] →
  "control" ∉ (lower <$> header) →
  read_data files py_int file w
  = Some (Raise (SystemExit 1), complained ("no control column found" +:+ newline) w).
Proof.
  intros Hfile Hfirst Hotus Hne Hcontrol. unfold read_data. rewrite Hfile. cbv zeta.
  destruct header as [|first header]; [discriminate|].
  injection Hfirst as Hfirst.
  change (py_index (lower <$> first :: header) 0) with (Ok (lower first)).
  rewrite M_bind_lift_Ok, Hfirst, String.eqb_refl.
    change (negb true) with false. cbv iota.
  rewrite <- zip_star_lookup in Hotus by exact Hne.
  rewrite (proj2 (py_index_Ok _ _ _) Hotus), M_bind_lift_Ok.
  destruct (list_find _ (lower <$> first :: header)) as [[i item]|] eqn:Hfind.
  - apply list_find_Some in Hfind as (Hi & -> & _).
    exfalso. apply Hcontrol. eapply list_elem_of_lookup_2, Hi.
  - reflexivity.
Qed.

Lemma py_index_Raise {A} (l : list A) (i : nat) :
  l !! i = None → py_index l i = Raise IndexError.
Proof. unfold py_index. intros ->. reflexivity. Qed.

(** X19. Degenerate files are not reported but raise: an empty file
    raises [StopIteration], an empty header line [IndexError], and a table
    with an OTU header but no data row, or with a blank row, raises
    [IndexError] at the first column, before the control column is looked
    for; nothing is written to stderr. *)
Theorem degenerate_files file w :
  (files file = Some [] →
   read_data files py_int file w = Some (Raise StopIteration, w)) ∧
  (∀ csvrows, files file = Some ([] :: csvrows) →
   read_data files py_int file w = Some (Raise IndexError, w)) ∧
  (∀ header csvrows,
     files file = Some (header :: csvrows) →
     head (lower <$> header) = Some "otu" →
     csvrows = [] ∨ [] ∈ csvrows →
     read_data files py_int file w = Some (Raise IndexError, w)).
Proof.
  split; [|split].
  - intros Hfile. unfold read_data. rewrite Hfile. reflexivity.
  - intros csvrows Hfile. unfold read_data. rewrite Hfile. reflexivity.
  - intros header csvrows Hfile Hfirst Hrows. unfold read_data. rewrite Hfile.
    cbv zeta. destruct header as [|first header]; [discriminate|].
    injection Hfirst as Hfirst.
    change (py_index (lower <$> first :: header) 0) with (Ok (lower first)).
    rewrite M_bind_lift_Ok, Hfirst, String.eqb_refl.
    change (negb true) with false. cbv iota.
    assert (zip_star csvrows !! 0%nat = None) as Hcol.
    { destruct Hrows as [->|Hin]; [reflexivity|].
      rewrite zip_star_lookup by (intros ->; inversion Hin).
      unfold column. apply mapM_None. apply Exists_exists.
      exists []. split; [exact Hin|reflexivity]. }
    rewrite (py_index_Raise _ _ Hcol). reflexivity.
Qed.

Lemma mapM_Ok_exists {A B} (f : A → result B) (l : list A) :
  Forall (λ x, ∃ y, f x = Ok y) l → ∃ k, mapM f l = Ok k.
Proof.
  induction 1 as [|x l [y Hy] _ [k Hk]]; [eexists; reflexivity|].
  exists (y :: k). simpl. rewrite Hy. simpl. rewrite Hk. reflexivity.
Qed.

Lemma column_of_rectangle (j n : nat) (rows : list (list string)) :
  Forall (λ row, length row = n) rows → (j < n)%nat →
  ∃ col, column j rows = Some col.
Proof.
  intros Hrect Hj. apply mapM_is_Some. eapply Forall_impl; [exact Hrect|].
  simpl. intros row Hlen. apply lookup_lt_is_Some. lia.
Qed.

(** X20. [read_data] accepts every rectangular table with at least one
    row, an OTU first column, a control column and integers in all the other
    cells: it returns the header with one label, one control count and one
    row of counts per row of the file, and writes nothing. *)
Theorem read_data_accepts file header csvrows control_col item w :
  files file = Some (header :: csvrows) →
  head (lower <$> header) = Some "otu" →
  list_find (λ item, item = "control") (lower <$> header) = Some (control_col, item) →
  csvrows ≠ [] →
  Forall (λ row, length row = length header) csvrows →
  Forall (λ row, Forall (λ cell, ∃ n, py_int cell = Ok n) (drop 1 row)) csvrows →
  ∃ species controls data,
    read_data files py_int file w = Some (Ok (header, species, controls, data), w) ∧
    length species = length csvrows ∧
    length controls = length csvrows ∧
    length data = length csvrows.
Proof.
  intros Hfile Hfirst Hfind Hne Hrect Hints.
  destruct header as [|first header]; [discriminate|].
  injection Hfirst as Hfirst.
  pose proof Hfind as (Hcc & -> & _)%list_find_Some.
  assert (control_col ≠ 0)%nat as Hcc0.
  { intros ->. simpl in Hcc. congruence. }
  assert (control_col < length (first :: header))%nat as Hcclt.
  { apply lookup_lt_Some in Hcc. rewrite length_fmap in Hcc. exact Hcc. }
  destruct (column_of_rectangle 0 _ _ Hrect ltac:(simpl; lia)) as [otus Hotus].
  destruct (column_of_rectangle control_col _ _ Hrect Hcclt) as [control Hcontrol].
  assert (∃ controls, mapM py_int control = Ok controls) as [controls Hcontrols].
  { apply mapM_Ok_exists. apply Forall_lookup. intros i cell Hcell.
    apply column_Some in Hcontrol.
    destruct (Forall2_lookup_r _ _ _ _ _ Hcontrol Hcell) as (row & Hrow & Hlook).
    eapply Forall_lookup_1 in Hints; [|exact Hrow]. simpl in Hints.
    eapply Forall_lookup_1 in Hints; [exact Hints|].
    rewrite lookup_drop. replace (1 + (control_col - 1))%nat with control_col by lia.
    exact Hlook. }
  assert (∃ data, mapM (λ row : list string,
                     mapM (λ i, item ← py_index row i; py_int item)
                          (filter (λ i, i ≠ control_col) (seq 1 (length row - 1))))
                   csvrows = Ok data) as [data Hdata].
  { apply mapM_Ok_exists. apply Forall_lookup. intros i row Hrow.
    apply mapM_Ok_exists. apply Forall_forall.
    intros col [_ [Hcol1 Hcol2]%elem_of_seq]%list_elem_of_filter.
    destruct (lookup_lt_is_Some_2 row col ltac:(lia)) as [cell Hcell].
    eapply Forall_lookup_1 in Hints; [|exact Hrow]. simpl in Hints.
    eapply (Forall_lookup_1 _ _ (col - 1)) in Hints.
    - destruct Hints as [n Hn]. exists n.
      rewrite (proj2 (py_index_Ok _ _ _) Hcell). exact Hn.
    - rewrite lookup_drop. replace (1 + (col - 1))%nat with col by lia. exact Hcell. }
  exists (lower <$> otus), controls, data. split.
  - unfold read_data. rewrite Hfile. cbv zeta.
    change (py_index (lower <$> first :: header) 0) with (Ok (lower first)).
    rewrite M_bind_lift_Ok, Hfirst, String.eqb_refl.
    change (negb true) with false. cbv iota.
    rewrite <- zip_star_lookup in Hotus, Hcontrol by exact Hne.
    rewrite (proj2 (py_index_Ok _ _ _) Hotus), M_bind_lift_Ok.
    rewrite Hfind.
    rewrite (proj2 (py_index_Ok _ _ _) Hcontrol), M_bind_lift_Ok.
    rewrite Hcontrols, M_bind_lift_Ok, Hdata, M_bind_lift_Ok. reflexivity.
  - apply mapM_Ok_length in Hcontrols, Hdata.
    apply column_Some in Hotus, Hcontrol.
    apply Forall2_length in Hotus, Hcontrol.
    rewrite length_fmap. repeat split; congruence.
Qed.


End files.

(** ** Failures and values of the numeric stage *)

Lemma mapM_Raise_inv {A B} (f : A → result B) (l : list A) (e : exn) :
  mapM f l = Raise e → ∃ x, x ∈ l ∧ f x = Raise e.
Proof.
  induction l as [|x l IH]; simpl; [discriminate|].
  destruct (f x) as [y|e'] eqn:Hx; simpl.
  - destruct (mapM f l) as [k|e'] eqn:Hl; simpl; [discriminate|].
    intros [= <-]. destruct (IH eq_refl) as (x' & Hin & Hx').
    exists x'. split; [right; exact Hin|exact Hx'].
  - intros [= <-]. exists x. split; [left|exact Hx].
Qed.

Lemma result_cases {A} (r : result A) : (∃ a, r = Ok a) ∨ (∃ e, r = Raise e).
Proof. destruct r; eauto. Qed.

Lemma prune_Raise thr controls data e :
  prune thr controls data = Raise e →
  e = IndexError ∧
  ∃ i row, data !! i = Some row ∧ row ≠ [] ∧ (length controls ≤ i)%nat.
Proof.
  unfold prune. intros (i & Hi & H)%mapM_Raise_inv.
  apply elem_of_seq in Hi as [_ Hi]. simpl in Hi.
  destruct (lookup_lt_is_Some_2 data i Hi) as [row Hrow].
  rewrite (proj2 (py_index_Ok _ _ _) Hrow) in H. simpl in H.
  apply mapM_Raise_inv in H as (d & Hd & H).
  destruct (controls !! i) as [c|] eqn:Hc.
  - rewrite (prune_cell_Ok _ _ _ _ d Hc) in H. discriminate.
  - unfold prune_cell, py_index in H. rewrite Hc in H. injection H as <-.
    split; [reflexivity|]. exists i, row. split; [exact Hrow|]. split.
    + intros ->. inversion Hd.
    + apply lookup_ge_None. exact Hc.
Qed.

(** X25. The pruning loop returns exactly when every non-empty row has
    a control count, and never raises anything but [IndexError]: a zero
    control is tested before the division, so the ratio is never computed
    with a zero divisor. *)
Theorem prune_needs_a_control_per_row thr controls data :
  ((∃ pruned, prune thr controls data = Ok pruned) ↔
   (∀ i row, data !! i = Some row → row ≠ [] → (i < length controls)%nat)) ∧
  (∀ e, prune thr controls data = Raise e → e = IndexError).
Proof.
  split; [split|].
  - intros [pruned Hp] i row Hrow Hne.
    destruct (prune_Ok_rows _ _ _ _ Hp) as [Hlen Hrows].
    destruct (lookup_lt_is_Some_2 pruned i) as [prow Hprow].
    { rewrite Hlen. eapply lookup_lt_Some, Hrow. }
    destruct (Hrows i prow Hprow) as (row' & Hrow' & Hm).
    assert (row' = row) as -> by congruence.
    destruct row as [|d row]; [congruence|]. simpl in Hm.
    destruct (prune_cell thr controls i d) as [p|] eqn:Hcell; [|discriminate].
    unfold prune_cell, py_index in Hcell.
    destruct (controls !! i) as [c|] eqn:Hc; [|discriminate].
    eapply lookup_lt_Some, Hc.
  - intros Hall. destruct (result_cases (prune thr controls data)) as [H|[e H]];
      [exact H|].
    apply prune_Raise in H as (_ & i & row & Hrow & Hne & Hle).
    specialize (Hall i row Hrow Hne). lia.
  - intros e H. apply prune_Raise in H as [-> _]. reflexivity.
Qed.

Lemma proportions_Ok_rectangular pruned out :
  proportions pruned = Ok out →
  Forall (λ row, length row = length (column_sums pruned)) pruned ∧
  Forall (λ s, s ≠ 0) (column_sums pruned).
Proof.
  intros Ho. destruct (proportions_Ok_rows _ _ Ho) as [Hlen Hrows].
  assert (∀ i row j, pruned !! i = Some row → (j < length row)%nat →
            ∃ s, column_sums pruned !! j = Some s ∧ s ≠ 0) as Hcell.
  { intros i row j Hrow Hj.
    destruct (lookup_lt_is_Some_2 out i) as [orow Horow].
    { rewrite Hlen. eapply lookup_lt_Some, Hrow. }
    destruct (Hrows i orow Horow) as (row' & Hrow' & Hl & Hcells).
    assert (row' = row) as -> by congruence.
    destruct (lookup_lt_is_Some_2 orow j ltac:(lia)) as [q Hq].
    destruct (Hcells j q Hq) as (x & s & _ & Hs & Hs0 & _). eauto. }
  split.
  - apply Forall_lookup. intros i row Hrow.
    apply Nat.le_antisymm.
    + destruct (decide (length row ≤ length (column_sums pruned))%nat) as [|Hgt];
        [assumption|].
      destruct (Hcell i row (length (column_sums pruned)) Hrow ltac:(lia))
        as (s & Hs%lookup_lt_Some & _). lia.
    + destruct (decide (length (column_sums pruned) ≤ length row)%nat) as [|Hgt];
        [assumption|].
      destruct (column_sums_row pruned i (length row) row Hrow ltac:(lia))
        as [x Hx%lookup_lt_Some]. lia.
  - apply Forall_lookup. intros j s Hs.
    destruct (column_sums_lookup _ _ _ Hs) as (Hne & _).
    destruct pruned as [|row0 rest]; [congruence|].
    destruct (column_sums_row (row0 :: rest) 0 j row0 eq_refl) as [x Hx];
      [eapply lookup_lt_Some, Hs|].
    destruct (Hcell 0%nat row0 j eq_refl) as (s' & Hs' & Hs0);
      [eapply lookup_lt_Some, Hx|].
    congruence.
Qed.

Lemma proportions_Ok_exists pruned :
  Forall (λ row, length row = length (column_sums pruned)) pruned →
  Forall (λ s, s ≠ 0) (column_sums pruned) →
  ∃ out, proportions pruned = Ok out.
Proof.
  intros Hrect Hnz.
  set (g := λ i : nat, let row := default [] (pruned !! i) in
         (λ j, (inject_Z (default 0%Z (row !! j)) /
                inject_Z (default 0%Z (column_sums pruned !! j)))%Q)
         <$> range (length row)).
  exists (g <$> range (length pruned)).
  unfold proportions. apply mapM_range_Ok_fmap. intros i Hi.
  destruct (lookup_lt_is_Some_2 pruned i Hi) as [prow Hprow].
  rewrite (proj2 (py_index_Ok _ _ _) Hprow). simpl.
  unfold g. rewrite Hprow. simpl.
  apply mapM_range_Ok_fmap. intros j Hj.
  destruct (lookup_lt_is_Some_2 prow j Hj) as [x Hx].
  destruct (lookup_lt_is_Some_2 (column_sums pruned) j) as [s Hs].
  { eapply Forall_lookup_1 in Hrect; [|exact Hprow]. simpl in Hrect. lia. }
  rewrite (proj2 (py_index_Ok _ _ _) Hx), (proj2 (py_index_Ok _ _ _) Hs).
  rewrite Hx, Hs. simpl. unfold py_truediv.
  eapply Forall_lookup_1 in Hnz; [|exact Hs]. simpl in Hnz.
  apply Z.eqb_neq in Hnz. rewrite Hnz. reflexivity.
Qed.

Lemma proportions_Raise pruned e :
  proportions pruned = Raise e → e = IndexError ∨ e = ZeroDivisionError.
Proof.
  unfold proportions. intros (i & _ & H)%mapM_Raise_inv.
  destruct (py_index pruned i) as [row|e'] eqn:Hrow; simpl in H.
  - apply mapM_Raise_inv in H as (j & _ & H).
    unfold py_index in H.
    destruct (row !! j); simpl in H; [|left; congruence].
    destruct (column_sums pruned !! j); simpl in H; [|left; congruence].
    unfold py_truediv in H. destruct (_ =? 0); [right; congruence|discriminate].
  - unfold py_index in Hrow. destruct (pruned !! i); [discriminate|].
    left. congruence.
Qed.

(** X26. The normalisation returns exactly on the tables whose rows
    all have as many cells as there are column sums (the columns are cut at
    the shortest row) and whose column sums are all non-zero; otherwise it
    raises [IndexError] or [ZeroDivisionError]. *)
Theorem proportions_need_a_rectangle pruned :
  ((∃ out, proportions pruned = Ok out) ↔
   Forall (λ row, length row = length (column_sums pruned)) pruned ∧
   Forall (λ s, s ≠ 0) (column_sums pruned)) ∧
  (∀ e, proportions pruned = Raise e → e = IndexError ∨ e = ZeroDivisionError).
Proof.
  split; [split|].
  - intros [out Ho]. eapply proportions_Ok_rectangular, Ho.
  - intros [Hrect Hnz]. apply proportions_Ok_exists; assumption.
  - apply proportions_Raise.
Qed.

Lemma prune_column thr controls data pruned j pcol :
  prune thr controls data = Ok pruned →
  column j pruned = Some pcol →
  ∃ col, column j data = Some col ∧
         pcol = zip_with (pruned_value thr) controls col.
Proof.
  intros Hp Hpcol. destruct (prune_Ok_rows _ _ _ _ Hp) as [Hlen Hrows].
  apply column_Some in Hpcol. pose proof (Forall2_length _ _ _ Hpcol) as Hlc.
  assert (∀ k x, pcol !! k = Some x →
            ∃ row d c, data !! k = Some row ∧ row !! j = Some d ∧
                       controls !! k = Some c ∧ x = pruned_value thr c d) as Hcell.
  { intros k x Hx.
    destruct (Forall2_lookup_r _ _ _ _ _ Hpcol Hx) as (prow & Hprow & Hj).
    destruct (Hrows k prow Hprow) as (row & Hrow & Hm). apply mapM_Ok in Hm.
    destruct (Forall2_lookup_r _ _ _ _ _ Hm Hj) as (d & Hd & Hc).
    destruct (controls !! k) as [c|] eqn:Hck.
    - rewrite (prune_cell_Ok _ _ _ _ d Hck) in Hc. injection Hc as <-.
      exists row, d, c. auto.
    - unfold prune_cell, py_index in Hc. rewrite Hck in Hc. discriminate. }
  exists ((λ row, default 0 (row !! j)) <$> data). split.
  - apply column_Some, Forall2_fmap_r, Forall2_same_length_lookup_2; [reflexivity|].
    intros k row row' Hrow Hrow'. assert (row' = row) as -> by congruence.
    destruct (lookup_lt_is_Some_2 pcol k) as [x Hx].
    { rewrite <- Hlc, Hlen. eapply lookup_lt_Some, Hrow. }
    destruct (Hcell k x Hx) as (row' & d & c & Hrow'' & Hd & _).
    assert (row' = row) as -> by congruence.
    unfold compose. rewrite Hd. reflexivity.
  - apply list_eq. intros k. rewrite lookup_zip_with, list_lookup_fmap.
    destruct (pcol !! k) as [x|] eqn:Hx.
    + destruct (Hcell k x Hx) as (row & d & c & Hrow & Hd & Hc & ->).
      rewrite Hc, Hrow. simpl. rewrite Hd. reflexivity.
    + apply lookup_ge_None in Hx.
      rewrite (proj2 (lookup_ge_None data k)) by lia.
      destruct (controls !! k); reflexivity.
Qed.

(** X27. Each cell of the table the numeric stage returns is the pruned
    count of the cell divided by the sum of the pruned counts of its
    column. *)
Theorem normalized_cell thr controls data out i j row d c :
  prune_and_normalize thr controls data = Ok out →
  data !! i = Some row → row !! j = Some d → controls !! i = Some c →
  ∃ col orow,
    column j data = Some col ∧
    py_sum (zip_with (pruned_value thr) controls col) ≠ 0 ∧
    out !! i = Some orow ∧
    orow !! j = Some (inject_Z (pruned_value thr c d) /
                      inject_Z (py_sum (zip_with (pruned_value thr) controls col)))%Q.
Proof.
  unfold prune_and_normalize. intros (pruned & Hp & Ho)%result_bind_Ok_inv.
  intros Hrow Hd Hc.
  destruct (prune_Ok_rows _ _ _ _ Hp) as [Hlen Hrows].
  destruct (proportions_Ok_rows _ _ Ho) as [Hlo Horows].
  destruct (lookup_lt_is_Some_2 out i) as [orow Horow].
  { rewrite Hlo, Hlen. eapply lookup_lt_Some, Hrow. }
  destruct (Horows i orow Horow) as (prow & Hprow & Hl & Hcells).
  destruct (Hrows i prow Hprow) as (row' & Hrow' & Hm).
  assert (row' = row) as -> by congruence.
  pose proof (mapM_Ok_length _ _ _ Hm) as Hlm. apply mapM_Ok in Hm.
  destruct (Forall2_lookup_l _ _ _ _ _ Hm Hd) as (p & Hp' & Hcell).
  rewrite (prune_cell_Ok _ _ _ _ d Hc) in Hcell. injection Hcell as <-.
  destruct (lookup_lt_is_Some_2 orow j) as [q Hq].
  { rewrite Hl. eapply lookup_lt_Some, Hp'. }
  destruct (Hcells j q Hq) as (x & s & Hx & Hs & Hs0 & ->).
  assert (x = pruned_value thr c d) as -> by congruence.
  destruct (column_sums_lookup _ _ _ Hs) as (_ & pcol & Hpcol & <-).
  destruct (prune_column _ _ _ _ _ _ Hp Hpcol) as (col & Hcol & ->).
  exists col, orow. auto.
Qed.

Section shape.
Context (service : nat → request → result response) (ctime : Z → string)
  (PRUNING_VALUE : Q).

(** X28. [process_data] returns one row of seven cells per OTU label
    and a table of proportions of the shape of the counts. *)
Theorem process_data_shape retries fuel species controls data sp dp w w' :
  process_data service ctime PRUNING_VALUE retries fuel species controls data w
  = Some (Ok (sp, dp), w') →
  length sp = length species ∧
  Forall (λ cells, length cells = 7%nat) sp ∧
  Forall2 (λ row p, length p = length row) data dp.
Proof.
  intros [Hnum Hres]%process_data_Ok. split; [|split].
  - symmetry. eapply Forall2_length, Hres.
  - apply Forall_lookup. intros i cells Hcells.
    destruct (Forall2_lookup_r _ _ _ _ _ Hres Hcells) as (label & _ & w1 & w2 & H).
    eapply resolve_length, H.
  - eapply prune_and_normalize_shape, Hnum.
Qed.
End shape.


(** * Examples *)

(** The table of the specification: ratios 2.0 and 0.5 against a threshold of
    1.5. *)
Example pruning_example :
  prune_and_normalize PRUNING_VALUE_default [10; 10] [[20]; [5]]
  = Ok [[(20 # 20)%Q]; [(0 # 20)%Q]].
Proof. vm_compute. reflexivity. Qed.

Lemma prune_by_control_ratio_witness :
  (length [[20; 5]; [3; 0]] ≤ length [10; 0])%nat ∧
  ∃ pruned, prune PRUNING_VALUE_default [10; 0] [[20; 5]; [3; 0]] = Ok pruned ∧
            pruned = [[20; 0]; [3; 0]].
Proof.
  split; [simpl; lia|].
  destruct (prune_by_control_ratio PRUNING_VALUE_default [10; 0] [[20; 5]; [3; 0]])
    as (pruned & Hp & _); [simpl; lia|].
  exists pruned. split; [exact Hp|].
  vm_compute in Hp. injection Hp as <-. reflexivity.
Defined.

Lemma proportions_sum_to_one_witness :
  ∃ out,
    prune_and_normalize PRUNING_VALUE_default [10; 10] [[20; 4]; [5; 40]] = Ok out ∧
    ∀ j, (j < 2)%nat →
      ∃ col, column j out = Some col ∧ length col = 2%nat ∧
             Forall (λ q, (0 <= q <= 1)%Q) col ∧ (Qsum col == 1)%Q.
Proof.
  apply (proj1 (proportions_sum_to_one PRUNING_VALUE_default [10; 10]
                  [[20; 4]; [5; 40]] [[20; 0]; [0; 40]] 2
                  ltac:(repeat constructor; lia) ltac:(discriminate)
                  ltac:(repeat constructor) ltac:(vm_compute; reflexivity))).
  repeat constructor; discriminate.
Defined.

(** C2 as the specification states it fails on a table whose first sample
    column is pruned to zero while the second keeps the sum 50: the second
    column gets no values, [ZeroDivisionError] is raised. *)
Lemma nonzero_column_without_values :
  prune PRUNING_VALUE_default [10; 10] [[5; 20]; [3; 30]] = Ok [[0; 20]; [0; 30]] ∧
  column_sums [[0; 20]; [0; 30]] = [0; 50] ∧
  prune_and_normalize PRUNING_VALUE_default [10; 10] [[5; 20]; [3; 30]]
  = Raise ZeroDivisionError.
Proof. vm_compute. auto. Qed.

(** C3 as the specification states it fails on a table whose first sample
    column is pruned to zero: nothing is returned, [ZeroDivisionError] is
    raised. *)
Lemma zero_column_no_table :
  prune PRUNING_VALUE_default [10] [[5; 20]] = Ok [[0; 20]] ∧
  column_sums [[0; 20]] !! 0%nat = Some 0 ∧
  process_data example_service example_ctime PRUNING_VALUE_default 1 1
    ["genus"] [10] [[5; 20]] initial_world
  = Some (Raise ZeroDivisionError, initial_world).
Proof. vm_compute. auto. Qed.

Lemma zero_column_raises_witness :
  process_data example_service example_ctime PRUNING_VALUE_default 1 1
    ["genus"] [10; 10] [[5; 20]; [0; 7]] initial_world
  = Some (Raise ZeroDivisionError, initial_world).
Proof.
  apply (zero_column_raises example_service example_ctime PRUNING_VALUE_default
           1 1 ["genus"] [10; 10] [[5; 20]; [0; 7]] [[0; 20]; [0; 0]] 0
           initial_world).
  - vm_compute. reflexivity.
  - reflexivity.
Defined.

(** The taxonomy answers 400 for the id of [orphan]: the run ends there, and
    [genus], next in the table, is never looked up. *)
Lemma bad_request_ends_the_run_witness :
  otl_taxon example_service example_ctime 5 7 3600 false
    {| sent := [match_names ["orphan"; "orphan"] false]; clock := 0;
       stderr := []; stdout := []; warned := [] |}
  = Some (Ok None,
          {| sent := [match_names ["orphan"; "orphan"] false;
                      taxon_info_by_ott_id 7 true];
             clock := 0; stderr := ["unknown taxon"; "skipping"];
             stdout := []; warned := [] |}) ∧
  process_data example_service example_ctime PRUNING_VALUE_default 5 5
    ["orphan"; "genus"] [10; 10] [[20]; [30]] initial_world
  = Some (Raise AttributeError,
          {| sent := [match_names ["orphan"; "orphan"] false;
                      taxon_info_by_ott_id 7 true];
             clock := 0; stderr := ["unknown taxon"; "skipping"];
             stdout := []; warned := [] |}).
Proof.
  apply (bad_request_ends_the_run example_service example_ctime
           PRUNING_VALUE_default 4 5 "orphan" ["genus"] [10; 10] [[20]; [30]]
           [[(20 # 50)%Q]; [(30 # 50)%Q]]
           {| status_code := 200;
              body := one_match (example_taxon "genus" "Orphan" 7) |}
           {| matches := [example_taxon "genus" "Orphan" 7] |} []
           (example_taxon "genus" "Orphan" 7) []
           {| status_code := 400; body := message_json "unknown taxon" |}
           "unknown taxon" initial_world
           {| sent := [match_names ["orphan"; "orphan"] false]; clock := 0;
              stderr := []; stdout := []; warned := [] |}).
  - vm_compute. reflexivity.
  - vm_compute. reflexivity.
  - vm_compute. reflexivity.
  - vm_compute. reflexivity.
  - vm_compute. reflexivity.
  - reflexivity.
  - reflexivity.
Defined.

(** C5 as the specification states it fails on the label [genus incertae]:
    its lookup finds a family, warns and returns [None], yet the loop goes
    on, [genus] is matched, and the OTU gets a resolved row, not the
    placeholder. *)
Lemma other_rank_then_resolved :
  fst <$> otl_checkname example_service example_ctime 1 "genus incertae" initial_world
  = Some (Ok PyNone) ∧
  (warned ∘ snd) <$> otl_checkname example_service example_ctime 1 "genus incertae"
                       initial_world
  = Some ["genus incertae: found in ott, but not as genus or species"] ∧
  fst <$> resolve example_service example_ctime 1 1 "genus incertae" initial_world
  = Some (Ok (VStr <$> ["Eukaryota"; "Metazoa"; "Generozoa"; "Generia";
                        "Generales"; "Generidae"; "Genus incertae"])) ∧
  VStr <$> ["Eukaryota"; "Metazoa"; "Generozoa"; "Generia"; "Generales";
            "Generidae"; "Genus incertae"]
  ≠ placeholder "genus incertae".
Proof. vm_compute. repeat split; discriminate. Qed.

Lemma other_rank_is_a_failed_lookup_witness :
  resolve example_service example_ctime 1 0 "generidae" initial_world
  = Some (Ok (placeholder "generidae"),
          {| sent := [match_names ["generidae"; "generidae"] false;
                      taxon_info_by_ott_id 41 true];
             clock := 0; stderr := []; stdout := [];
             warned := ["generidae: found in ott, but not as genus or species"] |}).
Proof.
  eapply (other_rank_is_a_failed_lookup example_service example_ctime 1 0
            "generidae" [] initial_world).
  - vm_compute. reflexivity.
  - vm_compute. reflexivity.
  - vm_compute. reflexivity.
  - discriminate.
  - discriminate.
  - vm_compute. reflexivity.
  - reflexivity.
  - constructor.
  - simpl. lia.
  - vm_compute. reflexivity.
Defined.

Lemma stripped_tokens_appended_witness :
  ∃ w', resolve example_service example_ctime 1 2 "genus species strainx" initial_world
  = Some (Ok (VStr <$> ["Eukaryota"; "Metazoa"; "Generozoa"; "Generia";
                        "Generales"; "Generidae"; "Genus species strainx"]), w').
Proof.
  eexists. etrans.
  - eapply (stripped_tokens_appended example_service example_ctime 1 2
              "genus" ["species"; "strainx"]).
    + discriminate.
    + repeat constructor.
    + vm_compute. reflexivity.
    + vm_compute. reflexivity.
    + simpl. lia.
  - vm_compute. reflexivity.
Defined.


Lemma core_genus_fallback_witness :
  ∃ d, taxonomy_of 43
         (Some {| status_code := 200;
                  body := taxon_info_json (example_taxon "species" "Alba longa" 43)
                                          example_lineage |}) = Ok d ∧
       d !! "cg" = Some (VStr "Alba") ∧ d !! "tax_cg_ott_id" = Some VNan.
Proof.
  eapply (proj1 (core_genus_fallback 43 200 (example_taxon "species" "Alba longa" 43)
                   example_lineage)).
  - vm_compute. reflexivity.
  - constructor.
  - vm_compute. reflexivity.
  - vm_compute. reflexivity.
Defined.

(** Every lookup against the scripted service returns. *)
Lemma example_lookups_return q w :
  is_Some (otl_checkname example_service example_ctime 1 q w).
Proof.
  cbv [otl_checkname otl_tnrs try_except requests_post example_service mbind M_bind].
  destruct (String.eqb q "genus"); [vm_compute; eauto|].
  destruct (String.eqb q "generidae" || String.eqb q "genus incertae");
    [vm_compute; eauto|].
  destruct (String.eqb q "orphan"); vm_compute; eauto.
Qed.

Lemma shortening_terminates_witness :
  is_Some (resolve example_service example_ctime 1 2 "genus species strainx"
             initial_world).
Proof.
  apply (shortening_terminates example_service example_ctime 1 2
           "genus species strainx").
  - exact example_lookups_return.
  - vm_compute. lia.
Defined.

(** C10 as the specification states it fails on a label with consecutive
    spaces: [a   b] has two tokens between white space, yet with every
    lookup failing the loop is still running after two rounds and returns
    after the third, having looked up three shortened labels. *)
Lemma consecutive_spaces_extra_rounds :
  split_whitespace "a   b" = ["a"; "b"] ∧
  shorten example_service example_ctime 1 2 EmptyDict ["a   b"] initial_world = None ∧
  fst <$> shorten example_service example_ctime 1 3 EmptyDict ["a   b"] initial_world
  = Some (Ok (EmptyDict, ["a"; EmptyString; EmptyString; "b"])) ∧
  (sent ∘ snd) <$> shorten example_service example_ctime 1 3 EmptyDict ["a   b"]
                     initial_world
  = Some [match_names ["a  "; "a  "] false; match_names ["a "; "a "] false;
          match_names ["a"; "a"] false].
Proof. vm_compute. auto. Qed.

Lemma rows_follow_sample_columns_witness :
  ∃ written w',
    main example_service example_ctime example_files example_int
      PRUNING_VALUE_default 1 2 ["process-otu-data.py"; "in.csv"; "out.csv"]
      initial_world = Some (Ok written, w') ∧
    ∃ species_processed proportions,
      Forall2 (λ (row : list string) (cells : list pyval), length cells = 7%nat)
        [["Genus species StrainX"; "20"; "10"; "4"]; ["Sp2"; "5"; "10"; "40"]]
        species_processed ∧
      Forall (λ p : list Q, length p = 2%nat) proportions ∧
      drop 1 written
      ≡ₚ zip_with (λ cells p, cells ++ (VFloat <$> p)) species_processed proportions.
Proof.
  eexists _, _. split; [vm_compute; reflexivity|].
  edestruct (rows_follow_sample_columns example_service example_ctime
               example_files example_int PRUNING_VALUE_default 1 2
               "process-otu-data.py" "in.csv" "out.csv"
               ["OTU"; "siteA"; "Control"; "siteB"]
               [["Genus species StrainX"; "20"; "10"; "4"]; ["Sp2"; "5"; "10"; "40"]]
               initial_world)
    as (control_col & sp & controls & counts & props & Hfind & Hsp & _ & _ & _ & Hlen & Hperm).
  - reflexivity.
  - repeat constructor.
  - vm_compute. reflexivity.
  - exists sp, props. split; [|split].
    + eapply Forall2_impl; [exact Hsp|]. simpl. intros row cells (? & ? & ? & _ & _ & H). exact H.
    + vm_compute in Hfind. injection Hfind as <-. exact Hlen.
    + exact Hperm.
Defined.

(** The table written for the example file, header first. *)
Example written_table_example :
  fst <$> main example_service example_ctime example_files example_int
            PRUNING_VALUE_default 1 2 ["process-otu-data.py"; "in.csv"; "out.csv"]
            initial_world
  = Some (Ok [VStr <$> ["domain"; "kingdom"; "phylum"; "class"; "order"; "family";
                        "genus, species"; "siteA"; "Control"];
              (VStr <$> ["-"; "-"; "-"; "-"; "-"; "-"; "sp2"])
                ++ [VFloat (0 # 20); VFloat (40 # 40)];
              (VStr <$> ["Eukaryota"; "Metazoa"; "Generozoa"; "Generia"; "Generales";
                         "Generidae"; "Genus species strainx"])
                ++ [VFloat (20 # 20); VFloat (0 # 40)]]).
Proof. vm_compute. reflexivity. Qed.

(** ** Examples for the further properties *)

Lemma otl_tnrs_retries_until_answered_witness :
  ∃ w', otl_tnrs flaky_service example_ctime 3 "genus" false 600 initial_world
        = Some (ok200 (one_match (example_taxon "genus" "Genus" 42)), w') ∧
        sent w' = replicate 3 (match_names ["genus"; "genus"] false) ∧
        clock w' = 1200.
Proof.
  destruct (otl_tnrs_retries_until_answered flaky_service example_ctime 2 3
              "genus" false 600 initial_world
              {| status_code := 200;
                 body := one_match (example_taxon "genus" "Genus" 42) |})
    as (w' & H & Hsent & Hclock & _).
  - intros [|[|i]] Hi; [reflexivity|reflexivity|lia].
  - reflexivity.
  - reflexivity.
  - lia.
  - exists w'. split; [exact H|]. split; [exact Hsent|exact Hclock].
Defined.

Lemma otl_tnrs_outcome_witness :
  ∃ k, (k < 3)%nat ∧
       flaky_service k (match_names ["genus"; "genus"] false)
       = ok200 (one_match (example_taxon "genus" "Genus" 42)).
Proof.
  edestruct (otl_tnrs_outcome flaky_service example_ctime 3 "genus" false 600
               initial_world) as (k & Hk & _ & Hr & _).
  - vm_compute. reflexivity.
  - exists k. split; [exact Hk|exact Hr].
Defined.

Lemma otl_tnrs_never_gives_up_witness :
  otl_tnrs down_service example_ctime 5 "genus" false 600 initial_world = None.
Proof.
  apply (otl_tnrs_never_gives_up down_service example_ctime "genus" false 600 5
           initial_world).
  intros i. reflexivity.
Defined.

Lemma otl_taxon_outcome_witness :
  ∃ w', otl_taxon example_service example_ctime 1 7 3600 false initial_world
        = Some (Ok None, w') ∧
        ∃ lines, stderr w' = lines ++ ["unknown taxon"; "skipping"].
Proof.
  eexists. split; [vm_compute; reflexivity|].
  edestruct (otl_taxon_outcome example_service example_ctime 1 7 3600 false
               initial_world (Ok None))
    as (k & lines & Hk & _ & _ & _ & _ & bad & message & Hbad & _ & Hmessage & Hstderr).
  - vm_compute. reflexivity.
  - exists lines. rewrite Hstderr.
    assert (k = 0%nat) as -> by lia.
    vm_compute in Hbad. injection Hbad as <-.
    vm_compute in Hmessage. injection Hmessage as <-. reflexivity.
Defined.

Lemma otl_taxon_retries_until_answered_witness :
  ∃ w', otl_taxon flaky_service example_ctime 3 42 3600 false initial_world
        = Some (Ok (Some {| status_code := 200;
                            body := taxon_info_json (example_taxon "genus" "Genus" 42)
                                                    example_lineage |}), w') ∧
        sent w' = replicate 3 (taxon_info_by_ott_id 42 true) ∧
        clock w' = 7200.
Proof.
  destruct (otl_taxon_retries_until_answered flaky_service example_ctime 2 3
              42 3600 false initial_world
              {| status_code := 200;
                 body := taxon_info_json (example_taxon "genus" "Genus" 42)
                                         example_lineage |})
    as (w' & H & Hsent & Hclock & _).
  - intros [|[|i]] Hi; [reflexivity|reflexivity|lia].
  - reflexivity.
  - reflexivity.
  - lia.
  - exists w'. split; [exact H|]. split; [exact Hsent|exact Hclock].
Defined.

Lemma list2dict_needs_colons_witness :
  (∃ d, list2dict ["ncbi:9"; "gbif:7"] = Ok d) ∧
  Exists (λ x, contains ":" x = false) ["ncbi:9"; "worms"].
Proof.
  split.
  - apply (proj1 (list2dict_needs_colons ["ncbi:9"; "gbif:7"])).
    repeat constructor.
  - apply (proj2 (list2dict_needs_colons ["ncbi:9"; "worms"]) IndexError).
    vm_compute. reflexivity.
Defined.

Lemma list2dict_last_entry_wins_witness :
  ∃ d, list2dict ["ncbi:1"; "ncbi:9"; "gbif:2"] = Ok d ∧ d !! "ncbi" = Some "9".
Proof.
  destruct (list2dict ["ncbi:1"; "ncbi:9"; "gbif:2"]) as [d|e] eqn:Hd;
    [|vm_compute in Hd; discriminate].
  exists d. split; [reflexivity|].
  apply (list2dict_last_entry_wins ["ncbi:1"] ["gbif:2"] "ncbi:9" "ncbi" "9" []).
  - exact Hd.
  - reflexivity.
  - repeat constructor. vm_compute. discriminate.
Defined.

Lemma taxonomy_of_malformed_source_witness :
  taxonomy_of 42
    (Some {| status_code := 200;
             body := taxon_info_json
                       {| taxon_rank := "genus"; taxon_name := "Genus";
                          taxon_unique_name := "Genus"; taxon_ott_id := 42;
                          taxon_tax_sources := ["ncbi:9"; "worms"] |}
                       example_lineage |})
  = Raise IndexError.
Proof.
  apply taxonomy_of_malformed_source. simpl.
  apply Exists_cons_tl, Exists_cons_hd. reflexivity.
Defined.

Lemma taxonomy_of_provenance_witness :
  ∃ d, taxonomy_of 42
         (Some {| status_code := 200;
                  body := taxon_info_json (example_taxon "genus" "Genus" 42)
                                          example_lineage |}) = Ok d ∧
       d !! "tax_ott_id" = Some (VInt 42) ∧
       d !! "tax_ott_accepted_name" = Some (VStr "Genus") ∧
       d !! "tax_no rank" = None.
Proof.
  pose (r := taxonomy_of 42
               (Some {| status_code := 200;
                        body := taxon_info_json (example_taxon "genus" "Genus" 42)
                                                example_lineage |})).
  assert (Hr : r = Ok (match r with Ok d => d | Raise _ => ∅ end))
    by (vm_compute; reflexivity).
  destruct (taxonomy_of_provenance 42 200 (example_taxon "genus" "Genus" 42)
              example_lineage _ Hr) as (H1 & H2 & _ & _ & H3 & _).
  eexists. split; [exact Hr|]. split; [exact H1|]. split; [exact H2|exact H3].
Defined.

Lemma taxonomy_of_lineage_fields_witness :
  ∃ d, taxonomy_of 42
         (Some {| status_code := 200;
                  body := taxon_info_json (example_taxon "genus" "Genus" 42)
                                          example_lineage |}) = Ok d ∧
       d !! "tax_family" = Some (VStr "Generidae").
Proof.
  pose (r := taxonomy_of 42
               (Some {| status_code := 200;
                        body := taxon_info_json (example_taxon "genus" "Genus" 42)
                                                example_lineage |})).
  assert (Hr : r = Ok (match r with Ok d => d | Raise _ => ∅ end))
    by (vm_compute; reflexivity).
  eexists. split; [exact Hr|].
  apply (taxonomy_of_lineage_fields 42 200 (example_taxon "genus" "Genus" 42)
           example_lineage _ "family" Hr).
  repeat (first [apply list_elem_of_here | apply list_elem_of_further]).
Defined.

Lemma taxonomy_of_ancestor_ids_witness :
  ∃ d, taxonomy_of 45
         (Some {| status_code := 200;
                  body := taxon_info_json
                            (example_taxon "subspecies" "Alba longa minor" 45)
                            (example_taxon "species" "Alba longa" 43
                             :: example_taxon "genus" "Alba" 44
                             :: example_lineage) |}) = Ok d ∧
       d !! "tax_cs_ott_id" = Some (VInt 43) ∧
       d !! "tax_cg_ott_id" = Some (VInt 44) ∧
       d !! "tax_genus" = None.
Proof.
  pose (r := taxonomy_of 45
               (Some {| status_code := 200;
                        body := taxon_info_json
                                  (example_taxon "subspecies" "Alba longa minor" 45)
                                  (example_taxon "species" "Alba longa" 43
                                   :: example_taxon "genus" "Alba" 44
                                   :: example_lineage) |})).
  assert (Hr : r = Ok (match r with Ok d => d | Raise _ => ∅ end))
    by (vm_compute; reflexivity).
  destruct (taxonomy_of_ancestor_ids 45 200
              (example_taxon "subspecies" "Alba longa minor" 45)
              (example_taxon "species" "Alba longa" 43
               :: example_taxon "genus" "Alba" 44 :: example_lineage) _ Hr)
    as [Hs Hg].
  eexists. split; [exact Hr|].
  split; [exact (Hs (example_taxon "species" "Alba longa" 43) [] eq_refl)|].
  apply (Hg ltac:(apply list_elem_of_further, list_elem_of_here)
            (example_taxon "genus" "Alba" 44) [] eq_refl).
Defined.

Lemma otl_checkname_without_match_witness :
  otl_checkname example_service example_ctime 1 "sp2" initial_world
  = Some (Ok EmptyDict,
          {| sent := [match_names ["sp2"; "sp2"] false]; clock := 0;
             stderr := []; stdout := []; warned := [] |}).
Proof.
  apply (proj2 (otl_checkname_without_match example_service example_ctime 1 "sp2"
                  initial_world
                  {| status_code := 200;
                     body := match_names_json [{| matches := [] |}] |}
                  {| sent := [match_names ["sp2"; "sp2"] false]; clock := 0;
                     stderr := []; stdout := []; warned := [] |}
                  ltac:(vm_compute; reflexivity))
               {| matches := [] |} []).
  - reflexivity.
  - reflexivity.
Defined.

Lemma otl_checkname_found_witness :
  ∃ d w', otl_checkname example_service example_ctime 1 "genus" initial_world
          = Some (Ok (NameDict d), w') ∧
          current_name d = "Genus" ∧ name_id d = 42 ∧ level d = "genus" ∧
          ncbi_id d = None.
Proof.
  pose (w1 := {| sent := [match_names ["genus"; "genus"] false]; clock := 0;
                 stderr := []; stdout := []; warned := [] |}).
  pose (r := taxonomy_OTT example_service example_ctime 1 42 w1).
  assert (Hr : r = Some (Ok (match r with Some (Ok h, _) => h | _ => ∅ end),
                         match r with Some (_, w) => w | None => w1 end))
    by (vm_compute; reflexivity).
  destruct (otl_checkname_found example_service example_ctime 1 "genus"
               initial_world
               {| status_code := 200;
                  body := one_match (example_taxon "genus" "Genus" 42) |}
               w1
               {| matches := [example_taxon "genus" "Genus" 42] |} []
               (example_taxon "genus" "Genus" 42) [] _ _
               ltac:(vm_compute; reflexivity) eq_refl eq_refl Hr
               ltac:(apply list_elem_of_further, list_elem_of_here))
    as (d & H & Hname & Hid & _ & _ & Hlevel & Hncbi).
  exists d. eexists. split; [exact H|].
  split; [exact Hname|]. split; [exact Hid|]. split; [exact Hlevel|exact Hncbi].
Defined.

Lemma resolve_first_try_witness :
  ∃ d w', resolve example_service example_ctime 1 0 "genus" initial_world
          = Some (Ok (lineage_cells d ++ [VStr "Genus"]), w') ∧
          lineage_cells d = VStr <$> ["Eukaryota"; "Metazoa"; "Generozoa"; "Generia";
                                      "Generales"; "Generidae"].
Proof.
  pose (r := otl_checkname example_service example_ctime 1 "genus" initial_world).
  pose (d := match r with
             | Some (Ok (NameDict d), _) => d
             | _ => {| current_name := "-"; name_id := 0; name_source := "-";
                       higher_taxonomy := ∅; level := "-"; ncbi_id := None |}
             end).
  pose (w' := match r with Some (_, w) => w | None => initial_world end).
  assert (Hr : r = Some (Ok (NameDict d), w')) by (vm_compute; reflexivity).
  exists d, w'. split.
  - rewrite (resolve_first_try example_service example_ctime 1 0 "genus" d
               initial_world w' Hr).
    assert (current_name d = "Genus") as -> by (vm_compute; reflexivity).
    reflexivity.
  - vm_compute. reflexivity.
Defined.

Lemma resolve_outcome_witness :
  ∃ prefix stripped taxa w1 w',
    "genus species strainx" = join " " (prefix :: stripped) ∧
    lookups_fail example_service example_ctime 1 (attempts prefix stripped)
      initial_world = Some w1 ∧
    otl_checkname example_service example_ctime 1 prefix w1 = Some (Ok taxa, w').
Proof.
  pose (r := resolve example_service example_ctime 1 2 "genus species strainx"
               initial_world).
  pose (row := match r with Some (Ok row, _) => row | _ => [] end).
  pose (w' := match r with Some (_, w) => w | None => initial_world end).
  assert (Hr : r = Some (Ok row, w')) by (vm_compute; reflexivity).
  destruct (resolve_outcome example_service example_ctime 1 2
              "genus species strainx" initial_world row w' Hr)
    as (prefix & stripped & taxa & w1 & Hjoin & _ & Hfail & Hlast & _).
  exists prefix, stripped, taxa, w1, w'. auto.
Defined.

Lemma missing_input_file_witness :
  main example_service example_ctime example_files example_int
    PRUNING_VALUE_default 1 1 ["process-otu-data.py"; "lost.csv"; "out.csv"]
    initial_world
  = Some (Raise (SystemExit 1),
          complained ("file 'lost.csv' not found" +:+ newline) initial_world).
Proof.
  apply (missing_input_file example_service example_ctime example_files example_int
           PRUNING_VALUE_default 1 1 "process-otu-data.py" "lost.csv" "out.csv"
           initial_world).
  reflexivity.
Defined.

Lemma no_otu_column_witness :
  read_data faulty_files example_int "names.csv" initial_world
  = Some (Raise (SystemExit 1),
          complained ("no OTU column found" +:+ newline) initial_world).
Proof.
  apply (no_otu_column faulty_files example_int "names.csv" "name" ["control"]
           [["a"; "1"]] initial_world).
  - reflexivity.
  - discriminate.
Defined.

Lemma no_control_column_witness :
  read_data faulty_files example_int "samples.csv" initial_world
  = Some (Raise (SystemExit 1),
          complained ("no control column found" +:+ newline) initial_world).
Proof.
  apply (no_control_column faulty_files example_int "samples.csv" ["OTU"; "siteA"]
           [["a"; "1"]] ["a"] initial_world).
  - reflexivity.
  - reflexivity.
  - reflexivity.
  - discriminate.
  - vm_compute. intros H. repeat (apply elem_of_cons in H as [H|H]; [discriminate|]).
    inversion H.
Defined.

Lemma degenerate_files_witness :
  read_data faulty_files example_int "empty.csv" initial_world
  = Some (Raise StopIteration, initial_world) ∧
  read_data faulty_files example_int "blank.csv" initial_world
  = Some (Raise IndexError, initial_world) ∧
  read_data faulty_files example_int "header.csv" initial_world
  = Some (Raise IndexError, initial_world).
Proof.
  split; [|split].
  - apply (proj1 (degenerate_files faulty_files example_int "empty.csv" initial_world)).
    reflexivity.
  - apply (proj1 (proj2 (degenerate_files faulty_files example_int "blank.csv"
                           initial_world)) [["a"; "1"]]).
    reflexivity.
  - apply (proj2 (proj2 (degenerate_files faulty_files example_int "header.csv"
                           initial_world)) ["OTU"; "control"] []).
    + reflexivity.
    + reflexivity.
    + left. reflexivity.
Defined.

Lemma read_data_accepts_witness :
  ∃ species controls data,
    read_data example_files example_int "in.csv" initial_world
    = Some (Ok (["OTU"; "siteA"; "Control"; "siteB"], species, controls, data),
            initial_world) ∧
    length species = 2%nat ∧ length controls = 2%nat ∧ length data = 2%nat.
Proof.
  apply (read_data_accepts example_files example_int "in.csv"
           ["OTU"; "siteA"; "Control"; "siteB"]
           [["Genus species StrainX"; "20"; "10"; "4"]; ["Sp2"; "5"; "10"; "40"]]
           2 "control" initial_world).
  - reflexivity.
  - reflexivity.
  - vm_compute. reflexivity.
  - discriminate.
  - repeat constructor.
  - repeat (apply Forall_cons; split); try apply Forall_nil;
      eexists; vm_compute; reflexivity.
Defined.

Lemma written_rows_are_sorted_witness :
  ∃ written,
    write_data ["OTU"; "siteA"; "control"] [[VStr "b"]; [VStr "a"]]
               [[(1 # 4)%Q]; [(3 # 4)%Q]] = Ok written ∧
    Sorted row_le (drop 1 written) ∧ length written = 3%nat.
Proof.
  eexists. split; [vm_compute; reflexivity|].
  apply (written_rows_are_sorted ["OTU"; "siteA"; "control"] [[VStr "b"]; [VStr "a"]]
           [[(1 # 4)%Q]; [(3 # 4)%Q]]).
  vm_compute. reflexivity.
Defined.

Lemma header_row_when_control_is_last_witness :
  ∃ row, Forall2 (λ (col : nat) cell,
                    ∃ label, ["OTU"; "siteA"; "siteB"; "control"] !! col = Some label ∧
                             cell = VStr label)
                 [1; 2]%nat (drop 7 row).
Proof.
  edestruct (header_row_when_control_is_last ["OTU"; "siteA"; "siteB"; "control"]
               [[VStr "b"]; [VStr "a"]] [[(1 # 4)%Q; 1%Q]; [(3 # 4)%Q; 0%Q]])
    as (row & _ & _ & H).
  - vm_compute. reflexivity.
  - exists row. exact H.
Defined.

Lemma header_row_when_control_is_not_last_witness :
  ∃ row, length row = 9%nat ∧ row !! 8%nat = Some (VStr "Control").
Proof.
  edestruct (header_row_when_control_is_not_last ["OTU"; "siteA"; "Control"; "siteB"]
               [[VStr "b"]; [VStr "a"]] [[(1 # 4)%Q; 1%Q]; [(3 # 4)%Q; 0%Q]])
    as (row & _ & Hlen & H).
  - vm_compute. reflexivity.
  - instantiate (1 := 2%nat). simpl. lia.
  - reflexivity.
  - exists row. split; [exact Hlen|exact H].
Defined.

Lemma write_data_needs_a_row_per_otu_witness :
  (∃ written, write_data ["OTU"; "siteA"; "control"] [[VStr "a"]]
                         [[(1 # 4)%Q]; [(3 # 4)%Q]] = Ok written) ∧
  write_data ["OTU"; "siteA"; "control"] [[VStr "b"]; [VStr "a"]] [[(1 # 4)%Q]]
  = Raise IndexError.
Proof.
  split.
  - apply (proj1 (write_data_needs_a_row_per_otu ["OTU"; "siteA"; "control"]
                    [[VStr "a"]] [[(1 # 4)%Q]; [(3 # 4)%Q]])).
    simpl. lia.
  - apply (proj2 (write_data_needs_a_row_per_otu ["OTU"; "siteA"; "control"]
                    [[VStr "b"]; [VStr "a"]] [[(1 # 4)%Q]])).
    simpl. lia.
Defined.

Lemma prune_needs_a_control_per_row_witness :
  (∃ pruned, prune PRUNING_VALUE_default [10] [[20; 5]; []] = Ok pruned) ∧
  ¬ (∃ pruned, prune PRUNING_VALUE_default [10] [[20; 5]; [3]] = Ok pruned).
Proof.
  split.
  - apply (proj1 (prune_needs_a_control_per_row PRUNING_VALUE_default [10]
                    [[20; 5]; []])).
    intros [|[|i]] row Hrow Hne; simpl in *; [lia|congruence|discriminate].
  - intros H.
    pose proof (proj1 (proj1 (prune_needs_a_control_per_row PRUNING_VALUE_default
                                [10] [[20; 5]; [3]])) H 1%nat [3] eq_refl
                  ltac:(discriminate)) as Hlt.
    simpl in Hlt. lia.
Defined.

Lemma proportions_need_a_rectangle_witness :
  (∃ out, proportions [[20; 0]; [0; 40]] = Ok out) ∧
  ¬ (∃ out, proportions [[20; 0]; [5]] = Ok out).
Proof.
  split.
  - apply (proj1 (proportions_need_a_rectangle [[20; 0]; [0; 40]])). split.
    + repeat constructor.
    + repeat constructor; discriminate.
  - intros H.
    destruct (proj1 (proj1 (proportions_need_a_rectangle [[20; 0]; [5]])) H)
      as [Hrect _].
    apply Forall_inv in Hrect. discriminate Hrect.
Defined.

Lemma normalized_cell_witness :
  ∃ orow, prune_and_normalize PRUNING_VALUE_default [10; 10] [[20; 30]; [5; 90]]
          = Ok [orow; [(0 # 20)%Q; (90 # 120)%Q]] ∧
          orow !! 1%nat = Some (inject_Z 30 / inject_Z 120)%Q.
Proof.
  destruct (normalized_cell PRUNING_VALUE_default [10; 10] [[20; 30]; [5; 90]]
              [[(20 # 20)%Q; (30 # 120)%Q]; [(0 # 20)%Q; (90 # 120)%Q]]
              0 1 [20; 30] 30 10)
    as (col & orow & Hcol & _ & Horow & Hcell).
  - vm_compute. reflexivity.
  - reflexivity.
  - reflexivity.
  - reflexivity.
  - injection Hcol as <-. injection Horow as <-.
    eexists. split; [vm_compute; reflexivity|]. exact Hcell.
Defined.

Lemma process_data_shape_witness :
  ∃ sp dp w',
    process_data example_service example_ctime PRUNING_VALUE_default 1 2
      ["genus species strainx"; "sp2"] [10; 10] [[20; 4]; [5; 40]] initial_world
    = Some (Ok (sp, dp), w') ∧
    length sp = 2%nat ∧ Forall (λ cells, length cells = 7%nat) sp.
Proof.
  destruct (process_data example_service example_ctime PRUNING_VALUE_default 1 2
              ["genus species strainx"; "sp2"] [10; 10] [[20; 4]; [5; 40]]
              initial_world)
    as [[[[sp dp]|e] w']|] eqn:H; try (vm_compute in H; discriminate).
  exists sp, dp, w'. split; [reflexivity|].
  destruct (process_data_shape example_service example_ctime PRUNING_VALUE_default
              1 2 ["genus species strainx"; "sp2"] [10; 10] [[20; 4]; [5; 40]]
              sp dp initial_world w' H)
    as (Hlen & Hcells & _).
  split; [exact Hlen|exact Hcells].
Defined.
